(** * OpenClaw dashboard: the data-reconciliation layer

    A shallow embedding of [src/app/api/dashboard-data/route.ts], of the
    generator script [scripts/generate-live-data.js] and of the debug route
    [src/app/api/debug/data-status/route.ts], followed by the properties of
    the agent reconciler, the cron record mapping, the report parser, the
    JSON extraction, the adapters, the snapshot assembler, the generated
    snapshot and the status of the snapshot files.

    The route is embedded in the modules [Reconciler] (the body of
    [fetchAgentData]), [Cron] (the record mapping of [fetchCronStatus]),
    [Parser] ([parseB2LHorses]) and [Route] (the adapters, [buildLiveData]
    and [GET]); the script in [Generate] and [Script]; the debug route in
    [Debug]; the built-ins they call in [Js], [Json] and [Num].

    Conventions of the embedding.
    - A JavaScript string is a [string]: the bytes of its UTF-8 text.  White
      space ([\s], [trim]) and case mapping are the ASCII ones; the Unicode
      spaces, the separators U+2028 and U+2029 and the case of the letters
      outside ASCII are outside the model.
    - A token count and a cost are numbers: binary64 values ([float]), read
      from the decimal text of the payload and added as JavaScript adds
      them.  Session counts are [nat]; the epoch milliseconds of the cron
      jobs are integers below 2^53, where JavaScript's arithmetic is exact,
      and are [Z].
    - An optional field of a TypeScript type is an [option]; [undefined] is
      [None].  A payload is read at its declared type.
    - What the program reads from outside (the outcome of a command, a
      directory listing, the token, the response of a request, the clock, a
      file) is an argument; so is what the engine leaves open (the date
      formats it reads, the messages of its exceptions).
    - A function that may throw returns an [outcome]. *)

From Stdlib Require Import ZArith NArith List String Ascii Bool Lia.
From Stdlib Require Import Permutation Sorted Decimal DecimalString Floats.
Import ListNotations.

Local Open Scope string_scope.
Local Open Scope list_scope.

(* Decimal literals such as 0.0000263 denote the nearest binary64 value, as
   they do in JavaScript. *)
#[local] Set Warnings "-inexact-float,-register-all,-abstract-large-number".

Infix "+++" := String.append (right associativity, at level 60).

(* ================================================================== *)
(** ** JavaScript built-ins used by the sources *)

Module Js.

(** [\s] of a regular expression and the characters [trim] removes. *)
Definition isSpace (c : ascii) : bool :=
  let n := N_of_ascii c in
  ((n =? 32) || ((9 <=? n) && (n <=? 13)))%N.

(** [\d]. *)
Definition isDigit (c : ascii) : bool :=
  let n := N_of_ascii c in ((48 <=? n) && (n <=? 57))%N.

(** [.] of a regular expression without the [s] flag: no line terminator. *)
Definition isDot (c : ascii) : bool :=
  let n := N_of_ascii c in negb ((n =? 10) || (n =? 13))%N.

Fixpoint trimStart (s : string) : string :=
  match s with
  | String c r => if isSpace c then trimStart r else s
  | EmptyString => EmptyString
  end.

Fixpoint trimEnd (s : string) : string :=
  match s with
  | String c r =>
      match trimEnd r with
      | EmptyString => if isSpace c then EmptyString else String c EmptyString
      | r' => String c r'
      end
  | EmptyString => EmptyString
  end.

Definition trim (s : string) : string := trimEnd (trimStart s).

Definition isEmpty (s : string) : bool :=
  match s with EmptyString => true | _ => false end.

(** [s.startsWith(p)]. *)
Definition startsWith (s p : string) : bool := String.prefix p s.

(** The rest of [s] after the literal [p], when [s] starts with [p]. *)
Fixpoint stripPrefix (p s : string) : option string :=
  match p, s with
  | EmptyString, _ => Some s
  | String a p', String b s' =>
      if Ascii.eqb a b then stripPrefix p' s' else None
  | String _ _, EmptyString => None
  end.

(** The longest prefix of [s] whose characters all satisfy [f], and what
    follows it: a greedy [f*]. *)
Fixpoint span (f : ascii -> bool) (s : string) : string * string :=
  match s with
  | String c r =>
      if f c then let (a, b) := span f r in (String c a, b)
      else (EmptyString, s)
  | EmptyString => (EmptyString, EmptyString)
  end.

(** [s.split(sep)] for a one-character separator. *)
Fixpoint split (sep : ascii) (s : string) : list string :=
  match s with
  | EmptyString => [EmptyString]
  | String c r =>
      if Ascii.eqb c sep then EmptyString :: split sep r
      else match split sep r with
           | w :: ws => String c w :: ws
           | [] => [String c EmptyString]
           end
  end.

(** [words.join(sep)]. *)
Definition join (sep : string) (words : list string) : string :=
  String.concat sep words.

(** A byte of an ASCII character. *)
Definition isAscii (c : ascii) : bool := (N_of_ascii c <? 128)%N.

(** [toUpperCase] on one ASCII character.  A byte of a character outside
    ASCII is kept: such a character is outside the model, as [toUpperCase]
    may change it, and even lengthen the string. *)
Definition upperChar (c : ascii) : ascii :=
  let n := N_of_ascii c in
  if ((97 <=? n) && (n <=? 122))%N then ascii_of_N (n - 32) else c.

Definition lowerChar (c : ascii) : ascii :=
  let n := N_of_ascii c in
  if ((65 <=? n) && (n <=? 90))%N then ascii_of_N (n + 32) else c.

(** [String(n)] of a natural number: its decimal digits. *)
Definition ofNat (n : nat) : string := NilEmpty.string_of_uint (Nat.to_uint n).

(** [a || b] on optional strings: [a] when it is truthy (present and not
    empty), else [b]. *)
Definition truthy (o : option string) : bool :=
  match o with
  | Some s => negb (isEmpty s)
  | None => false
  end.

Definition orElse (a b : option string) : option string :=
  if truthy a then a else b.

(** [a || "literal"]. *)
Definition orDefault (a : option string) (d : string) : string :=
  match a with
  | Some s => if isEmpty s then d else s
  | None => d
  end.

(** [a ?? b]. *)
Definition nullish {A : Type} (a b : option A) : option A :=
  match a with
  | Some _ => a
  | None => b
  end.

(** A sequence of character classes, matched at the start of [s]: the
    matched text and what follows it. *)
Fixpoint matchClasses (classes : list (ascii -> bool)) (s : string)
    : option (string * string) :=
  match classes with
  | [] => Some (EmptyString, s)
  | f :: classes' =>
      match s with
      | String c r =>
          if f c then
            match matchClasses classes' r with
            | Some (m, rest) => Some (String c m, rest)
            | None => None
            end
          else None
      | EmptyString => None
      end
  end.

Definition isChar (x : ascii) (c : ascii) : bool := Ascii.eqb c x.

(** [\d{4}-\d{2}-\d{2}]. *)
Definition datePattern : list (ascii -> bool) :=
  [isDigit; isDigit; isDigit; isDigit; isChar "-";
   isDigit; isDigit; isChar "-"; isDigit; isDigit].

(** [\d{2}:\d{2}]. *)
Definition timePattern : list (ascii -> bool) :=
  [isDigit; isDigit; isChar ":"; isDigit; isDigit].

Fixpoint all (f : ascii -> bool) (s : string) : bool :=
  match s with
  | String c r => f c && all f r
  | EmptyString => true
  end.

(** The last character of a string. *)
Fixpoint last (s : string) : option ascii :=
  match s with
  | String c EmptyString => Some c
  | String _ r => last r
  | EmptyString => None
  end.

(** A literal matched without regard to (ASCII) case, as under the [i]
    flag: the matched text and what follows it. *)
Fixpoint stripPrefixCI (p s : string) : option (string * string) :=
  match p, s with
  | EmptyString, _ => Some (EmptyString, s)
  | String a p', String b s' =>
      if Ascii.eqb (lowerChar a) (lowerChar b) then
        match stripPrefixCI p' s' with
        | Some (m, rest) => Some (String b m, rest)
        | None => None
        end
      else None
  | String _ _, EmptyString => None
  end.

(** [content.split(/\r?\n/)]. *)
Fixpoint splitLines (s : string) : list string :=
  match s with
  | EmptyString => [EmptyString]
  | String c r =>
      if Ascii.eqb c "010" then EmptyString :: splitLines r
      else
        match r with
        | String c' r' =>
            if Ascii.eqb c "013" && Ascii.eqb c' "010"
            then EmptyString :: splitLines r'
            else match splitLines r with
                 | w :: ws => String c w :: ws
                 | [] => [String c EmptyString]
                 end
        | EmptyString => [String c EmptyString]
        end
  end.

(** Decimal digits of [n], padded with zeros on the left to [width]. *)
Fixpoint zeros (k : nat) : string :=
  match k with
  | O => EmptyString
  | S k' => String "0" (zeros k')
  end.

Definition pad (width : nat) (n : Z) : string :=
  let digits := ofNat (Z.to_nat n) in
  zeros (width - String.length digits) +++ digits.

(** The largest time value of a [Date], in milliseconds either side of the
    epoch. *)
Definition maxTime : Z := 8640000000000000.

(** The civil date of a day number (days since 1970-01-01) in the proleptic
    Gregorian calendar: year, month, day. *)
Definition civil (days : Z) : Z * Z * Z :=
  let z := (days + 719468)%Z in
  let era := (z / 146097)%Z in
  let doe := (z - era * 146097)%Z in
  let yoe := ((doe - doe / 1460 + doe / 36524 - doe / 146096) / 365)%Z in
  let doy := (doe - (365 * yoe + yoe / 4 - yoe / 100))%Z in
  let mp := ((5 * doy + 2) / 153)%Z in
  let d := (doy - (153 * mp + 2) / 5 + 1)%Z in
  let m := (if mp <? 10 then mp + 3 else mp - 9)%Z in
  let y := (yoe + era * 400 + (if m <=? 2 then 1 else 0))%Z in
  (y, m, d).

(** [new Date(t).toISOString()] for a time value [t] in range:
    [YYYY-MM-DDTHH:mm:ss.sssZ], the year with a sign and six digits outside
    0..9999. *)
Definition toISOString (t : Z) : string :=
  let days := (t / 86400000)%Z in
  let ms := (t mod 86400000)%Z in
  let '(y, m, d) := civil days in
  let year :=
    if ((0 <=? y) && (y <=? 9999))%Z then pad 4 y
    else (if (y <? 0)%Z then "-" else "+") +++ pad 6 (Z.abs y) in
  year +++ "-" +++ pad 2 m +++ "-" +++ pad 2 d
  +++ "T" +++ pad 2 (ms / 3600000) +++ ":" +++ pad 2 (ms / 60000 mod 60)
  +++ ":" +++ pad 2 (ms / 1000 mod 60) +++ "." +++ pad 3 (ms mod 1000) +++ "Z".

(** What a call yields: a value, or a thrown exception. *)
Inductive outcome (A : Type) : Type :=
| Returned (a : A)
| Raised.
Arguments Returned {A} a.
Arguments Raised {A}.

End Js.

(* ================================================================== *)
(** ** [JSON.parse] *)

(** A JSON value.  A number is kept as its exact decimal value,
    [mantissa * 10 ^ exponent]; an object as its members in source order. *)
Inductive json : Type :=
| JNull
| JBool (b : bool)
| JNumber (mantissa exponent : Z)
| JString (s : string)
| JArray (elements : list json)
| JObject (members : list (string * json)).

Module Json.
Import Js.

(** JSON white space: space, tab, line feed, carriage return. *)
Definition isWs (c : ascii) : bool :=
  let n := N_of_ascii c in ((n =? 32) || (n =? 9) || (n =? 10) || (n =? 13))%N.

Fixpoint skipWs (s : string) : string :=
  match s with
  | String c r => if isWs c then skipWs r else s
  | EmptyString => EmptyString
  end.

(** The value of a hexadecimal digit. *)
Definition hexDigit (c : ascii) : option N :=
  let n := N_of_ascii c in
  if ((48 <=? n) && (n <=? 57))%N then Some (n - 48)%N
  else if ((97 <=? n) && (n <=? 102))%N then Some (n - 87)%N
  else if ((65 <=? n) && (n <=? 70))%N then Some (n - 55)%N
  else None.

Definition hex4 (a b c d : ascii) : option N :=
  match hexDigit a, hexDigit b, hexDigit c, hexDigit d with
  | Some x, Some y, Some z, Some w => Some (((x * 16 + y) * 16 + z) * 16 + w)%N
  | _, _, _, _ => None
  end.

(** What a string literal denotes, piece by piece: a byte of the text, or a
    UTF-16 code unit written as a [\u] escape. *)
Inductive piece : Type :=
| Raw (c : ascii)
| Unit16 (n : N).

(** The pieces of a string literal after its opening quote, and what
    follows its closing quote. *)
Fixpoint stringPieces (s : string) : option (list piece * string) :=
  match s with
  | EmptyString => None
  | String c r =>
      if Ascii.eqb c "034" then Some ([], r)
      else if Ascii.eqb c "\" then
        match r with
        | String e r1 =>
            let simple (x : ascii) :=
              match stringPieces r1 with
              | Some (ps, rest) => Some (Raw x :: ps, rest)
              | None => None
              end in
            if Ascii.eqb e "034" then simple "034"%char
            else if Ascii.eqb e "\" then simple "\"%char
            else if Ascii.eqb e "/" then simple "/"%char
            else if Ascii.eqb e "b" then simple "008"%char
            else if Ascii.eqb e "f" then simple "012"%char
            else if Ascii.eqb e "n" then simple "010"%char
            else if Ascii.eqb e "r" then simple "013"%char
            else if Ascii.eqb e "t" then simple "009"%char
            else if Ascii.eqb e "u" then
              match r1 with
              | String h1 (String h2 (String h3 (String h4 r2))) =>
                  match hex4 h1 h2 h3 h4, stringPieces r2 with
                  | Some n, Some (ps, rest) => Some (Unit16 n :: ps, rest)
                  | _, _ => None
                  end
              | _ => None
              end
            else None
        | EmptyString => None
        end
      else if (N_of_ascii c <? 32)%N then None
      else
        match stringPieces r with
        | Some (ps, rest) => Some (Raw c :: ps, rest)
        | None => None
        end
  end.

(** The UTF-8 bytes of a code point. *)
Definition utf8 (n : N) : string :=
  let byte (k : N) := ascii_of_N k in
  (if n <? 128 then String (byte n) EmptyString
   else if n <? 2048 then
     String (byte (192 + n / 64)) (String (byte (128 + n mod 64)) EmptyString)
   else if n <? 65536 then
     String (byte (224 + n / 4096))
       (String (byte (128 + (n / 64) mod 64))
          (String (byte (128 + n mod 64)) EmptyString))
   else
     String (byte (240 + n / 262144))
       (String (byte (128 + (n / 4096) mod 64))
          (String (byte (128 + (n / 64) mod 64))
             (String (byte (128 + n mod 64)) EmptyString))))%N.

(** The text of the pieces: a high surrogate followed by a low one is one
    code point. *)
Fixpoint textOf (ps : list piece) : string :=
  match ps with
  | [] => EmptyString
  | Raw c :: ps' => String c (textOf ps')
  | Unit16 hi :: ps' =>
      match ps' with
      | Unit16 lo :: ps'' =>
          if ((55296 <=? hi) && (hi <=? 56319) && (56320 <=? lo) && (lo <=? 57343))%N
          then utf8 (65536 + (hi - 55296) * 1024 + (lo - 56320)) +++ textOf ps''
          else utf8 hi +++ textOf ps'
      | _ => utf8 hi +++ textOf ps'
      end
  end.

(** A string literal after its opening quote. *)
Definition parseString (s : string) : option (string * string) :=
  match stringPieces s with
  | Some (ps, rest) => Some (textOf ps, rest)
  | None => None
  end.

(** The number a run of decimal digits writes, after [acc]. *)
Fixpoint digitsValue (acc : Z) (s : string) : Z :=
  match s with
  | String c r => digitsValue (acc * 10 + Z.of_N (N_of_ascii c - 48)) r
  | EmptyString => acc
  end.

(** The rest of [s] after the character [x], when [s] starts with it. *)
Definition expect (x : ascii) (s : string) : option string :=
  match s with
  | String c r => if Ascii.eqb c x then Some r else None
  | EmptyString => None
  end.

(** A number: an optional minus sign; [0], or digits not starting with [0];
    optionally a point and digits; optionally [e] or [E], a sign and digits. *)
Definition parseNumber (s : string) : option (json * string) :=
  let (negative, s0) :=
    match expect "-" s with
    | Some r => (true, r)
    | None => (false, s)
    end in
  let (int, s1) := span isDigit s0 in
  let leadingZero := startsWith int "0" && (1 <? String.length int)%nat in
  if isEmpty int || leadingZero then None
  else
    let fraction :=
      match expect "." s1 with
      | Some r =>
          let (frac, s2) := span isDigit r in
          if isEmpty frac then None else Some (frac, s2)
      | None => Some (EmptyString, s1)
      end in
    match fraction with
    | None => None
    | Some (frac, s2) =>
        let exponent :=
          match (match expect "e" s2 with
                 | Some r => Some r
                 | None => expect "E" s2
                 end) with
          | Some r =>
              let (minus, r1) :=
                match expect "-" r with
                | Some r' => (true, r')
                | None =>
                    match expect "+" r with
                    | Some r' => (false, r')
                    | None => (false, r)
                    end
                end in
              let (ds, s3) := span isDigit r1 in
              if isEmpty ds then None
              else Some ((if minus then - digitsValue 0 ds else digitsValue 0 ds)%Z, s3)
          | None => Some (0%Z, s2)
          end in
        match exponent with
        | None => None
        | Some (e, s3) =>
            let m := digitsValue (digitsValue 0 int) frac in
            Some (JNumber (if negative then - m else m)%Z
                          (e - Z.of_nat (String.length frac))%Z,
                  s3)
        end
    end.

(** A value that holds no other: a string, a literal or a number, at the
    start of [s]. *)
Definition parseScalar (s : string) : option (json * string) :=
  match expect "034" s with
  | Some r =>
      match parseString r with
      | Some (t, rest) => Some (JString t, rest)
      | None => None
      end
  | None =>
      match stripPrefix "true" s with
      | Some rest => Some (JBool true, rest)
      | None =>
          match stripPrefix "false" s with
          | Some rest => Some (JBool false, rest)
          | None =>
              match stripPrefix "null" s with
              | Some rest => Some (JNull, rest)
              | None => parseNumber s
              end
          end
      end
  end.

(** A value at the start of [s] (white space skipped), and what follows
    it; [fuel] bounds the depth of the calls. *)
Fixpoint parseValue (fuel : nat) (s : string) : option (json * string) :=
  match fuel with
  | O => None
  | S fuel' =>
      match expect "{" (skipWs s) with
      | Some r =>
          match expect "}" (skipWs r) with
          | Some rest => Some (JObject [], rest)
          | None =>
              match parseMembers fuel' r with
              | Some (ms, rest) => Some (JObject ms, rest)
              | None => None
              end
          end
      | None =>
          match expect "[" (skipWs s) with
          | Some r =>
              match expect "]" (skipWs r) with
              | Some rest => Some (JArray [], rest)
              | None =>
                  match parseElements fuel' r with
                  | Some (vs, rest) => Some (JArray vs, rest)
                  | None => None
                  end
              end
          | None => parseScalar (skipWs s)
          end
      end
  end

(** The elements of an array after its opening bracket, up to the closing
    one. *)
with parseElements (fuel : nat) (s : string) : option (list json * string) :=
  match fuel with
  | O => None
  | S fuel' =>
      match parseValue fuel' s with
      | Some (v, r) =>
          match expect "," (skipWs r) with
          | Some r' =>
              match parseElements fuel' r' with
              | Some (vs, rest) => Some (v :: vs, rest)
              | None => None
              end
          | None =>
              match expect "]" (skipWs r) with
              | Some rest => Some ([v], rest)
              | None => None
              end
          end
      | None => None
      end
  end

(** The members of an object after its opening brace, up to the closing
    one. *)
with parseMembers (fuel : nat) (s : string)
    : option (list (string * json) * string) :=
  match fuel with
  | O => None
  | S fuel' =>
      match expect "034" (skipWs s) with
      | Some r =>
          match parseString r with
          | Some (k, r1) =>
              match expect ":" (skipWs r1) with
              | Some r2 =>
                  match parseValue fuel' r2 with
                  | Some (v, r3) =>
                      match expect "," (skipWs r3) with
                      | Some r4 =>
                          match parseMembers fuel' r4 with
                          | Some (ms, rest) => Some ((k, v) :: ms, rest)
                          | None => None
                          end
                      | None =>
                          match expect "}" (skipWs r3) with
                          | Some rest => Some ([(k, v)], rest)
                          | None => None
                          end
                      end
                  | None => None
                  end
              | None => None
              end
          | None => None
          end
      | None => None
      end
  end.

(** Fuel enough for any text: every call but the first follows a character
    consumed, and at most two calls do. *)
Definition fuelFor (text : string) : nat := 2 * String.length text + 2.

(** [JSON.parse(text)]: the value, or [None] for a SyntaxError. *)
Definition parse (text : string) : option json :=
  match parseValue (fuelFor text) text with
  | Some (v, rest) => if isEmpty (skipWs rest) then Some v else None
  | None => None
  end.

(** [value.prop] on a parsed object: the last member of that name. *)
Fixpoint lookup (name : string) (members : list (string * json)) : option json :=
  match members with
  | (k, v) :: members' =>
      match lookup name members' with
      | Some v' => Some v'
      | None => if String.eqb k name then Some v else None
      end
  | [] => None
  end.

End Json.

(* ================================================================== *)
(** ** Numbers: binary64 values, token counts and their cost *)

Module Num.

(** The number an exact integer converts to: the nearest binary64 value,
    the even one on a tie. *)
Definition ofZ (z : Z) : float := SF2Prim (binary_normalize prec emax z 0 false).

(** The number a decimal literal [mantissa * 10 ^ exponent] reads as: the
    nearest binary64 value, the even one on a tie, found as the division
    does it, from an integer quotient and the place of the remainder. *)
Definition ofDecimal (mantissa exponent : Z) : float :=
  if (0 <=? exponent)%Z then ofZ (mantissa * 10 ^ exponent)
  else if (mantissa =? 0)%Z then 0%float
  else
    let '(q, e, l) :=
      SFdiv_core_binary prec emax (Z.abs mantissa) 0 (10 ^ (- exponent))%Z 0 in
    SF2Prim (binary_round_aux prec emax (mantissa <? 0)%Z q e l).

(** The integer a number holds: its value where that is an integer (the
    quotient rounded down where it is not, 0 for NaN and the infinities). *)
Definition toZ (x : float) : Z :=
  match Prim2SF x with
  | S754_finite s m e =>
      let a := if (0 <=? e)%Z then (Z.pos m * 2 ^ e)%Z else (Z.pos m / 2 ^ (- e))%Z in
      if s then (- a)%Z else a
  | _ => 0%Z
  end.

(** [Number.MAX_SAFE_INTEGER], 2^53 - 1. *)
Definition maxSafeInteger : Z := 9007199254740991.

(** A positive shifted left by [n] bits, the bits a positive below 2^53 is
    short of 53, and [n] applications of a function: the terms in which
    the rounding of an integer is followed. *)
Fixpoint shl (w : positive) (n : nat) : positive :=
  match n with
  | O => w
  | S n' => xO (shl w n')
  end.

Definition slack (v : positive) : nat := Z.to_nat (53 - Z.pos (digits2_pos v)).

Fixpoint iterate {A : Type} (f : A -> A) (n : nat) (x : A) : A :=
  match n with
  | O => x
  | S n' => iterate f n' (f x)
  end.

(** The rate constant, the literal [0.0000263]. *)
Definition rate : float := 0.0000263%float.

(** [floor (num / den + 1/2)] for a positive [den]. *)
Definition roundHalfUp (num den : Z) : Z := (2 * num + den) / (2 * den).

(** The integer [n] for which [n / 10^4] is nearest to the magnitude
    [m * 2^e], the larger one on a tie: the digits [toFixed(4)] prints. *)
Definition fixed4 (m : positive) (e : Z) : Z :=
  if (0 <=? e)%Z then Z.pos m * 10000 * 2 ^ e
  else roundHalfUp (Z.pos m * 10000) (2 ^ (- e)).

(** [Number(x.toFixed(4))].  [toFixed] prints the sign of a negative [x] and
    the digits of [fixed4]; [Number] reads them back as the nearest binary64
    value.  From 1e21 on, and for NaN and the infinities, [toFixed] prints
    [x] itself. *)
Definition roundTo4 (x : float) : float :=
  match Prim2SF x with
  | S754_zero _ => 0%float
  | S754_finite s m e =>
      if PrimFloat.leb 1e21%float (PrimFloat.abs x) then x
      else
        let q := ofDecimal (fixed4 m e) (-4) in
        if s then PrimFloat.opp q else q
  | _ => x
  end.

(** [Number((tokens * 0.0000263).toFixed(4))]. *)
Definition costOf (tokens : float) : float :=
  roundTo4 (PrimFloat.mul tokens rate).

End Num.

(* ================================================================== *)
(** ** The records of [route.ts] *)

Module OpenClawAgent.
Record t : Type := mk {
  id : option string;
  identityName : option string;
  model : option string
}.
End OpenClawAgent.

Module OpenClawSession.
Record t : Type := mk {
  key : option string;
  totalTokens : option float;
  outputTokens : option float;
  model : option string
}.
End OpenClawSession.

(** An element of [DashboardData["agents"]]. *)
Module Agent.
Inductive State : Type := Active | Idle.
Record Task : Type := mkTask { title : string; source : string }.
Record t : Type := mk {
  name : string;
  state : State;
  sessions : nat;
  tokens : float;
  cost : float;
  model : string;
  tasks : list Task
}.
End Agent.

(* ================================================================== *)
(** ** The agent reconciler of [route.ts] ([fetchAgentData], lines 146-269) *)

Module Reconciler.
Import Js.

Definition defaultModel : string := "anthropic/claude-haiku-4-5".

(** [typeof s.totalTokens === "number" ? s.totalTokens : s.outputTokens ?? 0],
    and of that value [typeof value === "number" ? value : Number(value) || 0]:
    the two fields are of the declared type [number], so that the value is
    a number and the second test keeps it. *)
Definition tokenValue (s : OpenClawSession.t) : float :=
  match OpenClawSession.totalTokens s with
  | Some n => n
  | None => match OpenClawSession.outputTokens s with
            | Some n => n
            | None => 0%float
            end
  end.

(** [`agent:${agent.id || ""}:`]. *)
Definition prefixOf (agent : OpenClawAgent.t) : string :=
  "agent:" +++ orDefault (OpenClawAgent.id agent) "" +++ ":".

(** [typeof s.key === "string" && s.key.startsWith(prefix)]. *)
Definition ownedBy (prefix : string) (s : OpenClawSession.t) : bool :=
  match OpenClawSession.key s with
  | Some k => startsWith k prefix
  | None => false
  end.

(** [agentSessions.reduce((total, session) => total + value, 0)]. *)
Definition sumTokenValues (l : list OpenClawSession.t) : float :=
  fold_left (fun total session => PrimFloat.add total (tokenValue session)) l 0%float.

(** The body of [agentsArray.map(...)], lines 153-171. *)
Definition primaryRecord (sessions : list OpenClawSession.t)
    (agent : OpenClawAgent.t) : Agent.t :=
  let prefix := prefixOf agent in
  let agentSessions := filter (ownedBy prefix) sessions in
  let tokens := sumTokenValues agentSessions in
  {| Agent.name :=
       orDefault (orElse (OpenClawAgent.identityName agent) (OpenClawAgent.id agent))
                 "Unknown";
     Agent.state := if (0 <? List.length agentSessions)%nat then Agent.Active else Agent.Idle;
     Agent.sessions := List.length agentSessions;
     Agent.tokens := tokens;
     Agent.cost := Num.costOf tokens;
     Agent.model := orDefault (OpenClawAgent.model agent) defaultModel;
     Agent.tasks := [] |}.

(** [[a-f0-9-]]. *)
Definition isUuidChar (c : ascii) : bool :=
  let n := N_of_ascii c in
  (((97 <=? n) && (n <=? 102)) || ((48 <=? n) && (n <=? 57)) || (n =? 45))%N.

(** [key.match(/^agent:main:subagent:([a-f0-9-]+)/)]: the captured group. *)
Definition subagentMatch (key : string) : option string :=
  match stripPrefix "agent:main:subagent:" key with
  | Some rest =>
      let id := fst (span isUuidChar rest) in
      if isEmpty id then None else Some id
  | None => None
  end.

(** A value of the [subagentSessions] map. *)
Record Group : Type := mkGroup {
  g_model : string;
  g_sessions : nat;
  g_tokens : float
}.

(** [subagentSessions]: a [Map], which iterates in insertion order; an
    update of a present key keeps its place. *)
Definition GroupMap : Type := list (string * Group).

Fixpoint has (m : GroupMap) (k : string) : bool :=
  match m with
  | (k', _) :: m' => String.eqb k' k || has m' k
  | [] => false
  end.

(** [existing.sessions += 1; existing.tokens += numericTokens]. *)
Fixpoint bump (m : GroupMap) (k : string) (n : float) : GroupMap :=
  match m with
  | (k', g) :: m' =>
      if String.eqb k' k
      then (k', {| g_model := g_model g;
                   g_sessions := g_sessions g + 1;
                   g_tokens := PrimFloat.add (g_tokens g) n |}) :: m'
      else (k', g) :: bump m' k n
  | [] => []
  end.

(** One iteration of the loop over the sessions, lines 185-209. *)
Definition discoverStep (m : GroupMap) (session : OpenClawSession.t) : GroupMap :=
  let key := orDefault (OpenClawSession.key session) "" in
  match subagentMatch key with
  | Some subagentId =>
      if negb (has m subagentId)
      then m ++ [(subagentId,
                  {| g_model := orDefault (OpenClawSession.model session) defaultModel;
                     g_sessions := 1;
                     g_tokens := tokenValue session |})]
      else bump m subagentId (tokenValue session)
  | None => m
  end.

Definition discover (sessions : list OpenClawSession.t) : GroupMap :=
  fold_left discoverStep sessions [].

(** [folderName.split('-').map(w => w.charAt(0).toUpperCase() + w.slice(1)).join(' ')],
    for a folder name of ASCII characters. *)
Definition capitalize (word : string) : string :=
  match word with
  | String c r => String (upperChar c) r
  | EmptyString => EmptyString
  end.

Definition displayName (folderName : string) : string :=
  join " " (map capitalize (split "-" folderName)).

(** The record pushed for a discovered group, lines 232-240. *)
Definition activeRecord (agentName : string) (data : Group) : Agent.t :=
  {| Agent.name := agentName;
     Agent.state := Agent.Active;
     Agent.sessions := g_sessions data;
     Agent.tokens := g_tokens data;
     Agent.cost := Num.costOf (g_tokens data);
     Agent.model := g_model data;
     Agent.tasks := [] |}.

(** The loop over the discovered groups, lines 216-243, from [agentIndex]. *)
Fixpoint activeRecords (definedSubAgents : list string) (agentIndex : nat)
    (groups : GroupMap) : list Agent.t :=
  match groups with
  | (_, data) :: rest =>
      let agentName :=
        if (agentIndex <? List.length definedSubAgents)%nat
        then displayName (nth agentIndex definedSubAgents "")
        else "Sub-agent " +++ ofNat (agentIndex + 1) in
      activeRecord agentName data
      :: activeRecords definedSubAgents (agentIndex + 1) rest
  | [] => []
  end.

(** The loop [for (let i = agentIndex; i < definedSubAgents.length; i++)],
    lines 246-263. *)
Definition idleRecord (folderName : string) : Agent.t :=
  {| Agent.name := displayName folderName;
     Agent.state := Agent.Idle;
     Agent.sessions := 0;
     Agent.tokens := 0%float;
     Agent.cost := 0%float;
     Agent.model := defaultModel;
     Agent.tasks := [] |}.

Definition idleRecords (definedSubAgents : list string) (agentIndex : nat)
    : list Agent.t :=
  map idleRecord (skipn agentIndex definedSubAgents).

Definition subagents (definedSubAgents : list string)
    (sessions : list OpenClawSession.t) : list Agent.t :=
  let groups := discover sessions in
  activeRecords definedSubAgents 0 groups
  ++ idleRecords definedSubAgents (List.length groups).

(** [fetchAgentData] from the extracted agent array on: [null] for an empty
    array, else the primary records followed by the secondary ones. *)
Definition reconcile (agentsArray : list OpenClawAgent.t)
    (sessions : list OpenClawSession.t) (definedSubAgents : list string)
    : option (list Agent.t) :=
  match agentsArray with
  | [] => None
  | _ =>
      let agents := map (primaryRecord sessions) agentsArray in
      Some (agents ++ subagents definedSubAgents sessions)
  end.

(** [allAgents.reduce((sum, agent) => sum + agent.tokens, 0)]. *)
Definition totalTokens (allAgents : list Agent.t) : float :=
  fold_left (fun sum agent => PrimFloat.add sum (Agent.tokens agent)) allAgents 0%float.

End Reconciler.

(* ================================================================== *)
(** ** The cron adapter's record mapping ([fetchCronStatus], lines 511-527,
       [formatTimestamp], lines 757-765; the same in the generator's
       [processCrons]) *)

(** A value of type [string | number]. *)
Inductive StrOrNum : Type :=
| IsStr (s : string)
| IsNum (n : Z).

Module JobPayload.
Record t : Type := mk {
  name : option string;
  text : option string
}.
End JobPayload.

Module JobState.
Record t : Type := mk {
  lastStatus : option string;
  status : option string;
  nextRunAtMs : option Z;
  next_run : option StrOrNum;
  lastRunAtMs : option Z;
  last_run : option StrOrNum;
  lastRun : option StrOrNum
}.
(** [{}]. *)
Definition empty : t := mk None None None None None None None.
End JobState.

Module OpenClawJob.
Record t : Type := mk {
  id : option string;
  name : option string;
  payload : option JobPayload.t;
  state : option JobState.t
}.
End OpenClawJob.

(** An element of [DashboardData["crons"]["jobs"]], and the section. *)
Module CronRecord.
Record t : Type := mk {
  name : string;
  status : string;
  nextRun : string;
  lastRun : string
}.
End CronRecord.

Module Crons.
Record t : Type := mk {
  status : string;
  jobs : list CronRecord.t
}.
End Crons.

Module Cron.
Import Js.

(** [formatTimestamp(value)].  [toISOString] throws a RangeError on a time
    value out of range. *)
Definition formatTimestamp (value : option StrOrNum) : outcome string :=
  match value with
  | Some (IsNum n) =>
      if (Z.abs n <=? maxTime)%Z then Returned (toISOString n) else Raised
  | Some (IsStr s) =>
      if negb (isEmpty (trim s)) then Returned s else Returned "Unknown"
  | None => Returned "Unknown"
  end.

(** [job.payload?.name] and [job.payload?.text]. *)
Definition payloadName (job : OpenClawJob.t) : option string :=
  match OpenClawJob.payload job with
  | Some p => JobPayload.name p
  | None => None
  end.

Definition payloadText (job : OpenClawJob.t) : option string :=
  match OpenClawJob.payload job with
  | Some p => JobPayload.text p
  | None => None
  end.

(** The body of [jobs.map(...)]. *)
Definition mapJob (job : OpenClawJob.t) : outcome CronRecord.t :=
  let state := match OpenClawJob.state job with
               | Some st => st
               | None => JobState.empty
               end in
  let name :=
    orDefault
      (orElse (orElse (orElse (OpenClawJob.name job) (payloadName job))
                      (payloadText job))
              (OpenClawJob.id job))
      "Unnamed cron" in
  let status := orDefault (orElse (JobState.lastStatus state) (JobState.status state))
                          "unknown" in
  match formatTimestamp
          (nullish (option_map IsNum (JobState.nextRunAtMs state))
                   (JobState.next_run state)) with
  | Raised => Raised
  | Returned nextRun =>
      match formatTimestamp
              (nullish (nullish (option_map IsNum (JobState.lastRunAtMs state))
                                (JobState.last_run state))
                       (JobState.lastRun state)) with
      | Raised => Raised
      | Returned lastRun =>
          Returned {| CronRecord.name := name;
                      CronRecord.status := status;
                      CronRecord.nextRun := nextRun;
                      CronRecord.lastRun := lastRun |}
      end
  end.

(** [jobs.map(f)] for an [f] that may throw. *)
Fixpoint mapOutcome {X Y : Type} (f : X -> outcome Y) (l : list X)
    : outcome (list Y) :=
  match l with
  | [] => Returned []
  | x :: l' =>
      match f x with
      | Raised => Raised
      | Returned y =>
          match mapOutcome f l' with
          | Raised => Raised
          | Returned ys => Returned (y :: ys)
          end
      end
  end.

(** [fetchCronStatus] from the extracted job array on, lines 506-527. *)
Definition mapped (jobs : list OpenClawJob.t) : outcome (option Crons.t) :=
  match jobs with
  | [] => Returned None
  | _ =>
      match mapOutcome mapJob jobs with
      | Raised => Raised
      | Returned l => Returned (Some {| Crons.status := "available"; Crons.jobs := l |})
      end
  end.

End Cron.

(* ================================================================== *)
(** ** The report parser of [route.ts] ([parseB2LHorses], lines 693-755) *)

Module Horse.
Record t : Type := mk {
  name : string;
  race : string;
  value : string;
  note : string;
  date : option string
}.
End Horse.

Module Parser.
Import Js.

Definition todayDate : string := "2026-02-10".

(** [rawLine.match(/^##\s+(\d{4}-\d{2}-\d{2})/)]: the captured date. *)
Definition dateMatch (rawLine : string) : option string :=
  match stripPrefix "##" rawLine with
  | Some s =>
      let (ws, s1) := span isSpace s in
      if isEmpty ws then None
      else match matchClasses datePattern s1 with
           | Some (d, _) => Some d
           | None => None
           end
  | None => None
  end.

(** [rawLine.replace(/[\u2013\u2014]/g, "-")]: the en dash and the em dash
    are the bytes E2 80 93 and E2 80 94. *)
Fixpoint normalize (s : string) : string :=
  match s with
  | EmptyString => EmptyString
  | String a t =>
      match t with
      | String b (String c r) =>
          if Ascii.eqb a "226" && Ascii.eqb b "128"
             && (Ascii.eqb c "147" || Ascii.eqb c "148")
          then String "-" (normalize r)
          else String a (normalize t)
      | _ => String a (normalize t)
      end
  end.

(** [[:\-\u2013]] on a normalized line, where no en dash is left. *)
Definition isColonDash (c : ascii) : bool := Ascii.eqb c ":" || Ascii.eqb c "-".

(** The entry pattern after the first bold field:
    [\*\*\s+-\s+\*([^*]+)\*\s*[:\-\u2013]*\s*( .* )$], the captured name and rest.
    Every quantifier is followed by a character outside its class, so the
    greedy match is the only one, but for the last [\s*], where giving a
    character back to the last group cannot remove a line terminator from it. *)
Definition entryTail (s : string) : option (string * string) :=
  match stripPrefix "**" s with
  | Some s0 =>
      let (ws1, s1) := span isSpace s0 in
      match isEmpty ws1, s1 with
      | false, String "-" s2 =>
          let (ws2, s3) := span isSpace s2 in
          match isEmpty ws2, s3 with
          | false, String "*" s4 =>
              let (name, s5) := span (fun c => negb (Ascii.eqb c "*")) s4 in
              match isEmpty name, s5 with
              | false, String "*" s6 =>
                  let s7 := snd (span isSpace s6) in
                  let s8 := snd (span isColonDash s7) in
                  let s9 := snd (span isSpace s8) in
                  if all isDot s9 then Some (name, s9) else None
              | _, _ => None
              end
          | _, _ => None
          end
      | _, _ => None
      end
  | None => None
  end.

(** The lazy first field [(.+?)]: the shortest run of one or more
    characters, none a line terminator, after which the rest of the pattern
    matches.  [race] is the run taken so far. *)
Fixpoint lazyField (race : string) (s : string) : option (string * string * string) :=
  match s with
  | String c r =>
      if isDot c then
        let race' := race +++ String c EmptyString in
        match entryTail r with
        | Some (name, rest) => Some (race', name, rest)
        | None => lazyField race' r
        end
      else None
  | EmptyString => None
  end.

(** [normalized.match(/^- \*\*(.+?)\*\*\s+-\s+\*([^*]+)\*\s*[:\-\u2013]*\s*( .* )$/)]:
    the three captured groups. *)
Definition entryMatch (normalized : string) : option (string * string * string) :=
  match stripPrefix "- **" normalized with
  | Some s => lazyField EmptyString s
  | None => None
  end.

(** [race.match(/^(\d{4}-\d{2}-\d{2})\s+(.+)$/)]: the two captured groups.
    When nothing follows the white space, [\s+] gives its last character
    back to [(.+)]. *)
Definition raceDateMatch (race : string) : option (string * string) :=
  match matchClasses datePattern race with
  | Some (d, s) =>
      let (ws, s1) := span isSpace s in
      if isEmpty ws then None
      else if isEmpty s1 then
        match last ws with
        | Some c =>
            if (2 <=? String.length ws)%nat && isDot c
            then Some (d, String c EmptyString)
            else None
        | None => None
        end
      else if all isDot s1 then Some (d, s1) else None
  | None => None
  end.

(** [([0-9]+(?:\.[0-9]+)?|n\/a)] under the [i] flag: the matched text. *)
Definition valueAt (s : string) : option string :=
  let (ds, s1) := span isDigit s in
  if negb (isEmpty ds) then
    match s1 with
    | String "." s2 =>
        let fs := fst (span isDigit s2) in
        if isEmpty fs then Some ds else Some (ds +++ "." +++ fs)
    | _ => Some ds
    end
  else
    match stripPrefixCI "n/a" s with
    | Some (m, _) => Some m
    | None => None
    end.

(** [\s+([0-9]+(?:\.[0-9]+)?|n\/a)]. *)
Definition spacedValue (s : string) : option string :=
  let (ws, s1) := span isSpace s in
  if isEmpty ws then None else valueAt s1.

(** The value pattern at the start of [s]: with the optional [\s+at]
    first, and without it when that fails. *)
Definition valueHere (s : string) : option string :=
  match stripPrefixCI "priced" s with
  | Some (_, s1) =>
      let withAt :=
        let (ws, s2) := span isSpace s1 in
        if isEmpty ws then None
        else match stripPrefixCI "at" s2 with
             | Some (_, s3) => spacedValue s3
             | None => None
             end in
      match withAt with
      | Some v => Some v
      | None => spacedValue s1
      end
  | None => None
  end.

(** [rest.match(/priced(?:\s+at)?\s+([0-9]+(?:\.[0-9]+)?|n\/a)/i)]: the
    captured group of the leftmost match. *)
Fixpoint valueMatch (rest : string) : option string :=
  match valueHere rest with
  | Some v => Some v
  | None =>
      match rest with
      | String _ r => valueMatch r
      | EmptyString => None
      end
  end.

(** The loop's variables. *)
Record State : Type := mkState {
  currentDate : string;
  horses : list Horse.t;
  seen : list string
}.

(** [seen.has(key)], [seen] a [Set]. *)
Definition seenHas (seen : list string) (key : string) : bool :=
  existsb (String.eqb key) seen.

(** [`${name.trim()}|${race.trim()}|${entryDate}`]. *)
Definition keyOf (name race entryDate : string) : string :=
  trim name +++ "|" +++ trim race +++ "|" +++ entryDate.

(** [`${entryDate ? `${entryDate} ` : ""}${race.trim()}`.trim()]. *)
Definition raceLabelOf (entryDate race : string) : string :=
  trim ((if isEmpty entryDate then "" else entryDate +++ " ") +++ trim race).

(** The record pushed for an entry, lines 730-743. *)
Definition horseOf (name race rest entryDate : string) : Horse.t :=
  let value := match valueMatch rest with Some v => v | None => "n/a" end in
  {| Horse.name := trim name;
     Horse.race := raceLabelOf entryDate race;
     Horse.value := value;
     Horse.note := trim rest;
     Horse.date := if isEmpty entryDate then None else Some entryDate |}.

(** The effective date and the race field of an entry, lines 716-721. *)
Definition effective (currentDate race : string) : string * string :=
  match raceDateMatch race with
  | Some (d, r) => (d, r)
  | None => (currentDate, race)
  end.

(** One iteration of the loop over the lines, lines 700-744. *)
Definition step (st : State) (rawLine : string) : State :=
  match dateMatch rawLine with
  | Some d => mkState d (horses st) (seen st)
  | None =>
      match entryMatch (normalize rawLine) with
      | None => st
      | Some (race0, name, rest) =>
          let (entryDate, race) := effective (currentDate st) race0 in
          if negb (String.eqb entryDate todayDate) then st
          else
            let key := keyOf name race entryDate in
            if seenHas (seen st) key then st
            else
              let seen' := key :: seen st in
              if isEmpty (trim name) then mkState (currentDate st) (horses st) seen'
              else mkState (currentDate st)
                           (horses st ++ [horseOf name race rest entryDate])
                           seen'
      end
  end.

(** The horses collected by the loop, before the sort. *)
Definition collect (content : string) : list Horse.t :=
  horses (fold_left step (splitLines content) (mkState "" [] [])).

(** [a.race.match(/(\d{2}):(\d{2})/)?.[0] || "00:00"]. *)
Fixpoint findTime (s : string) : option string :=
  match matchClasses timePattern s with
  | Some (t, _) => Some t
  | None =>
      match s with
      | String _ r => findTime r
      | EmptyString => None
      end
  end.

Definition timeOf (h : Horse.t) : string :=
  match findTime (Horse.race h) with
  | Some t => t
  | None => "00:00"
  end.

(** The comparator's verdict [timeB.localeCompare(timeA) <= 0]: [a] need
    not come after [b].  On tokens of the shape HH:MM the locale's order is
    the order of the characters. *)
Definition notAfter (a b : Horse.t) : bool :=
  match String.compare (timeOf b) (timeOf a) with
  | Gt => false
  | _ => true
  end.

(** [horses.sort(...)]: the sort is stable, so the result is the one of
    inserting each element, from the last, before the first element it
    need not come after. *)
Fixpoint insert (a : Horse.t) (l : list Horse.t) : list Horse.t :=
  match l with
  | b :: l' => if notAfter a b then a :: l else b :: insert a l'
  | [] => [a]
  end.

Definition sort (l : list Horse.t) : list Horse.t := fold_right insert [] l.

(** [parseB2LHorses(content)]. *)
Definition parseB2LHorses (content : string) : list Horse.t :=
  firstn 2 (sort (collect content)).

End Parser.

(* ================================================================== *)
(** ** The sections of the snapshot ([DashboardData]) *)

Module Projects.
Module Active.
Record t : Type := mk { name : string; status : string; owner : string }.
End Active.
Module Activity.
Record t : Type := mk {
  type : string;
  label : string;
  detail : string;
  timestamp : string;
  source : string
}.
End Activity.
Record t : Type := mk {
  status : string;
  active : list Active.t;
  recentActivity : list Activity.t;
  activityLog : list string
}.
End Projects.

Module Trading.
Module Status.
Record t : Type := mk {
  dailyStatus : string;
  statusNote : string;
  completionStatus : string
}.
End Status.
Module Qualified.
Record t : Type := mk {
  name : string;
  race : string;
  value : string;
  note : string
}.
End Qualified.
Module Stats.
Record t : Type := mk {
  matchedRaces : nat;
  unmatched : nat;
  profit : Z;
  liability : Z
}.
End Stats.
Module Stage.
Record t : Type := mk {
  name : string;
  label : string;
  completed : bool;
  note : string
}.
End Stage.
Record t : Type := mk {
  availability : string;
  status : Status.t;
  qualifiedHorses : list Qualified.t;
  tradingStats : Stats.t;
  pipelineStages : list Stage.t
}.
End Trading.

(** The snapshot.  The route reads and writes four of its sections; the
    others ([calendar], [content], [fileActivity]) it only carries. *)
Module DashboardData.
Record t : Type := mk {
  agents : list Agent.t;
  projects : Projects.t;
  trading : Trading.t;
  crons : Crons.t;
  calendar : json;
  content : json;
  fileActivity : json
}.
End DashboardData.

(* ================================================================== *)
(** ** [route.ts]: the adapters, the assembler and the handler *)

Module Route.
Import Js.

(** What [execFileAsync] settles to: rejected (the binary is missing, the
    call timed out, the exit code is not zero), or resolved with the
    standard output. *)
Inductive Exec : Type :=
| ExecFailed
| ExecOk (stdout : string).

(** [s.search(/[\[{]/)]: the index of the first bracket or brace. *)
Definition isOpening (c : ascii) : bool := Ascii.eqb c "[" || Ascii.eqb c "{".

Fixpoint search (f : ascii -> bool) (s : string) : option nat :=
  match s with
  | String c r =>
      if f c then Some 0
      else match search f r with
           | Some i => Some (S i)
           | None => None
           end
  | EmptyString => None
  end.

(** [s.slice(start)]. *)
Fixpoint slice (start : nat) (s : string) : string :=
  match start, s with
  | S n, String _ r => slice n r
  | _, _ => s
  end.

(** [runOpenClawJson(args, label)], lines 608-643. *)
Definition runOpenClawJson (cli : Exec) : option json :=
  match cli with
  | ExecFailed => None
  | ExecOk stdout =>
      let trimmed := trim stdout in
      match search isOpening trimmed with
      | None => None
      | Some start =>
          let payload := slice start trimmed in
          Json.parse payload
      end
  end.

(** The view of a parsed value at a declared type (TypeScript's [as]): a
    field is read where the value has it with the declared type. *)
Definition field (name : string) (v : json) : option json :=
  match v with
  | JObject members => Json.lookup name members
  | _ => None
  end.

Definition asString (v : option json) : option string :=
  match v with
  | Some (JString s) => Some s
  | _ => None
  end.

Definition asNumber (v : option json) : option Z :=
  match v with
  | Some (JNumber m e) =>
      if (0 <=? e)%Z then Some (m * 10 ^ e)%Z
      else if (m mod 10 ^ (- e) =? 0)%Z then Some (m / 10 ^ (- e))%Z
      else None
  | _ => None
  end.

Definition asStrOrNum (v : option json) : option StrOrNum :=
  match v with
  | Some (JString s) => Some (IsStr s)
  | Some (JNumber _ _) => option_map IsNum (asNumber v)
  | _ => None
  end.

(** A field of the declared type [number], as a binary64 value.  The sign
    of a zero is not kept: no response shows it, a zero being printed and
    priced as 0. *)
Definition asFloat (v : option json) : option float :=
  match v with
  | Some (JNumber m e) => Some (Num.ofDecimal m e)
  | _ => None
  end.

Definition asAgent (v : json) : OpenClawAgent.t :=
  {| OpenClawAgent.id := asString (field "id" v);
     OpenClawAgent.identityName := asString (field "identityName" v);
     OpenClawAgent.model := asString (field "model" v) |}.

Definition asSession (v : json) : OpenClawSession.t :=
  {| OpenClawSession.key := asString (field "key" v);
     OpenClawSession.totalTokens := asFloat (field "totalTokens" v);
     OpenClawSession.outputTokens := asFloat (field "outputTokens" v);
     OpenClawSession.model := asString (field "model" v) |}.

Definition asPayload (v : option json) : option JobPayload.t :=
  match v with
  | Some (JObject members) =>
      Some {| JobPayload.name := asString (Json.lookup "name" members);
              JobPayload.text := asString (Json.lookup "text" members) |}
  | _ => None
  end.

Definition asState (v : option json) : option JobState.t :=
  match v with
  | Some (JObject members) =>
      Some {| JobState.lastStatus := asString (Json.lookup "lastStatus" members);
              JobState.status := asString (Json.lookup "status" members);
              JobState.nextRunAtMs := asNumber (Json.lookup "nextRunAtMs" members);
              JobState.next_run := asStrOrNum (Json.lookup "next_run" members);
              JobState.lastRunAtMs := asNumber (Json.lookup "lastRunAtMs" members);
              JobState.last_run := asStrOrNum (Json.lookup "last_run" members);
              JobState.lastRun := asStrOrNum (Json.lookup "lastRun" members) |}
  | _ => None
  end.

Definition asJob (v : json) : OpenClawJob.t :=
  {| OpenClawJob.id := asString (field "id" v);
     OpenClawJob.name := asString (field "name" v);
     OpenClawJob.payload := asPayload (field "payload" v);
     OpenClawJob.state := asState (field "state" v) |}.

(** [extractAgents(payload)], lines 645-653. *)
Definition extractAgents (payload : json) : list OpenClawAgent.t :=
  match payload with
  | JArray l => map asAgent l
  | JObject members =>
      match Json.lookup "agents" members with
      | Some (JArray l) => map asAgent l
      | _ => []
      end
  | _ => []
  end.

(** [extractSessions(payload)], lines 655-661; [payload] may be [null]. *)
Definition extractSessions (payload : option json) : list OpenClawSession.t :=
  match payload with
  | Some (JObject members) =>
      match Json.lookup "sessions" members with
      | Some (JArray l) => map asSession l
      | _ => []
      end
  | _ => []
  end.

(** [extractJobs(payload)], lines 663-669. *)
Definition extractJobs (payload : json) : list OpenClawJob.t :=
  match payload with
  | JObject members =>
      match Json.lookup "jobs" members with
      | Some (JArray l) => map asJob l
      | _ => []
      end
  | _ => []
  end.

(** An entry of [fs.readdir(agentsDir, { withFileTypes: true })]. *)
Record Dirent : Type := mkDirent { entryName : string; isDirectory : bool }.

(** [agents.sort()]: strings in the order of their characters. *)
Fixpoint insertName (a : string) (l : list string) : list string :=
  match l with
  | b :: l' => if String.leb a b then a :: l else b :: insertName a l'
  | [] => [a]
  end.

Definition sortNames (l : list string) : list string := fold_right insertName [] l.

(** [getDefinedSubAgentsList()], lines 272-288: a failed [readdir] is caught
    and leaves the list empty. *)
Definition getDefinedSubAgentsList (agentsDir : outcome (list Dirent)) : list string :=
  match agentsDir with
  | Returned entries => sortNames (map entryName (filter isDirectory entries))
  | Raised => []
  end.

(** [fetchAgentData()], lines 135-270. *)
Definition fetchAgentData (agentsCli sessionsCli : Exec)
    (agentsDir : outcome (list Dirent)) : option (list Agent.t) :=
  let agentsJson := runOpenClawJson agentsCli in
  let sessionsJson := runOpenClawJson sessionsCli in
  match agentsJson with
  | None => None
  | Some payload =>
      Reconciler.reconcile (extractAgents payload) (extractSessions sessionsJson)
                           (getDefinedSubAgentsList agentsDir)
  end.

(** [fetchCronStatus()], lines 496-528. *)
Definition fetchCronStatus (cronCli : Exec) : outcome (option Crons.t) :=
  match runOpenClawJson cronCli with
  | None => Returned None
  | Some cronJson => Cron.mapped (extractJobs cronJson)
  end.

(** An item of the project board, as the GraphQL query returns it. *)
Record Content : Type := mkContent {
  number : option Z;
  title : option string;
  nameWithOwner : option string;
  updatedAt : option string
}.

Record Item : Type := mkItem {
  statusName : option string;   (* [fieldValueByName?.name] *)
  content : option Content
}.

(** The body of the GraphQL response: whether [errors] is set, and
    [data?.user?.projectV2]: missing, present without readable items (the
    read throws), or present with its [items.nodes]. *)
Record Graphql : Type := mkGraphql {
  errors : bool;
  projectV2 : option (option (list Item))
}.

(** What [fetch] settles to: rejected (no network, the ten-second timeout),
    or a response with its [ok] flag and its body, [None] when the body is
    not JSON. *)
Inductive Fetch : Type :=
| FetchRejected
| FetchResponse (ok : bool) (body : option Graphql).

Definition unavailable : Projects.t :=
  {| Projects.status := "unavailable";
     Projects.active := [];
     Projects.recentActivity := [];
     Projects.activityLog := [] |}.

Definition toLowerCase (s : string) : string :=
  string_of_list_ascii (map lowerChar (list_ascii_of_string s)).

(** The filter of lines 429-436. *)
Definition isInProgress (item : Item) : bool :=
  let statusValue := toLowerCase (orDefault (statusName item) "") in
  String.eqb statusValue "in progress" || String.eqb statusValue "in_progress".

Definition ofZ (n : Z) : string :=
  ((if n <? 0 then "-" else "")%Z +++ ofNat (Z.to_nat (Z.abs n)))%string.

(** The text [`${item.repo} #${item.number}: ${item.title}`] of an item in
    progress, lines 437-446; a missing or zero number prints as [?]. *)
Definition itemText (item : Item) : string :=
  let c := content item in
  let repoName :=
    orDefault
      (match c with
       | Some c' =>
           match nameWithOwner c' with
           | Some n => nth_error (split "/" n) 1
           | None => None
           end
       | None => None
       end) "unknown" in
  let numberText :=
    match c with
    | Some c' =>
        match number c' with
        | Some n => if (n =? 0)%Z then "?" else ofZ n
        | None => "?"
        end
    | None => "?"
    end in
  let titleText :=
    orDefault (match c with Some c' => title c' | None => None end) "Untitled" in
  repoName +++ " #" +++ numberText +++ ": " +++ titleText.

(** [content?.updatedAt || new Date().toISOString()]. *)
Definition itemUpdatedAt (now : string) (item : Item) : string :=
  orDefault (match content item with Some c' => updatedAt c' | None => None end) now.

(** [fetchGitHubProjects()], lines 313-494.  [token] is the environment
    variable, [now] the clock's ISO string.  Everything after the token
    test runs inside [try], and the [catch] returns the unavailable
    record. *)
Definition fetchGitHubProjects (token : option string) (response : Fetch)
    (now : string) : option Projects.t :=
  if negb (truthy token) then Some unavailable
  else
    match response with
    | FetchRejected => Some unavailable
    | FetchResponse false _ => Some unavailable
    | FetchResponse true None => Some unavailable
    | FetchResponse true (Some graphqlData) =>
        if errors graphqlData then Some unavailable
        else
          match projectV2 graphqlData with
          | None => Some unavailable
          | Some None => Some unavailable
          | Some (Some nodes) =>
              let inProgressItems := filter isInProgress nodes in
              match inProgressItems with
              | [] =>
                  Some {| Projects.status := "available";
                          Projects.active := [];
                          Projects.recentActivity := [];
                          Projects.activityLog := [] |}
              | _ =>
                  Some {| Projects.status := "available";
                          Projects.active :=
                            map (fun item =>
                                   Projects.Active.mk (itemText item) "In Progress" "GitHub")
                                inProgressItems;
                          Projects.recentActivity :=
                            map (fun item =>
                                   Projects.Activity.mk "github" (itemText item) "In Progress"
                                     (itemUpdatedAt now item) "Clawd Tasks Board")
                                inProgressItems;
                          Projects.activityLog := map itemText inProgressItems |}
              end
          end
    end.

(** The report file: missing ([fs.access] throws), unreadable
    ([fs.readFile] throws), or read. *)
Inductive ReportFile : Type :=
| FileMissing
| FileUnreadable
| FileContent (content : string).

(** The check mark and the hourglass of the stage notes, in UTF-8. *)
Definition checkMark : string := String "226" (String "156" (String "147" "")).
Definition hourglass : string := String "226" (String "143" (String "179" "")).

(** [fetchB2LData()], lines 530-606. *)
Definition fetchB2LData (file : ReportFile) : option Trading.t :=
  match file with
  | FileMissing => None
  | FileUnreadable => None
  | FileContent content =>
      let horses := Parser.parseB2LHorses content in
      let qualified :=
        map (fun h => Trading.Qualified.mk (Horse.name h) (Horse.race h)
                                          (Horse.value h) (Horse.note h))
            (firstn 6 horses) in
      let n := List.length qualified in
      let some := (0 <? n)%nat in
      Some {| Trading.availability := if some then "available" else "unavailable";
              Trading.status :=
                {| Trading.Status.dailyStatus :=
                     if (4 <? n)%nat then "Green" else if some then "Amber" else "Red";
                   Trading.Status.statusNote :=
                     if some then ofNat n +++ " horses extracted from B2L file"
                     else "Waiting for the Back-to-Lay pipeline to output qualified runners";
                   Trading.Status.completionStatus :=
                     if some then "On track for processing" else "Awaiting shortlist" |};
              Trading.qualifiedHorses := qualified;
              Trading.tradingStats :=
                {| Trading.Stats.matchedRaces := n;
                   Trading.Stats.unmatched := 10 - n;  (* [Math.max(0, 10 - n)] *)
                   Trading.Stats.profit := 0;
                   Trading.Stats.liability := 0 |};
              Trading.pipelineStages :=
                [Trading.Stage.mk "Racecard" "Racecard imported from Betfair Guru"
                                 true "CSV downloaded";
                 Trading.Stage.mk "Analysis" "Winning Warlock analysis (75%+ shortlist)"
                                 true "Shortlist reviewed";
                 Trading.Stage.mk "Bias" "Draw bias captured"
                                 true "Draw & pace metrics recorded";
                 Trading.Stage.mk "Sheet" "Qualified horses appended to ClawdBotB2L sheet"
                                 some
                                 (if some then checkMark +++ " " +++ ofNat n +++ " appended"
                                  else hourglass +++ " waiting for horses")] |}
  end.

(** The merge of [buildLiveData], lines 101-132: [snapshot] starts as a deep
    copy of the placeholder, and a section is assigned under its guard. *)
Definition merge (placeholderData : DashboardData.t)
    (agents : option (list Agent.t)) (projects : option Projects.t)
    (crons : option Crons.t) (trading : option Trading.t) : DashboardData.t :=
  let snapshot := placeholderData in
  let snapshot :=
    match agents with
    | Some l =>
        if (0 <? List.length l)%nat then
          DashboardData.mk l (DashboardData.projects snapshot)
            (DashboardData.trading snapshot) (DashboardData.crons snapshot)
            (DashboardData.calendar snapshot) (DashboardData.content snapshot)
            (DashboardData.fileActivity snapshot)
        else snapshot
    | None => snapshot
    end in
  let snapshot :=
    match projects with
    | Some p =>
        if (0 <? List.length (Projects.active p))%nat then
          DashboardData.mk (DashboardData.agents snapshot) p
            (DashboardData.trading snapshot) (DashboardData.crons snapshot)
            (DashboardData.calendar snapshot) (DashboardData.content snapshot)
            (DashboardData.fileActivity snapshot)
        else snapshot
    | None => snapshot
    end in
  let snapshot :=
    match crons with
    | Some c =>
        if (0 <? List.length (Crons.jobs c))%nat then
          DashboardData.mk (DashboardData.agents snapshot)
            (DashboardData.projects snapshot) (DashboardData.trading snapshot) c
            (DashboardData.calendar snapshot) (DashboardData.content snapshot)
            (DashboardData.fileActivity snapshot)
        else snapshot
    | None => snapshot
    end in
  let snapshot :=
    match trading with
    | Some t =>
        DashboardData.mk (DashboardData.agents snapshot)
          (DashboardData.projects snapshot) t (DashboardData.crons snapshot)
          (DashboardData.calendar snapshot) (DashboardData.content snapshot)
          (DashboardData.fileActivity snapshot)
    | None => snapshot
    end in
  snapshot.

(** Everything outside the program that one request reads. *)
Record World : Type := mkWorld {
  agentsCli : Exec;
  sessionsCli : Exec;
  cronCli : Exec;
  agentsDir : outcome (list Dirent);
  githubToken : option string;
  github : Fetch;
  now : string;
  reportFile : ReportFile
}.

(** [buildLiveData()], lines 79-133: [Promise.all] rejects when one of the
    four calls throws. *)
Definition buildLiveData (placeholderData : DashboardData.t) (w : World)
    : outcome DashboardData.t :=
  let agents := fetchAgentData (agentsCli w) (sessionsCli w) (agentsDir w) in
  let projects := fetchGitHubProjects (githubToken w) (github w) (now w) in
  match fetchCronStatus (cronCli w) with
  | Raised => Raised
  | Returned crons =>
      let trading := fetchB2LData (reportFile w) in
      Returned (merge placeholderData agents projects crons trading)
  end.

(** A response of [NextResponse.json(data, { status })]. *)
Record Response : Type := mkResponse {
  body : DashboardData.t;
  status : nat
}.

(** [GET()], lines 66-77. *)
Definition GET (placeholderData : DashboardData.t) (w : World) : Response :=
  match buildLiveData placeholderData w with
  | Returned data => mkResponse data 200
  | Raised => mkResponse placeholderData 200
  end.

End Route.

(* ================================================================== *)
(** ** [scripts/generate-live-data.js] *)

Module Generate.
Import Js.

(** The depth after the characters of [line]: a bracket or brace opens
    ([depth++]) or closes ([depth--]). *)
Fixpoint depthAfter (line : string) (depth : Z) : Z :=
  match line with
  | String c r =>
      let depth :=
        if Ascii.eqb c "[" || Ascii.eqb c "{" then (depth + 1)%Z else depth in
      let depth :=
        if Ascii.eqb c "]" || Ascii.eqb c "}" then (depth - 1)%Z else depth in
      depthAfter r depth
  | EmptyString => depth
  end.

(** The loop of [runCommand] over the lines, lines 27-43, from the loop's
    variables: the text gathered when the loop ends or breaks. *)
Fixpoint scan (lines : list string) (jsonStr : string) (inJson : bool) (depth : Z)
    : string :=
  match lines with
  | [] => jsonStr
  | line :: lines' =>
      let trimmed := trim line in
      let inJson :=
        if negb inJson && (startsWith trimmed "[" || startsWith trimmed "{")
        then true else inJson in
      if inJson then
        let jsonStr := jsonStr +++ line +++ String "010" "" in
        let depth := depthAfter line depth in
        if (depth =? 0)%Z && (0 <? String.length (trim jsonStr))%nat then jsonStr
        else scan lines' jsonStr inJson depth
      else scan lines' jsonStr inJson depth
  end.

(** [runCommand(cmd, label)], lines 16-55: [execSync] throws on a failed
    command, and so does [JSON.parse] on text that is not JSON; both are
    caught. *)
Definition runCommand (cli : Route.Exec) : option json :=
  match cli with
  | Route.ExecFailed => None
  | Route.ExecOk output =>
      let lines := split "010" (trim output) in
      let jsonStr := scan lines "" false 0 in
      if isEmpty (trim jsonStr) then None else Json.parse jsonStr
  end.

(** [processAgents(agents, sessions)] with [sessionsData] the session
    array.  The template [`agent:${agent.id}:`] prints a missing id as
    [undefined]. *)
Definition prefixOf (agent : OpenClawAgent.t) : string :=
  "agent:"
  +++ match OpenClawAgent.id agent with Some i => i | None => "undefined" end
  +++ ":".

Definition processAgents (agents : list OpenClawAgent.t)
    (sessionsData : list OpenClawSession.t) : list Agent.t :=
  map (fun agent =>
         let prefix := prefixOf agent in
         let agentSessions := filter (Reconciler.ownedBy prefix) sessionsData in
         let tokens := Reconciler.sumTokenValues agentSessions in
         {| Agent.name :=
              orDefault (orElse (OpenClawAgent.identityName agent) (OpenClawAgent.id agent))
                        "Unknown";
            Agent.state :=
              if (0 <? List.length agentSessions)%nat then Agent.Active else Agent.Idle;
            Agent.sessions := List.length agentSessions;
            Agent.tokens := tokens;
            Agent.cost := Num.costOf tokens;
            Agent.model := orDefault (OpenClawAgent.model agent) Reconciler.defaultModel;
            Agent.tasks := [] |})
      agents.

(** [processCrons(jobs)]. *)
Definition processCrons (jobs : list OpenClawJob.t) : outcome Crons.t :=
  match Cron.mapOutcome Cron.mapJob jobs with
  | Raised => Raised
  | Returned l => Returned {| Crons.status := "available"; Crons.jobs := l |}
  end.

End Generate.

(* ================================================================== *)
(** ** Vocabulary of the properties *)

Module Spec.
Import Js Reconciler.

Definition sumZ (l : list Z) : Z := fold_right Z.add 0%Z l.

(** The primary-prefix rule: the key starts with [agent:<id>:] for the
    agent [a]. *)
Definition primaryRule (a : OpenClawAgent.t) (s : OpenClawSession.t) : bool :=
  ownedBy (prefixOf a) s.

(** The secondary-pattern rule: the key matches [agent:main:subagent:<uuid>]. *)
Definition secondaryRule (s : OpenClawSession.t) : bool :=
  match subagentMatch (orDefault (OpenClawSession.key s) "") with
  | Some _ => true
  | None => false
  end.

(** A session matched by either rule. *)
Definition matchedSession (A : list OpenClawAgent.t) (s : OpenClawSession.t) : bool :=
  existsb (fun a => primaryRule a s) A || secondaryRule s.

(** The sum of the token counts of the matched sessions, each once. *)
Definition matchedTokens (A : list OpenClawAgent.t) (S : list OpenClawSession.t)
    : float :=
  sumTokenValues (filter (matchedSession A) S).

(** A token count within the range where binary64 addition is exact: a
    whole number from 0 to [Number.MAX_SAFE_INTEGER]. *)
Definition safeCount (x : float) : Prop :=
  x = Num.ofZ (Num.toZ x) /\ (0 <= Num.toZ x <= Num.maxSafeInteger)%Z.

(** The token count of a session, as an integer. *)
Definition count (s : OpenClawSession.t) : Z := Num.toZ (tokenValue s).

(** The exact sum of the token counts of the matched sessions. *)
Definition matchedCount (A : list OpenClawAgent.t) (S : list OpenClawSession.t) : Z :=
  sumZ (map count (filter (matchedSession A) S)).

(** How many times the rules claim a session: once for every entry of the
    agent list whose prefix it has, and once more under the secondary rule. *)
Definition claims (A : list OpenClawAgent.t) (s : OpenClawSession.t) : nat :=
  List.length (filter (fun a => primaryRule a s) A)
  + (if secondaryRule s then 1 else 0).

(** Token conservation as the reconciler is claimed to have it. *)
Definition conserves (A : list OpenClawAgent.t) (S : list OpenClawSession.t)
    (D : list string) : Prop :=
  forall out, reconcile A S D = Some out -> totalTokens out = matchedTokens A S.

(** The record of a discovered group labelled with a known identity, and
    the one labelled with its ordinal. *)
Definition named (p : string * (string * Group)) : Agent.t :=
  activeRecord (displayName (fst p)) (snd (snd p)).

Definition generic (p : nat * (string * Group)) : Agent.t :=
  activeRecord ("Sub-agent " +++ ofNat (fst p + 1)) (snd (snd p)).

(** The identifiers in first-seen order, each once. *)
Definition firstSeen (ids : list string) : list string :=
  fold_left (fun acc k => if existsb (String.eqb k) acc then acc else acc ++ [k])
            ids [].

(** The identifier the secondary rule extracts from a session, if any. *)
Definition secondaryId (s : OpenClawSession.t) : option string :=
  subagentMatch (orDefault (OpenClawSession.key s) "").

(** The sessions of one identifier, in order. *)
Definition sessionsOf (id : string) (S : list OpenClawSession.t)
    : list OpenClawSession.t :=
  filter (fun s => match secondaryId s with
                   | Some k => String.eqb k id
                   | None => false
                   end) S.

(** The usage of the sessions of one identifier: the model of the first of
    them, their number, and their token counts, those of the later ones
    added to the first's in order. *)
Definition usageOf (ss : list OpenClawSession.t) : option Group :=
  match ss with
  | [] => None
  | s :: rest =>
      Some {| g_model := orDefault (OpenClawSession.model s) defaultModel;
              g_sessions := List.length ss;
              g_tokens := fold_left (fun t s' => PrimFloat.add t (tokenValue s'))
                                    rest (tokenValue s) |}
  end.

Fixpoint somes {X : Type} (l : list (option X)) : list X :=
  match l with
  | Some x :: l' => x :: somes l'
  | None :: l' => somes l'
  | [] => []
  end.

(** What holds of every record the reconciler emits: the state follows the
    session count and the cost follows the token count. *)
Definition derived (r : Agent.t) : Prop :=
  (Agent.state r = Agent.Active <-> (0 < Agent.sessions r)%nat)
  /\ Agent.cost r = Num.costOf (Agent.tokens r).

(** A record of a discovered group: Active, with the usage of the group. *)
Definition activeOf (g : Group) (r : Agent.t) : Prop :=
  Agent.state r = Agent.Active
  /\ Agent.sessions r = g_sessions g
  /\ (1 <= Agent.sessions r)%nat
  /\ Agent.tokens r = g_tokens g
  /\ Agent.cost r = Num.costOf (g_tokens g)
  /\ Agent.model r = g_model g
  /\ Agent.tasks r = [].

(** A record of an identity without sessions: Idle, with no usage. *)
Definition idleOf (r : Agent.t) : Prop :=
  Agent.state r = Agent.Idle
  /\ Agent.sessions r = 0%nat
  /\ Agent.tokens r = 0%float
  /\ Agent.cost r = 0%float
  /\ Agent.model r = defaultModel
  /\ Agent.tasks r = [].

(** A record labelled with an identity name: the words of the name between
    its hyphens, each with its first letter in upper case, joined by
    spaces.  Stated of the names of ASCII characters, where the embedding
    of [toUpperCase] is the function itself. *)
Definition labelledBy (d : string) (r : Agent.t) : Prop :=
  all isAscii d = true -> Agent.name r = displayName d.

(** The composite key of an output record. *)
Definition key3 (h : Horse.t) : string * string * option string :=
  (Horse.name h, Horse.race h, Horse.date h).

(** The records of the entry lines of the target date that bear a name, in
    line order, duplicates included: what the parser would collect if it
    dropped nothing. *)
Fixpoint candidatesFrom (currentDate : string) (lines : list string)
    : list Horse.t :=
  match lines with
  | [] => []
  | rawLine :: lines' =>
      match Parser.dateMatch rawLine with
      | Some d => candidatesFrom d lines'
      | None =>
          match Parser.entryMatch (Parser.normalize rawLine) with
          | None => candidatesFrom currentDate lines'
          | Some (race0, name, rest) =>
              let (entryDate, race) := Parser.effective currentDate race0 in
              if String.eqb entryDate Parser.todayDate && negb (isEmpty (trim name))
              then Parser.horseOf name race rest entryDate
                   :: candidatesFrom currentDate lines'
              else candidatesFrom currentDate lines'
          end
      end
  end.

Definition candidates (content : string) : list Horse.t :=
  candidatesFrom "" (splitLines content).

(** [h] is the first record of [l] with its key. *)
Definition firstOf (h : Horse.t) (l : list Horse.t) : Prop :=
  exists l1 l2, l = l1 ++ h :: l2 /\ forall h', In h' l1 -> key3 h' <> key3 h.

(** The entries of the target date, in line order: the name, the race text
    (a date in front of it taken off) and the rest of each. *)
Fixpoint entriesFrom (currentDate : string) (lines : list string)
    : list (string * string * string) :=
  match lines with
  | [] => []
  | rawLine :: lines' =>
      match Parser.dateMatch rawLine with
      | Some d => entriesFrom d lines'
      | None =>
          match Parser.entryMatch (Parser.normalize rawLine) with
          | None => entriesFrom currentDate lines'
          | Some (race0, name, rest) =>
              let (entryDate, race) := Parser.effective currentDate race0 in
              if String.eqb entryDate Parser.todayDate
              then (name, race, rest) :: entriesFrom currentDate lines'
              else entriesFrom currentDate lines'
          end
      end
  end.

Definition entries (content : string) : list (string * string * string) :=
  entriesFrom "" (splitLines content).

(** The text under which an entry is remembered: its trimmed name, its
    trimmed race text and the date, with a bar between them. *)
Definition keyString (e : string * string * string) : string :=
  let '(name, race, _) := e in Parser.keyOf name race Parser.todayDate.

(** The record of an entry: none when the name is blank. *)
Definition recordOf (e : string * string * string) : option Horse.t :=
  let '(name, race, rest) := e in
  if isEmpty (trim name) then None
  else Some (Parser.horseOf name race rest Parser.todayDate).

(** [e] is the first entry of [l] with its key string. *)
Definition firstKeyed (e : string * string * string)
    (l : list (string * string * string)) : Prop :=
  exists l1 l2,
    l = l1 ++ e :: l2 /\ forall e', In e' l1 -> keyString e' <> keyString e.

(** The entries that are the first with their key string, [seen] being the
    key strings met before. *)
Fixpoint firstByKey (seen : list string) (l : list (string * string * string))
    : list (string * string * string) :=
  match l with
  | [] => []
  | e :: l' =>
      if Parser.seenHas seen (keyString e) then firstByKey seen l'
      else e :: firstByKey (keyString e :: seen) l'
  end.

(** A character other than the bar of the key strings. *)
Definition noBar (c : ascii) : bool := negb (Ascii.eqb c "|").

(** The groups of the secondary pass hold whole counts. *)
Definition safeGroups (m : GroupMap) : Prop :=
  forall kg, In kg m -> safeCount (g_tokens (snd kg)).

(** The tokens held by the groups of the secondary pass. *)
Definition groupTokens (m : GroupMap) : Z :=
  sumZ (map (fun kg => Num.toZ (g_tokens (snd kg))) m).

(** What the loop maintains, [recs] being the candidate records of the
    lines read so far. *)
Definition keyed (seen : list string) (h : Horse.t) : Prop :=
  exists x,
    Horse.date h = Some Parser.todayDate
    /\ Horse.race h = Parser.raceLabelOf Parser.todayDate x
    /\ Parser.seenHas seen (Horse.name h +++ "|" +++ trim x +++ "|" +++ Parser.todayDate) = true.

Definition invariant (st : Parser.State) (recs : list Horse.t) : Prop :=
  NoDup (map key3 (Parser.horses st))
  /\ (forall h, In h (Parser.horses st) -> firstOf h recs)
  /\ (forall h, In h recs -> keyed (Parser.seen st) h).

(** Text for the examples, written with apostrophes where the text has
    double quotes. *)
Definition quoted (s : string) : string :=
  string_of_list_ascii
    (map (fun c => if Ascii.eqb c "'" then "034"%char else c)
         (list_ascii_of_string s)).

(** A baseline whose sections are all filled, for the examples. *)
Definition sampleBaseline : DashboardData.t :=
  {| DashboardData.agents :=
       [Agent.mk "Placeholder" Agent.Idle 0 0%float 0%float defaultModel []];
     DashboardData.projects :=
       Projects.mk "available" [Projects.Active.mk "Sample" "Planned" "Nobody"] [] [];
     DashboardData.trading :=
       Trading.mk "available"
         (Trading.Status.mk "Green" "Sample status" "Sample")
         [Trading.Qualified.mk "Sample Horse" "12:00 Sample" "2.0" "sample"]
         (Trading.Stats.mk 1 9 0 0) [];
     DashboardData.crons :=
       Crons.mk "available" [CronRecord.mk "sample" "ok" "Unknown" "Unknown"];
     DashboardData.calendar := JObject [("status", JString "unavailable")];
     DashboardData.content := JObject [("status", JString "unavailable")];
     DashboardData.fileActivity := JObject [("status", JString "unavailable")] |}.

(** An adapter result that leaves the baseline section in place by the
    claimed policy: [null], or a result with nothing in it. *)
Definition nullOrEmptyAgents (r : option (list Agent.t)) : Prop :=
  r = None \/ r = Some [].

Definition nullOrEmptyProjects (r : option Projects.t) : Prop :=
  r = None \/ exists p, r = Some p /\ Projects.active p = [].

Definition nullOrEmptyCrons (r : option Crons.t) : Prop :=
  r = None \/ exists c, r = Some c /\ Crons.jobs c = [].

Definition nullOrEmptyTrading (r : option Trading.t) : Prop :=
  r = None \/ exists t, r = Some t /\ Trading.qualifiedHorses t = [].

(** The extraction policy as claimed: from the first bracket or brace, the
    text up to the character that brings the nesting depth back to zero. *)
Fixpoint balanced (s : string) (depth : Z) : option string :=
  match s with
  | String c r =>
      let depth :=
        if Ascii.eqb c "[" || Ascii.eqb c "{" then (depth + 1)%Z
        else if Ascii.eqb c "]" || Ascii.eqb c "}" then (depth - 1)%Z
        else depth in
      if (depth =? 0)%Z then Some (String c EmptyString)
      else option_map (String c) (balanced r depth)
  | EmptyString => None
  end.

Definition claimedExtraction (output : string) : option json :=
  match Route.search Route.isOpening output with
  | Some start =>
      match balanced (Route.slice start output) 0 with
      | Some text => Json.parse text
      | None => None
      end
  | None => None
  end.

(** A line that opens the JSON text for [runCommand]: trimmed, it starts
    with a bracket or a brace. *)
Definition opensJson (line : string) : bool :=
  startsWith (trim line) "[" || startsWith (trim line) "{".

(** The depth comes back to zero at the end of the last line of [body], and
    of no line before it. *)
Fixpoint closesAtEnd (body : list string) (depth : Z) : bool :=
  match body with
  | [] => false
  | line :: body' =>
      let depth := Generate.depthAfter line depth in
      match body' with
      | [] => (depth =? 0)%Z
      | _ => negb (depth =? 0)%Z && closesAtEnd body' depth
      end
  end.

(** The lines, each followed by a line feed. *)
Fixpoint textOfLines (lines : list string) : string :=
  match lines with
  | line :: lines' => line +++ String "010" "" +++ textOfLines lines'
  | [] => ""
  end.

End Spec.

(* ================================================================== *)
(** ** [scripts/generate-live-data.js]: the snapshot written

    The script reads the same payloads as the route; they are read at the
    types the route declares for them. *)

Module Snapshot.

(** The value of [createMetadata]. *)
Record Metadata : Type := mkMetadata {
  generatedAt : string;
  generatedBy : string;
  source : string;
  isFallback : bool;
  details : string
}.

(** A section the script only marks: [{ status, items: [] }], and the same
    with [events] or [files]. *)
Record Listing : Type := mkListing {
  status : string;
  entries : list json
}.

(** The value of [createEmptySnapshot]: the members spread from the
    template, and the seven sections set over them. *)
Record Data : Type := mkData {
  template : list (string * json);
  agents : list Agent.t;
  projects : Projects.t;
  content : Listing;
  trading : Trading.t;
  crons : Crons.t;
  calendar : Listing;
  fileActivity : Listing
}.

(** The value of [withMetadata]: [{ ...data, metadata, __meta: metadata }]. *)
Record t : Type := mk {
  data : Data;
  metadata : Metadata;
  __meta : Metadata
}.

End Snapshot.

Module Script.
Import Js.

(** [createEmptySnapshot()], lines 21-64; [dashboardTemplate] is the object
    of [data/dashboard-data.json]. *)
Definition createEmptySnapshot (dashboardTemplate : list (string * json))
    : Snapshot.Data :=
  {| Snapshot.template := dashboardTemplate;
     Snapshot.agents := [];
     Snapshot.projects :=
       {| Projects.status := "unavailable";
          Projects.active := [];
          Projects.recentActivity := [];
          Projects.activityLog := [] |};
     Snapshot.content := Snapshot.mkListing "unavailable" [];
     Snapshot.trading :=
       {| Trading.availability := "unavailable";
          Trading.status :=
            {| Trading.Status.dailyStatus := "Unavailable";
               Trading.Status.statusNote := "Live trading data unavailable";
               Trading.Status.completionStatus := "No live data" |};
          Trading.qualifiedHorses := [];
          Trading.tradingStats :=
            {| Trading.Stats.matchedRaces := 0;
               Trading.Stats.unmatched := 0;
               Trading.Stats.profit := 0;
               Trading.Stats.liability := 0 |};
          Trading.pipelineStages := [] |};
     Snapshot.crons := {| Crons.status := "unavailable"; Crons.jobs := [] |};
     Snapshot.calendar := Snapshot.mkListing "unavailable" [];
     Snapshot.fileActivity := Snapshot.mkListing "unavailable" [] |}.

(** [createMetadata({ isFallback, source, details })], lines 104-112; [now]
    is the clock's ISO string. *)
Definition createMetadata (now : string) (isFallback : bool) (source details : string)
    : Snapshot.Metadata :=
  {| Snapshot.generatedAt := now;
     Snapshot.generatedBy := "scripts/generate-live-data.js";
     Snapshot.source := source;
     Snapshot.isFallback := isFallback;
     Snapshot.details := details |}.

(** [withMetadata(data, metadata)], lines 114-120. *)
Definition withMetadata (data : Snapshot.Data) (metadata : Snapshot.Metadata)
    : Snapshot.t :=
  {| Snapshot.data := data;
     Snapshot.metadata := metadata;
     Snapshot.__meta := metadata |}.

(** [agents && Array.isArray(agents) && agents.length > 0], line 200: the
    elements of the array when the test holds. *)
Definition readyAgents (agents : option json) : option (list json) :=
  match agents with
  | Some (JArray (a :: l)) => Some (a :: l)
  | _ => None
  end.

(** [cronResponse && Array.isArray(cronResponse.jobs)], line 201: the
    elements of [cronResponse.jobs] when the test holds. *)
Definition readyJobs (cronResponse : option json) : option (list json) :=
  match cronResponse with
  | Some (JObject members) =>
      match Json.lookup "jobs" members with
      | Some (JArray l) => Some l
      | _ => None
      end
  | _ => None
  end.

(** [sessions?.sessions || []], line 123. *)
Definition sessionsData (sessions : option json) : list OpenClawSession.t :=
  match sessions with
  | Some (JObject members) =>
      match Json.lookup "sessions" members with
      | Some (JArray l) => map Route.asSession l
      | _ => []
      end
  | _ => []
  end.

Definition isSome {X : Type} (o : option X) : bool :=
  match o with Some _ => true | None => false end.

(** [generateData()], lines 169-228.  [binaryExists] is
    [fs.existsSync(openclawBinary)], [requireLiveData] the flag of line 19;
    the three commands run in the order of the arguments. *)
Definition generateData (binaryExists requireLiveData : bool)
    (agentsCli sessionsCli cronCli : Route.Exec)
    (dashboardTemplate : list (string * json)) (now : string)
    : outcome Snapshot.t :=
  if negb binaryExists then
    if requireLiveData then Raised
    else
      Returned
        (withMetadata (createEmptySnapshot dashboardTemplate)
           (createMetadata now true "empty-fallback"
              "openclaw binary unavailable; emitted empty snapshot"))
  else
    let data := createEmptySnapshot dashboardTemplate in
    let agents := Generate.runCommand agentsCli in
    let sessions := Generate.runCommand sessionsCli in
    let cronResponse := Generate.runCommand cronCli in
    let agentsReady := isSome (readyAgents agents) in
    let cronsReady := isSome (readyJobs cronResponse) in
    let dataAgents :=
      match readyAgents agents with
      | Some l => Generate.processAgents (map Route.asAgent l) (sessionsData sessions)
      | None => Snapshot.agents data
      end in
    match
      match readyJobs cronResponse with
      | Some jobs => Generate.processCrons (map Route.asJob jobs)
      | None => Returned (Snapshot.crons data)
      end
    with
    | Raised => Raised
    | Returned dataCrons =>
        let data :=
          {| Snapshot.template := Snapshot.template data;
             Snapshot.agents := dataAgents;
             Snapshot.projects := Snapshot.projects data;
             Snapshot.content := Snapshot.content data;
             Snapshot.trading := Snapshot.trading data;
             Snapshot.crons := dataCrons;
             Snapshot.calendar := Snapshot.calendar data;
             Snapshot.fileActivity := Snapshot.fileActivity data |} in
        let isFallback := negb (agentsReady && cronsReady) in
        if isFallback && requireLiveData then Raised
        else
          Returned
            (withMetadata data
               (createMetadata now isFallback
                  (if isFallback then "mixed" else "openclaw-cli")
                  (if isFallback
                   then "partial live data; unresolved sections are empty"
                   else "live agents+sessions+cron captured from openclaw cli")))
    end.

End Script.

(* ================================================================== *)
(** ** [app/api/debug/data-status/route.ts]: the snapshot files' status *)

Module Debug.
Import Js.

(** What [fs.stat(filePath)] and [fs.readFile(filePath)] settle to: one of
    them rejects with a message, or the file is read. *)
Inductive File : Type :=
| Rejected (message : string)
| Read (mtime : Z) (size : Z) (raw : string).

(** The exceptions the engine throws in [getFileStatus]: [JSON.parse] on a
    text that is not JSON, a property read on [null], and [toISOString] on
    a time out of range. *)
Inductive Thrown : Type :=
| SyntaxError (text : string)
| NullRead
| InvalidTime.

(** The type [FileStatus]; [error] is set in the [catch] only. *)
Record FileStatus : Type := mkFileStatus {
  path : string;
  exists_ : bool;
  valid : bool;
  timestamp : option string;
  sizeBytes : option Z;
  isFallback : option bool;
  generatedAt : option string;
  ageHours : option float;
  rejectionReasons : list string;
  error : option string
}.

Definition PRE_GENERATED_MAX_AGE_HOURS : float := 24%float.

(** [s.includes(needle)]. *)
Fixpoint includes (s needle : string) : bool :=
  String.prefix needle s
  || match s with
     | String _ r => includes r needle
     | EmptyString => false
     end.

(** The number [mantissa * 10 ^ exponent] reads as zero: it is zero, or
    at most half the least binary64 value. *)
Definition readsAsZero (mantissa exponent : Z) : bool :=
  ((mantissa =? 0)
   || ((exponent <? 0) && (Z.abs mantissa * 2 ^ 1075 <=? 10 ^ (- exponent))))%Z.

(** The truth value of a property read; [None] is [undefined]. *)
Definition isTruthy (v : option json) : bool :=
  match v with
  | None => false
  | Some JNull => false
  | Some (JBool b) => b
  | Some (JNumber m e) => negb (readsAsZero m e)
  | Some (JString s) => negb (isEmpty s)
  | Some (JArray _) => true
  | Some (JObject _) => true
  end.

(** [typeof v === "object"]. *)
Definition isObjectType (v : option json) : bool :=
  match v with
  | Some JNull | Some (JArray _) | Some (JObject _) => true
  | _ => false
  end.

(** [Array.isArray(v)]. *)
Definition isArray (v : option json) : bool :=
  match v with
  | Some (JArray _) => true
  | _ => false
  end.

(** [a ?? b] on property reads: [b] when [a] is [undefined] or [null]. *)
Definition orNullish (a b : option json) : option json :=
  match a with
  | None | Some JNull => b
  | Some _ => a
  end.

(** [v?.name] and, on a value that is not [null], [v.name]: a parsed value
    other than an object has none of the names read here. *)
Definition prop (name : string) (v : option json) : option json :=
  match v with
  | Some (JObject members) => Json.lookup name members
  | _ => None
  end.

(** [x.toFixed(2)] for a finite [x] below 1e21: the sign, and the digits of
    the nearest multiple of 1/100, the larger one on a tie. *)
Definition toFixed2 (x : float) : string :=
  match Prim2SF x with
  | S754_zero _ => "0.00"
  | S754_finite s m e =>
      let n :=
        if (0 <=? e)%Z then (Z.pos m * 100 * 2 ^ e)%Z
        else Num.roundHalfUp (Z.pos m * 100) (2 ^ (- e)) in
      (if s then "-" else "") +++ ofNat (Z.to_nat (n / 100)) +++ "." +++ pad 2 (n mod 100)
  | S754_infinity false => "Infinity"
  | S754_infinity true => "-Infinity"
  | S754_nan => "NaN"
  end.

(** [(Date.now() - generatedTime) / (1000 * 60 * 60)]. *)
Definition ageOf (now generatedTime : Z) : float :=
  PrimFloat.div (Num.ofZ (now - generatedTime)) 3600000%float.

(** [if (condition) rejectionReasons.push(reason)]. *)
Definition push (rejectionReasons : list string) (condition : bool) (reason : string)
    : list string :=
  if condition then rejectionReasons ++ [reason] else rejectionReasons.

(** The value of the [catch] block, lines 101-115. *)
Definition caught (filePath message : string) : FileStatus :=
  {| path := filePath;
     exists_ := negb (includes message "ENOENT");
     valid := false;
     timestamp := None;
     sizeBytes := None;
     isFallback := None;
     generatedAt := None;
     ageHours := None;
     rejectionReasons := ["File not readable or JSON parse failed"];
     error := Some message |}.

Section Engine.

(** [new Date(text).getTime()], [None] for [NaN]: the formats read are the
    engine's. *)
Variable dateParse : string -> option Z.

(** The message of an exception the engine throws. *)
Variable messageOf : Thrown -> string.

(** The body of the [try] of [getFileStatus] from line 39 on, for the value
    [parsed] and the [stat] of the file; [now] is [Date.now()]. *)
Definition inspect (filePath : string) (mtime size : Z) (parsed : option json)
    (now : Z) : FileStatus :=
  let rejectionReasons := [] in
  let meta := orNullish (prop "__meta" parsed) (prop "metadata" parsed) in
  let metaSource :=
    if isTruthy (prop "__meta" parsed) then "__meta"
    else if isTruthy (prop "metadata" parsed) then "metadata"
    else "none" in
  let rejectionReasons :=
    push rejectionReasons (negb (isTruthy meta) || negb (isObjectType meta))
         "Missing metadata block (__meta or metadata)" in
  let isFallback :=
    match prop "isFallback" meta with
    | Some (JBool b) => Some b
    | _ => None
    end in
  let rejectionReasons :=
    match isFallback with
    | None => push rejectionReasons true ("Missing " +++ metaSource +++ ".isFallback")
    | Some b =>
        push rejectionReasons b
             ("Expected " +++ metaSource +++ ".isFallback === false, got true")
    end in
  let generatedAt :=
    match prop "generatedAt" meta with
    | Some (JString s) => Some s
    | _ => None
    end in
  let rejectionReasons :=
    push rejectionReasons (negb (truthy generatedAt))
         ("Missing " +++ metaSource +++ ".generatedAt") in
  let aged :=
    match generatedAt with
    | Some text =>
        if isEmpty text then (None, rejectionReasons)
        else
          match dateParse text with
          | None =>
              (None,
               push rejectionReasons true
                    ("Invalid " +++ metaSource +++ ".generatedAt timestamp: " +++ text))
          | Some generatedTime =>
              let ageHours := ageOf now generatedTime in
              (Some ageHours,
               push rejectionReasons
                    (PrimFloat.ltb PRE_GENERATED_MAX_AGE_HOURS ageHours)
                    ("Snapshot is stale (" +++ toFixed2 ageHours +++ "h old, max 24h)"))
          end
    | None => (None, rejectionReasons)
    end in
  let ageHours := fst aged in
  let rejectionReasons := snd aged in
  let rejectionReasons :=
    push rejectionReasons (negb (isArray (prop "agents" parsed)))
         "Missing or invalid agents array" in
  let crons := prop "crons" parsed in
  let rejectionReasons :=
    push rejectionReasons
         (negb (isTruthy crons) || negb (isObjectType crons)
          || negb (isArray (prop "jobs" crons)))
         "Missing or invalid crons.jobs array" in
  let projectsStatus := prop "status" (prop "projects" parsed) in
  let rejectionReasons :=
    push rejectionReasons
         (match projectsStatus with
          | None => false
          | Some (JString s) => (String.length (trim s) =? 0)%nat
          | Some _ => true
          end)
         "Invalid projects.status (must be a non-empty string when present)" in
  if (Z.abs mtime <=? maxTime)%Z then
    {| path := filePath;
       exists_ := true;
       valid := (List.length rejectionReasons =? 0)%nat;
       timestamp := Some (toISOString mtime);
       sizeBytes := Some size;
       isFallback := isFallback;
       generatedAt := generatedAt;
       ageHours := ageHours;
       rejectionReasons := rejectionReasons;
       error := None |}
  else caught filePath (messageOf InvalidTime).

(** [getFileStatus(filePath)], lines 27-116: a rejected call and an
    exception thrown on the way end in the [catch]. *)
Definition getFileStatus (filePath : string) (file : File) (now : Z) : FileStatus :=
  match file with
  | Rejected message => caught filePath message
  | Read mtime size raw =>
      match Json.parse raw with
      | None => caught filePath (messageOf (SyntaxError raw))
      | Some JNull => caught filePath (messageOf NullRead)
      | Some value => inspect filePath mtime size (Some value) now
      end
  end.

(** [Object.fromEntries(entries)]: a key keeps the place of its first entry
    and takes the value of its last. *)
Fixpoint assign (key : string) (value : FileStatus) (o : list (string * FileStatus))
    : list (string * FileStatus) :=
  match o with
  | (k, v) :: o' =>
      if String.eqb k key then (k, value) :: o' else (k, v) :: assign key value o'
  | [] => [(key, value)]
  end.

Definition fromEntries (entries : list (string * FileStatus))
    : list (string * FileStatus) :=
  fold_left (fun o entry => assign (fst entry) (snd entry) o) entries [].

(** [status.timestamp ? new Date(status.timestamp).getTime() : 0]; [None]
    is [NaN]. *)
Definition timeOf (status : FileStatus) : option Z :=
  match timestamp status with
  | Some text => if isEmpty text then Some 0%Z else dateParse text
  | None => Some 0%Z
  end.

(** The comparison function, [timeB - timeA]; the sort reads [NaN] as
    zero. *)
Definition compareFn (entryA entryB : string * FileStatus) : Z :=
  match timeOf (snd entryA), timeOf (snd entryB) with
  | Some timeA, Some timeB => (timeB - timeA)%Z
  | _, _ => 0%Z
  end.

(** [entries.sort(compareFn)]: stable, by insertion. *)
Fixpoint insert (a : string * FileStatus) (l : list (string * FileStatus))
    : list (string * FileStatus) :=
  match l with
  | b :: l' => if (compareFn a b <=? 0)%Z then a :: l else b :: insert a l'
  | [] => [a]
  end.

Definition sort (l : list (string * FileStatus)) : list (string * FileStatus) :=
  fold_right insert [] l.

(** The body of the response of [GET], lines 118-140. *)
Record Report : Type := mkReport {
  candidatePaths : list string;
  fileStatus : list (string * FileStatus);
  newestFile : option string
}.

(** [GET()]; a candidate is a path with what the file system and the clock
    give the call for it. *)
Definition GET (candidates : list (string * File * Z)) : Report :=
  let entries :=
    map (fun c : string * File * Z =>
           let '(filePath, file, now) := c in
           (filePath, getFileStatus filePath file now))
        candidates in
  let fileStatus := fromEntries entries in
  let newestFile :=
    match sort (filter (fun entry => exists_ (snd entry) && valid (snd entry)) fileStatus) with
    | entry :: _ => Some (fst entry)
    | [] => None
    end in
  {| candidatePaths := map (fun c : string * File * Z => fst (fst c)) candidates;
     fileStatus := fileStatus;
     newestFile := newestFile |}.

End Engine.

End Debug.

(* ================================================================== *)
(** ** Vocabulary of the further properties *)

Module Extra.
Import Js.

(** [a] need not come after [b] in the parser's output: its time token is
    not the smaller one. *)
Definition timeDescending (a b : Horse.t) : Prop :=
  String.leb (Parser.timeOf b) (Parser.timeOf a) = true.

(** A line that carries the target date: as a date heading, or as the
    inline date of an entry. *)
Definition mentionsToday (line : string) : bool :=
  match Parser.dateMatch line with
  | Some d => String.eqb d Parser.todayDate
  | None =>
      match Parser.entryMatch (Parser.normalize line) with
      | Some (race0, _, _) =>
          match Parser.raceDateMatch race0 with
          | Some (d, _) => String.eqb d Parser.todayDate
          | None => false
          end
      | None => false
      end
  end.

(** A line the parser has no pattern for. *)
Definition unmatched (line : string) : Prop :=
  Parser.dateMatch line = None
  /\ Parser.entryMatch (Parser.normalize line) = None.

(** A character that ends no line. *)
Definition inLine (c : ascii) : bool :=
  negb (Ascii.eqb c "010") && negb (Ascii.eqb c "013").

(** The sessions held by the groups of the secondary pass. *)
Definition groupSessions (m : Reconciler.GroupMap) : nat :=
  list_sum (map (fun kg => Reconciler.g_sessions (snd kg)) m).

Definition noHyphen (c : ascii) : bool := negb (Ascii.eqb c "-").

(** The state of a job, [job.state ?? {}], and the values its two run times
    are formatted from. *)
Definition stateOf (job : OpenClawJob.t) : JobState.t :=
  match OpenClawJob.state job with
  | Some st => st
  | None => JobState.empty
  end.

Definition nextRunValue (job : OpenClawJob.t) : option StrOrNum :=
  nullish (option_map IsNum (JobState.nextRunAtMs (stateOf job)))
          (JobState.next_run (stateOf job)).

Definition lastRunValue (job : OpenClawJob.t) : option StrOrNum :=
  nullish (nullish (option_map IsNum (JobState.lastRunAtMs (stateOf job)))
                   (JobState.last_run (stateOf job)))
          (JobState.lastRun (stateOf job)).

(** A number past the range of a [Date]. *)
Definition outOfRange (v : option StrOrNum) : bool :=
  match v with
  | Some (IsNum n) => negb (Z.abs n <=? maxTime)%Z
  | _ => false
  end.

(** A parsed value that holds others: an array or an object. *)
Definition isContainer (v : json) : bool :=
  match v with
  | JArray _ | JObject _ => true
  | _ => false
  end.

(** The four assignments of [buildLiveData], lines 105-130, one at a
    time. *)
Definition withAgents (agents : option (list Agent.t)) (snapshot : DashboardData.t)
    : DashboardData.t :=
  match agents with
  | Some l =>
      if (0 <? List.length l)%nat then
        DashboardData.mk l (DashboardData.projects snapshot)
          (DashboardData.trading snapshot) (DashboardData.crons snapshot)
          (DashboardData.calendar snapshot) (DashboardData.content snapshot)
          (DashboardData.fileActivity snapshot)
      else snapshot
  | None => snapshot
  end.

Definition withProjects (projects : option Projects.t) (snapshot : DashboardData.t)
    : DashboardData.t :=
  match projects with
  | Some p =>
      if (0 <? List.length (Projects.active p))%nat then
        DashboardData.mk (DashboardData.agents snapshot) p
          (DashboardData.trading snapshot) (DashboardData.crons snapshot)
          (DashboardData.calendar snapshot) (DashboardData.content snapshot)
          (DashboardData.fileActivity snapshot)
      else snapshot
  | None => snapshot
  end.

Definition withCrons (crons : option Crons.t) (snapshot : DashboardData.t)
    : DashboardData.t :=
  match crons with
  | Some c =>
      if (0 <? List.length (Crons.jobs c))%nat then
        DashboardData.mk (DashboardData.agents snapshot)
          (DashboardData.projects snapshot) (DashboardData.trading snapshot) c
          (DashboardData.calendar snapshot) (DashboardData.content snapshot)
          (DashboardData.fileActivity snapshot)
      else snapshot
  | None => snapshot
  end.

Definition withTrading (trading : option Trading.t) (snapshot : DashboardData.t)
    : DashboardData.t :=
  match trading with
  | Some t =>
      DashboardData.mk (DashboardData.agents snapshot)
        (DashboardData.projects snapshot) t (DashboardData.crons snapshot)
        (DashboardData.calendar snapshot) (DashboardData.content snapshot)
        (DashboardData.fileActivity snapshot)
  | None => snapshot
  end.

(** What the debug route asks of a snapshot file: a modification time in
    range, a metadata block that is an object, not marked as a fallback,
    generated at a time the engine reads and no more than the maximum age
    ago, an array of agents, an array of cron jobs, and a project status
    that is absent or a string with text. *)
Definition freshSnapshot (dateParse : string -> option Z) (mtime : Z)
    (parsed : option json) (now : Z) : bool :=
  let meta := Debug.orNullish (Debug.prop "__meta" parsed) (Debug.prop "metadata" parsed) in
  (Z.abs mtime <=? maxTime)%Z
  && match meta with Some (JObject _) => true | _ => false end
  && match Debug.prop "isFallback" meta with Some (JBool false) => true | _ => false end
  && match Debug.prop "generatedAt" meta with
     | Some (JString text) =>
         negb (isEmpty text)
         && match dateParse text with
            | Some generatedTime =>
                negb (PrimFloat.ltb Debug.PRE_GENERATED_MAX_AGE_HOURS
                                    (Debug.ageOf now generatedTime))
            | None => false
            end
     | _ => false
     end
  && Debug.isArray (Debug.prop "agents" parsed)
  && Debug.isArray (Debug.prop "jobs" (Debug.prop "crons" parsed))
  && match Debug.prop "status" (Debug.prop "projects" parsed) with
     | None => true
     | Some (JString s) => negb (isEmpty (trim s))
     | Some _ => false
     end.

(** A reader of dates for the examples: it reads the ISO strings of three
    times, and nothing else. *)
Definition sampleDateParse (text : string) : option Z :=
  find (fun t => String.eqb (toISOString t) text)
       [1770508800000; 1770681600000; 1770703200000]%Z.

Definition sampleMessageOf (e : Debug.Thrown) : string :=
  match e with
  | Debug.SyntaxError _ => "Unexpected token in JSON"
  | Debug.NullRead => "Cannot read properties of null"
  | Debug.InvalidTime => "Invalid time value"
  end.

(** A status the route takes for the newest file: [exists && valid]. *)
Definition usable (entry : string * Debug.FileStatus) : bool :=
  Debug.exists_ (snd entry) && Debug.valid (snd entry).

End Extra.

(* ================================================================== *)
(** * Properties *)

Import Js.

(** ** Sums *)

Section Sums.
Import Spec.
Local Open Scope Z_scope.

Lemma fold_left_add_sumZ {A : Type} (f : A -> Z) (l : list A) (a : Z) :
  fold_left (fun acc x => acc + f x) l a = a + sumZ (map f l).
Proof.
  revert a; induction l as [|x l IH]; intros a; simpl.
  - lia.
  - rewrite IH. lia.
Qed.

Lemma sumZ_app (l1 l2 : list Z) : sumZ (l1 ++ l2) = sumZ l1 + sumZ l2.
Proof. induction l1 as [|x l1 IH]; simpl; lia. Qed.

Lemma sumZ_filter {A : Type} (p : A -> bool) (f : A -> Z) (l : list A) :
  sumZ (map f (filter p l)) = sumZ (map (fun x => if p x then f x else 0) l).
Proof.
  induction l as [|x l IH]; simpl; [reflexivity|].
  destruct (p x); simpl; lia.
Qed.

Lemma sumZ_pointwise {A : Type} (f g : A -> Z) (l : list A) :
  (forall x, In x l -> f x = g x) -> sumZ (map f l) = sumZ (map g l).
Proof.
  induction l as [|x l IH]; simpl; intros H; [reflexivity|].
  rewrite (H x), IH by auto. reflexivity.
Qed.

Lemma sumZ_plus {A : Type} (f g : A -> Z) (l : list A) :
  sumZ (map (fun x => f x + g x) l) = sumZ (map f l) + sumZ (map g l).
Proof. induction l as [|x l IH]; simpl; lia. Qed.

End Sums.

(** ** Binary64 addition of whole numbers *)

Section NumFacts.
Import Spec Num.
Local Open Scope Z_scope.

Lemma sumZ_nonneg (l : list Z) : (forall z, In z l -> 0 <= z) -> 0 <= sumZ l.
Proof.
  induction l as [|z l IH]; simpl; intros H; [lia|].
  assert (0 <= z) by (apply H; now left).
  assert (0 <= sumZ l) by (apply IH; intros y Hy; apply H; now right). lia.
Qed.

Lemma shl_Z (w : positive) (n : nat) : Z.pos (shl w n) = Z.pos w * 2 ^ Z.of_nat n.
Proof.
  induction n as [|n IH]; [simpl; lia|].
  cbn [shl]. rewrite Pos2Z.inj_xO, IH, Nat2Z.inj_succ, Z.pow_succ_r; lia.
Qed.

Lemma shl_shl (w : positive) (n m : nat) : shl (shl w n) m = shl w (m + n).
Proof. induction m as [|m IH]; simpl; congruence. Qed.

Lemma iter_xO_shl (w p : positive) : Pos.iter xO w p = shl w (Pos.to_nat p).
Proof.
  rewrite Pos2Nat.inj_iter. induction (Pos.to_nat p) as [|n IH]; simpl; congruence.
Qed.

Lemma digits_shl (w : positive) (n : nat) :
  Z.pos (digits2_pos (shl w n)) = Z.pos (digits2_pos w) + Z.of_nat n.
Proof.
  induction n as [|n IH]; [simpl; lia|].
  cbn [shl digits2_pos]. rewrite Pos2Z.inj_succ, IH. lia.
Qed.

Lemma digits_bound (p : positive) (n : Z) :
  0 <= n -> Z.pos p < 2 ^ n -> Z.pos (digits2_pos p) <= n.
Proof.
  revert n; induction p as [p IH|p IH|]; intros n Hn H; cbn [digits2_pos].
  - assert (n <> 0) by (intros ->; simpl in H; lia).
    replace n with (Z.succ (n - 1)) in H by lia. rewrite Z.pow_succ_r in H by lia.
    specialize (IH (n - 1)). rewrite Pos2Z.inj_succ. lia.
  - assert (n <> 0) by (intros ->; simpl in H; lia).
    replace n with (Z.succ (n - 1)) in H by lia. rewrite Z.pow_succ_r in H by lia.
    specialize (IH (n - 1)). rewrite Pos2Z.inj_succ. lia.
  - assert (n <> 0) by (intros ->; simpl in H; lia). lia.
Qed.

Lemma iterate_add {A : Type} (f : A -> A) (n m : nat) (x : A) :
  iterate f (n + m) x = iterate f m (iterate f n x).
Proof. revert x; induction n as [|n IH]; intros x; simpl; auto. Qed.

Lemma iter_pos_iterate {A : Type} (f : A -> A) (p : positive) (x : A) :
  SpecFloat.iter_pos f p x = iterate f (Pos.to_nat p) x.
Proof.
  revert x; induction p as [p IH|p IH|]; intros x; cbn [SpecFloat.iter_pos].
  - rewrite !IH, Pos2Nat.inj_xI. cbn [iterate Nat.mul].
    now rewrite Nat.add_0_r, iterate_add.
  - rewrite !IH, Pos2Nat.inj_xO. cbn [Nat.mul]. now rewrite Nat.add_0_r, iterate_add.
  - reflexivity.
Qed.

(** Shifting right the bits that were shifted in loses nothing. *)
Lemma shr_shl (w : positive) (n k : nat) :
  iterate shr_1 k {| shr_m := Z.pos (shl w (k + n)); shr_r := false; shr_s := false |}
  = {| shr_m := Z.pos (shl w n); shr_r := false; shr_s := false |}.
Proof.
  induction k as [|k IH]; [reflexivity|].
  cbn [Nat.add shl iterate shr_1 orb]. exact IH.
Qed.

Lemma fexp_digits (v : positive) :
  Z.pos v < 2 ^ 53 ->
  fexp prec emax (Z.pos (digits2_pos v)) = - Z.of_nat (slack v).
Proof.
  intros H. apply digits_bound in H; [|lia].
  unfold fexp, emin, prec, emax, slack. rewrite Z2Nat.id by lia. lia.
Qed.

Lemma shr_fexp_exact (v : positive) (k : nat) :
  Z.pos v < 2 ^ 53 ->
  (slack v <= k)%nat ->
  shr_fexp prec emax (Z.pos (shl v k)) (- Z.of_nat k) loc_Exact
  = ({| shr_m := Z.pos (shl v (slack v)); shr_r := false; shr_s := false |},
     - Z.of_nat (slack v)).
Proof.
  intros Hv Hk. unfold shr_fexp. cbn [Zdigits2 shr_record_of_loc].
  rewrite digits_shl.
  replace (Z.pos (digits2_pos v) + Z.of_nat k + - Z.of_nat k)
    with (Z.pos (digits2_pos v)) by lia.
  rewrite fexp_digits by exact Hv.
  unfold shr.
  destruct (- Z.of_nat (slack v) - - Z.of_nat k) as [|p|p] eqn:E.
  - assert (k = slack v) by lia. subst k. reflexivity.
  - rewrite iter_pos_iterate.
    assert (Ek : k = (Pos.to_nat p + slack v)%nat) by lia.
    rewrite Ek at 1. rewrite shr_shl. f_equal. lia.
  - lia.
Qed.

(** A positive integer below 2^53, given with any number of zero bits
    shifted in, rounds to itself: the mantissa filled up to 53 bits. *)
Lemma round_exact (v : positive) (k : nat) :
  Z.pos v < 2 ^ 53 ->
  binary_round prec emax false (shl v k) (- Z.of_nat k)
  = S754_finite false (shl v (slack v)) (- Z.of_nat (slack v)).
Proof.
  intros Hv. unfold binary_round.
  rewrite digits_shl.
  replace (Z.pos (digits2_pos v) + Z.of_nat k + - Z.of_nat k)
    with (Z.pos (digits2_pos v)) by lia.
  rewrite fexp_digits by exact Hv.
  assert (Haux : forall k', (slack v <= k')%nat ->
            binary_round_aux prec emax false (Z.pos (shl v k')) (- Z.of_nat k') loc_Exact
            = S754_finite false (shl v (slack v)) (- Z.of_nat (slack v))).
  { intros k' Hk'. unfold binary_round_aux.
    rewrite shr_fexp_exact by assumption.
    cbn [shr_m loc_of_shr_record round_nearest_even].
    rewrite shr_fexp_exact by (assumption || lia).
    cbn [shr_m].
    assert (E : (- Z.of_nat (slack v) <=? emax - prec) = true)
      by (apply Z.leb_le; unfold emax, prec; lia).
    now rewrite E. }
  unfold shl_align.
  destruct (- Z.of_nat (slack v) - - Z.of_nat k) as [|p|p] eqn:E.
  - apply Haux. lia.
  - apply Haux. lia.
  - rewrite iter_xO_shl, shl_shl.
    replace (Pos.to_nat p + k)%nat with (slack v) by lia.
    apply Haux. lia.
Qed.

Lemma normalize_exact (v : positive) :
  Z.pos v < 2 ^ 53 ->
  binary_normalize prec emax (Z.pos v) 0 false
  = S754_finite false (shl v (slack v)) (- Z.of_nat (slack v)).
Proof. intros Hv. exact (round_exact v 0 Hv). Qed.

Lemma canonical_valid (v : positive) :
  Z.pos v < 2 ^ 53 ->
  valid_binary (S754_finite false (shl v (slack v)) (- Z.of_nat (slack v))) = true.
Proof.
  intros Hv. cbn [valid_binary]. unfold bounded, canonical_mantissa.
  rewrite digits_shl.
  assert (Hd := digits_bound v 53 ltac:(lia) Hv).
  unfold fexp, emin, prec, emax, slack. rewrite Z2Nat.id by lia.
  apply andb_true_iff. split; [apply Z.eqb_eq|apply Z.leb_le]; lia.
Qed.

Lemma Prim2SF_ofZ (v : positive) :
  Z.pos v < 2 ^ 53 ->
  Prim2SF (ofZ (Z.pos v)) = S754_finite false (shl v (slack v)) (- Z.of_nat (slack v)).
Proof.
  intros Hv. unfold ofZ. rewrite normalize_exact by exact Hv.
  apply Prim2SF_SF2Prim, canonical_valid, Hv.
Qed.

(** A whole number up to [MAX_SAFE_INTEGER] is read back from its binary64
    value. *)
Lemma toZ_ofZ (n : Z) : 0 <= n <= maxSafeInteger -> toZ (ofZ n) = n.
Proof.
  intros [H0 Hn]. unfold maxSafeInteger in Hn.
  destruct n as [|v|v]; [reflexivity| |lia].
  unfold toZ. rewrite Prim2SF_ofZ by lia.
  destruct (slack v) as [|j] eqn:Ej.
  - simpl. lia.
  - assert (E : (0 <=? - Z.of_nat (S j)) = false) by (apply Z.leb_gt; lia).
    rewrite E, Z.opp_involutive, shl_Z.
    apply Z.div_mul. apply Z.pow_nonzero; lia.
Qed.

(** Binary64 addition is exact on whole numbers whose sum is at most
    [MAX_SAFE_INTEGER]. *)
Lemma add_exact (a b : Z) :
  0 <= a -> 0 <= b -> a + b <= maxSafeInteger ->
  PrimFloat.add (ofZ a) (ofZ b) = ofZ (a + b).
Proof.
  intros Ha Hb Hab. unfold maxSafeInteger in Hab.
  rewrite <- (SF2Prim_Prim2SF (PrimFloat.add (ofZ a) (ofZ b))), add_spec.
  destruct a as [|va|va]; [|
    destruct b as [|vb|vb]; [| |lia] |lia].
  - change (Prim2SF (ofZ 0)) with (S754_zero false). cbn [Z.add].
    destruct b as [|vb|vb]; [reflexivity| |lia].
    rewrite Prim2SF_ofZ by lia. cbn [SF64add SFadd].
    rewrite <- Prim2SF_ofZ by lia. apply SF2Prim_Prim2SF.
  - change (Prim2SF (ofZ 0)) with (S754_zero false). rewrite Z.add_0_r.
    rewrite Prim2SF_ofZ by lia. cbn [SF64add SFadd].
    rewrite <- Prim2SF_ofZ by lia. apply SF2Prim_Prim2SF.
  - rewrite !Prim2SF_ofZ by lia. unfold SF64add, SFadd.
    cbn [cond_Zopp].
    set (ja := slack va). set (jb := slack vb).
    assert (Hal : forall (v : positive) (j m : nat), (j <= m)%nat ->
              fst (shl_align (shl v j) (- Z.of_nat j) (- Z.of_nat m)) = shl v m).
    { intros v j m Hjm. unfold shl_align.
      destruct (- Z.of_nat m - - Z.of_nat j) as [|p|p] eqn:E; cbn [fst].
      - f_equal. lia.
      - lia.
      - rewrite iter_xO_shl, shl_shl. f_equal. lia. }
    set (m := Nat.max ja jb).
    replace (Z.min (- Z.of_nat ja) (- Z.of_nat jb)) with (- Z.of_nat m) by lia.
    rewrite !Hal by lia.
    assert (Esum : Z.pos (shl va m) + Z.pos (shl vb m) = Z.pos (shl (va + vb) m)).
    { rewrite !shl_Z, Pos2Z.inj_add. lia. }
    rewrite Esum. cbn [binary_normalize].
    rewrite round_exact by (rewrite Pos2Z.inj_add; lia).
    unfold ofZ. cbn [Z.add]. rewrite normalize_exact by (rewrite Pos2Z.inj_add; lia).
    reflexivity.
Qed.

Lemma safeCount_ofZ (n : Z) : 0 <= n <= maxSafeInteger -> safeCount (ofZ n).
Proof. intros H. unfold safeCount. now rewrite toZ_ofZ. Qed.

Lemma safeCount_zero : safeCount 0%float /\ toZ 0%float = 0.
Proof. split; [exact (safeCount_ofZ 0 ltac:(unfold maxSafeInteger; lia))|reflexivity]. Qed.

Lemma safeCount_add (x y : float) :
  safeCount x -> safeCount y -> toZ x + toZ y <= maxSafeInteger ->
  safeCount (PrimFloat.add x y) /\ toZ (PrimFloat.add x y) = toZ x + toZ y.
Proof.
  intros [Ex Bx] [Ey By] H.
  assert (E : PrimFloat.add x y = ofZ (toZ x + toZ y)).
  { rewrite Ex at 1. rewrite Ey at 1. apply add_exact; lia. }
  rewrite E. split; [apply safeCount_ofZ|apply toZ_ofZ]; lia.
Qed.

Lemma safeCount_eq (x y : float) :
  safeCount x -> safeCount y -> toZ x = toZ y -> x = y.
Proof. intros [Ex _] [Ey _] E. rewrite Ex, Ey, E. reflexivity. Qed.

(** A sum of whole numbers, added from the left in binary64, is exact
    while the total stays within [MAX_SAFE_INTEGER]. *)
Lemma fold_add_safe {X : Type} (f : X -> float) (l : list X) (a : float) :
  safeCount a ->
  (forall x, In x l -> safeCount (f x)) ->
  toZ a + sumZ (map (fun x => toZ (f x)) l) <= maxSafeInteger ->
  safeCount (fold_left (fun acc x => PrimFloat.add acc (f x)) l a)
  /\ toZ (fold_left (fun acc x => PrimFloat.add acc (f x)) l a)
     = toZ a + sumZ (map (fun x => toZ (f x)) l).
Proof.
  revert a; induction l as [|x l IH]; intros a Ha Hl Hb; cbn [fold_left map] in *.
  - split; [exact Ha|]. cbn [sumZ fold_right]. lia.
  - assert (Hx : safeCount (f x)) by (apply Hl; now left).
    assert (Hrest : 0 <= sumZ (map (fun x => toZ (f x)) l)).
    { apply sumZ_nonneg. intros z Hz. apply in_map_iff in Hz as [y [<- Hy]].
      apply (Hl y). now right. }
    change (sumZ (toZ (f x) :: map (fun x => toZ (f x)) l))
      with (toZ (f x) + sumZ (map (fun x => toZ (f x)) l)) in *.
    destruct (safeCount_add a (f x) Ha Hx) as [Hs Hv]; [lia|].
    destruct (IH (PrimFloat.add a (f x)) Hs) as [Hs' Hv'].
    + intros y Hy. apply Hl. now right.
    + lia.
    + split; [exact Hs'|lia].
Qed.

End NumFacts.

(** ** The agent reconciler *)

Section ReconcilerFacts.
Import Spec Reconciler Num.
Local Open Scope Z_scope.

Lemma sumZ_le {X : Type} (f g : X -> Z) (l : list X) :
  (forall x, In x l -> f x <= g x) -> sumZ (map f l) <= sumZ (map g l).
Proof.
  induction l as [|x l IH]; simpl; intros H; [lia|].
  assert (f x <= g x) by (apply H; now left).
  assert (sumZ (map f l) <= sumZ (map g l)) by (apply IH; intros y Hy; apply H; now right).
  lia.
Qed.

(** The number of entries of the agent list that claim a session. *)
Lemma claims_owners (A : list OpenClawAgent.t) (s : OpenClawSession.t) :
  Z.of_nat (claims A s)
  = Z.of_nat (List.length (filter (fun a => primaryRule a s) A))
    + (if secondaryRule s then 1 else 0).
Proof. unfold claims. destruct (secondaryRule s); lia. Qed.

Lemma sumTokenValues_safe (l : list OpenClawSession.t) :
  (forall s, In s l -> safeCount (tokenValue s)) ->
  sumZ (map count l) <= maxSafeInteger ->
  safeCount (sumTokenValues l) /\ toZ (sumTokenValues l) = sumZ (map count l).
Proof.
  intros Hl Hb. unfold sumTokenValues.
  destruct (fold_add_safe tokenValue l 0%float (proj1 safeCount_zero) Hl) as [H1 H2].
  - rewrite (proj2 safeCount_zero). exact Hb.
  - split; [exact H1|]. rewrite H2, (proj2 safeCount_zero). reflexivity.
Qed.

Lemma totalTokens_safe (l : list Agent.t) :
  (forall r, In r l -> safeCount (Agent.tokens r)) ->
  sumZ (map (fun r => toZ (Agent.tokens r)) l) <= maxSafeInteger ->
  safeCount (totalTokens l)
  /\ toZ (totalTokens l) = sumZ (map (fun r => toZ (Agent.tokens r)) l).
Proof.
  intros Hl Hb. unfold totalTokens.
  destruct (fold_add_safe Agent.tokens l 0%float (proj1 safeCount_zero) Hl) as [H1 H2].
  - rewrite (proj2 safeCount_zero). exact Hb.
  - split; [exact H1|]. rewrite H2, (proj2 safeCount_zero). reflexivity.
Qed.

(** Summed over the agent list, the sessions an agent owns are the sessions,
    each as many times as it has owners. *)
Lemma owned_counts (S : list OpenClawSession.t) (A : list OpenClawAgent.t) :
  sumZ (map (fun a => sumZ (map count (filter (ownedBy (prefixOf a)) S))) A)
  = sumZ (map (fun s => count s
                        * Z.of_nat (List.length (filter (fun a => primaryRule a s) A))) S).
Proof.
  induction A as [|a A IH]; simpl.
  - induction S as [|s S IHS]; simpl; lia.
  - rewrite IH, sumZ_filter, <- sumZ_plus.
    apply sumZ_pointwise; intros s _.
    unfold primaryRule. destruct (ownedBy (prefixOf a) s); simpl List.length; lia.
Qed.

Section Claimed.

Variable A : list OpenClawAgent.t.
Variable S : list OpenClawSession.t.

(** Every session that a rule claims holds a whole token count, and the
    counts, each as many times as it is claimed, stay within range. *)
Hypothesis Hsafe : forall s, In s S -> claims A s <> 0%nat -> safeCount (tokenValue s).
Hypothesis Hbound :
  sumZ (map (fun s => count s * Z.of_nat (claims A s)) S) <= maxSafeInteger.

Lemma claimed_nonneg (s : OpenClawSession.t) :
  In s S -> 0 <= count s * Z.of_nat (claims A s).
Proof.
  intros Hs. destruct (claims A s) as [|n] eqn:E; [lia|].
  assert (Hc : safeCount (tokenValue s)) by (apply Hsafe; [exact Hs|lia]).
  destruct Hc as [_ Hc]. unfold count. nia.
Qed.

Lemma owner_term (s : OpenClawSession.t) :
  In s S ->
  0 <= count s * Z.of_nat (List.length (filter (fun a => primaryRule a s) A))
  /\ 0 <= (if secondaryRule s then count s else 0)
  /\ count s * Z.of_nat (claims A s)
     = count s * Z.of_nat (List.length (filter (fun a => primaryRule a s) A))
       + (if secondaryRule s then count s else 0).
Proof.
  intros Hs. rewrite claims_owners.
  assert (Hc : claims A s <> 0%nat -> 0 <= count s).
  { intros H. apply (Hsafe s Hs) in H as [_ H]. unfold count. lia. }
  unfold claims in Hc.
  destruct (List.length (filter (fun a => primaryRule a s) A)) as [|n];
    destruct (secondaryRule s); cbn [Nat.add] in Hc.
  - assert (0 <= count s) by (apply Hc; lia). lia.
  - lia.
  - assert (0 <= count s) by (apply Hc; lia). nia.
  - assert (0 <= count s) by (apply Hc; lia). nia.
Qed.

Lemma claimed_split :
  sumZ (map (fun s => count s * Z.of_nat (claims A s)) S)
  = sumZ (map (fun s => count s
                        * Z.of_nat (List.length (filter (fun a => primaryRule a s) A))) S)
    + sumZ (map (fun s => if secondaryRule s then count s else 0) S).
Proof.
  rewrite <- sumZ_plus. apply sumZ_pointwise. intros s Hs. apply owner_term, Hs.
Qed.

Lemma owners_nonneg :
  0 <= sumZ (map (fun s => count s
                           * Z.of_nat (List.length (filter (fun a => primaryRule a s) A))) S).
Proof.
  apply sumZ_nonneg. intros z Hz. apply in_map_iff in Hz as [s [<- Hs]].
  apply owner_term, Hs.
Qed.

Lemma secondary_nonneg :
  0 <= sumZ (map (fun s => if secondaryRule s then count s else 0) S).
Proof.
  apply sumZ_nonneg. intros z Hz. apply in_map_iff in Hz as [s [<- Hs]].
  apply owner_term, Hs.
Qed.

(** The record of an agent of the list holds the exact sum of the sessions
    it owns. *)
Lemma primaryRecord_safe (a : OpenClawAgent.t) :
  In a A ->
  safeCount (Agent.tokens (primaryRecord S a))
  /\ toZ (Agent.tokens (primaryRecord S a))
     = sumZ (map count (filter (ownedBy (prefixOf a)) S)).
Proof.
  intros Ha. cbn [primaryRecord Agent.tokens]. apply sumTokenValues_safe.
  - intros s Hs. apply filter_In in Hs as [Hs Ho]. apply Hsafe; [exact Hs|].
    unfold claims. intros E.
    assert (Hin : In a (filter (fun a => primaryRule a s) A))
      by (apply filter_In; split; [exact Ha|exact Ho]).
    destruct (filter (fun a => primaryRule a s) A); [contradiction|].
    simpl in E. lia.
  - rewrite sumZ_filter.
    apply Z.le_trans
      with (sumZ (map (fun s => count s * Z.of_nat (claims A s)) S)); [|exact Hbound].
    rewrite claimed_split.
    apply Z.le_trans
      with (sumZ (map (fun s => count s
                        * Z.of_nat (List.length (filter (fun a => primaryRule a s) A))) S));
      [|pose proof secondary_nonneg; lia].
    apply sumZ_le. intros s Hs.
    destruct (ownedBy (prefixOf a) s) eqn:Ho; [|apply owner_term, Hs].
    assert (Hin : In a (filter (fun a => primaryRule a s) A))
      by (apply filter_In; split; [exact Ha|exact Ho]).
    assert (Hc : 0 <= count s).
    { assert (Hs' : safeCount (tokenValue s)).
      { apply Hsafe; [exact Hs|]. unfold claims.
        destruct (filter (fun a => primaryRule a s) A); [contradiction|]. simpl. lia. }
      destruct Hs' as [_ Hs']. unfold count. lia. }
    destruct (filter (fun a => primaryRule a s) A) as [|x l]; [contradiction|].
    cbn [List.length]. nia.
Qed.

Lemma primaries_safe :
  (forall r, In r (map (primaryRecord S) A) -> safeCount (Agent.tokens r))
  /\ sumZ (map (fun r => toZ (Agent.tokens r)) (map (primaryRecord S) A))
     = sumZ (map (fun s => count s
                           * Z.of_nat (List.length (filter (fun a => primaryRule a s) A))) S).
Proof.
  split.
  - intros r Hr. apply in_map_iff in Hr as [a [<- Ha]]. apply primaryRecord_safe, Ha.
  - rewrite <- owned_counts, map_map. apply sumZ_pointwise.
    intros a Ha. apply primaryRecord_safe, Ha.
Qed.

End Claimed.

Lemma groupTokens_nonneg (m : GroupMap) : safeGroups m -> 0 <= groupTokens m.
Proof.
  intros H. apply sumZ_nonneg. intros z Hz. apply in_map_iff in Hz as [kg [<- Hkg]].
  apply H in Hkg as [_ Hkg]. lia.
Qed.

Lemma safeGroups_cons (kg : string * Group) (m : GroupMap) :
  safeGroups (kg :: m) <-> safeCount (g_tokens (snd kg)) /\ safeGroups m.
Proof.
  unfold safeGroups. split.
  - intros H. split; [apply H; now left|intros x Hx; apply H; now right].
  - intros [H1 H2] x [<-|Hx]; auto.
Qed.

Lemma bump_safe (m : GroupMap) (k : string) (n : float) :
  safeGroups m -> safeCount n -> groupTokens m + toZ n <= maxSafeInteger ->
  has m k = true ->
  safeGroups (bump m k n) /\ groupTokens (bump m k n) = groupTokens m + toZ n.
Proof.
  unfold groupTokens.
  induction m as [|[k' g] m IH]; simpl; intros Hm Hn Hb Hk; [discriminate|].
  apply safeGroups_cons in Hm as [Hg Hm]. cbn [snd] in Hg.
  assert (Hrest := groupTokens_nonneg m Hm). unfold groupTokens in Hrest.
  destruct (String.eqb k' k); simpl in *.
  - destruct (safeCount_add (g_tokens g) n Hg Hn) as [Hs Hv]; [lia|].
    split; [apply safeGroups_cons; split; [exact Hs|exact Hm]|]. lia.
  - destruct Hg as [Eg Bg].
    destruct (IH Hm Hn) as [Hs Hv]; [lia|exact Hk|].
    split; [apply safeGroups_cons; split; [split; assumption|exact Hs]|]. lia.
Qed.

Lemma discoverStep_safe (m : GroupMap) (s : OpenClawSession.t) :
  safeGroups m ->
  (secondaryRule s = true -> safeCount (tokenValue s)) ->
  groupTokens m + (if secondaryRule s then count s else 0) <= maxSafeInteger ->
  safeGroups (discoverStep m s)
  /\ groupTokens (discoverStep m s)
     = groupTokens m + (if secondaryRule s then count s else 0).
Proof.
  unfold discoverStep, secondaryRule, count.
  destruct (subagentMatch _) as [k|]; intros Hm Hs Hb; [|split; [exact Hm|lia]].
  specialize (Hs eq_refl).
  destruct (has m k) eqn:Hk; simpl.
  - apply bump_safe; assumption.
  - split.
    + intros kg Hkg. apply in_app_or in Hkg as [Hkg|[<-|[]]]; [apply Hm, Hkg|exact Hs].
    + unfold groupTokens. rewrite map_app, sumZ_app. simpl. lia.
Qed.

Lemma discover_from_safe (S : list OpenClawSession.t) (m : GroupMap) :
  safeGroups m ->
  (forall s, In s S -> secondaryRule s = true -> safeCount (tokenValue s)) ->
  groupTokens m + sumZ (map (fun s => if secondaryRule s then count s else 0) S)
  <= maxSafeInteger ->
  safeGroups (fold_left discoverStep S m)
  /\ groupTokens (fold_left discoverStep S m)
     = groupTokens m + sumZ (map (fun s => if secondaryRule s then count s else 0) S).
Proof.
  revert m; induction S as [|s S IH]; intros m Hm HS Hb; simpl in *.
  - split; [exact Hm|lia].
  - assert (Hrest : 0 <= sumZ (map (fun s => if secondaryRule s then count s else 0) S)).
    { apply sumZ_nonneg. intros z Hz. apply in_map_iff in Hz as [x [<- Hx]].
      destruct (secondaryRule x) eqn:Ex; [|lia].
      destruct (HS x (or_intror Hx) Ex) as [_ H]. unfold count. lia. }
    destruct (discoverStep_safe m s Hm) as [Hs Hv].
    + apply HS. now left.
    + lia.
    + destruct (IH (discoverStep m s) Hs) as [Hs' Hv'].
      * intros x Hx. apply HS. now right.
      * lia.
      * split; [exact Hs'|lia].
Qed.

Lemma activeRecords_tokens (D : list string) (groups : GroupMap) (i : nat) :
  map Agent.tokens (activeRecords D i groups) = map (fun kg => g_tokens (snd kg)) groups.
Proof.
  revert i; induction groups as [|[k g] groups IH]; intros i; simpl.
  - reflexivity.
  - now rewrite IH.
Qed.

Lemma idleRecords_tokens (D : list string) (i : nat) (r : Agent.t) :
  In r (idleRecords D i) -> Agent.tokens r = 0%float.
Proof.
  unfold idleRecords. intros H. apply in_map_iff in H as [d [<- _]]. reflexivity.
Qed.

Lemma subagents_safe (D : list string) (S : list OpenClawSession.t) :
  (forall s, In s S -> secondaryRule s = true -> safeCount (tokenValue s)) ->
  sumZ (map (fun s => if secondaryRule s then count s else 0) S) <= maxSafeInteger ->
  (forall r, In r (subagents D S) -> safeCount (Agent.tokens r))
  /\ sumZ (map (fun r => toZ (Agent.tokens r)) (subagents D S))
     = sumZ (map (fun s => if secondaryRule s then count s else 0) S).
Proof.
  intros HS Hb. unfold subagents, discover.
  destruct (discover_from_safe S []) as [Hs Hv]; [intros kg []|exact HS|exact Hb|].
  split.
  - intros r Hr. apply in_app_or in Hr as [Hr|Hr].
    + apply (in_map Agent.tokens) in Hr. rewrite activeRecords_tokens in Hr.
      apply in_map_iff in Hr as [kg [<- Hkg]]. apply Hs, Hkg.
    + rewrite (idleRecords_tokens _ _ _ Hr). apply safeCount_zero.
  - rewrite map_app, sumZ_app.
    rewrite <- (map_map Agent.tokens toZ (activeRecords _ _ _)), activeRecords_tokens,
      map_map.
    fold (groupTokens (fold_left discoverStep S [])). rewrite Hv.
    assert (E : sumZ (map (fun r => toZ (Agent.tokens r))
                          (idleRecords D (List.length (fold_left discoverStep S []))))
                = 0).
    { unfold idleRecords. induction (skipn _ D) as [|d l IH]; simpl; [reflexivity|].
      rewrite IH. reflexivity. }
    rewrite E. unfold groupTokens. simpl. lia.
Qed.

(** Every session is counted as many times as the rules claim it, and the
    total the reconciler returns is exact while those counts stay in
    range. *)
Lemma reconcile_tokens_by_claims (A : list OpenClawAgent.t)
    (S : list OpenClawSession.t) (D : list string) (out : list Agent.t) :
  reconcile A S D = Some out ->
  (forall s, In s S -> claims A s <> 0%nat -> safeCount (tokenValue s)) ->
  sumZ (map (fun s => count s * Z.of_nat (claims A s)) S) <= maxSafeInteger ->
  safeCount (totalTokens out)
  /\ toZ (totalTokens out)
     = sumZ (map (fun s => count s * Z.of_nat (claims A s)) S).
Proof.
  unfold reconcile. destruct A as [|a A]; [discriminate|].
  remember (a :: A) as A' eqn:EA. intros H Hsafe Hbound.
  assert (out = map (primaryRecord S) A' ++ subagents D S) as ->
    by (rewrite EA in *; congruence).
  destruct (primaries_safe A' S Hsafe Hbound) as [Hp Ep].
  assert (Hsplit := claimed_split A' S Hsafe).
  assert (Hown := owners_nonneg A' S Hsafe).
  assert (Hsec := secondary_nonneg A' S Hsafe).
  destruct (subagents_safe D S) as [Hq Eq].
  { intros s Hs Hr. apply Hsafe; [exact Hs|]. unfold claims. rewrite Hr. lia. }
  { lia. }
  destruct (totalTokens_safe (map (primaryRecord S) A' ++ subagents D S)) as [Ht Et].
  - intros r Hr. apply in_app_or in Hr as [Hr|Hr]; auto.
  - rewrite map_app, sumZ_app, Ep, Eq. lia.
  - split; [exact Ht|]. rewrite Et, map_app, sumZ_app, Ep, Eq. lia.
Qed.

Lemma existsb_filter_length {X : Type} (p : X -> bool) (l : list X) :
  existsb p l = negb (Nat.eqb (List.length (filter p l)) 0).
Proof.
  induction l as [|x l IH]; simpl; [reflexivity|].
  destruct (p x); simpl; auto.
Qed.

Lemma claims_matched (A : list OpenClawAgent.t) (s : OpenClawSession.t) :
  (claims A s <= 1)%nat ->
  count s * Z.of_nat (claims A s)
  = if matchedSession A s then count s else 0.
Proof.
  unfold claims, matchedSession. rewrite existsb_filter_length.
  destruct (List.length (filter (fun a => primaryRule a s) A)) as [|[|n]];
    destruct (secondaryRule s); cbn [Nat.add Nat.eqb negb orb]; intros H; lia.
Qed.

Lemma claims_of_matched (A : list OpenClawAgent.t) (s : OpenClawSession.t) :
  claims A s <> 0%nat -> matchedSession A s = true.
Proof.
  unfold claims, matchedSession. rewrite existsb_filter_length.
  destruct (List.length (filter (fun a => primaryRule a s) A)) as [|n];
    destruct (secondaryRule s); cbn [Nat.add Nat.eqb negb orb]; intros H;
    try reflexivity; lia.
Qed.

End ReconcilerFacts.

Section SecondaryFacts.
Import Spec Reconciler.

Lemma activeRecords_length (D : list string) (groups : GroupMap) (i : nat) :
  List.length (activeRecords D i groups) = List.length groups.
Proof.
  revert i; induction groups as [|[k g] groups IH]; intros i; simpl; auto.
Qed.

Lemma activeRecords_app (D : list string) (g1 g2 : GroupMap) (i : nat) :
  activeRecords D i (g1 ++ g2)
  = activeRecords D i g1 ++ activeRecords D (i + List.length g1) g2.
Proof.
  revert i; induction g1 as [|[k g] g1 IH]; intros i; simpl.
  - now rewrite Nat.add_0_r.
  - rewrite IH. do 3 f_equal. lia.
Qed.

Lemma skipn_nth_cons (D : list string) (i : nat) :
  i < List.length D -> skipn i D = nth i D "" :: skipn (S i) D.
Proof.
  revert i; induction D as [|d D IH]; intros i H; simpl in H; [lia|].
  destruct i as [|i]; [reflexivity|].
  simpl. apply IH. lia.
Qed.

(** While identities remain, the groups take their names in order. *)
Lemma activeRecords_named (D : list string) (groups : GroupMap) (i : nat) :
  i + List.length groups <= List.length D ->
  activeRecords D i groups
  = map named (combine (firstn (List.length groups) (skipn i D)) groups).
Proof.
  revert i; induction groups as [|[k g] groups IH]; intros i H; simpl in *.
  - reflexivity.
  - assert (Hi : i < List.length D) by lia.
    apply Nat.ltb_lt in Hi as Hb. rewrite Hb.
    rewrite (skipn_nth_cons D i Hi). simpl.
    f_equal. rewrite Nat.add_1_r. apply IH. lia.
Qed.

(** Past the last identity, the groups take ordinal labels. *)
Lemma activeRecords_generic (D : list string) (groups : GroupMap) (i : nat) :
  List.length D <= i ->
  activeRecords D i groups
  = map generic (combine (seq i (List.length groups)) groups).
Proof.
  revert i; induction groups as [|[k g] groups IH]; intros i H; simpl.
  - reflexivity.
  - assert (Hb : (i <? List.length D)%nat = false) by (apply Nat.ltb_ge; lia).
    rewrite Hb. f_equal. rewrite Nat.add_1_r. apply IH. lia.
Qed.

Lemma bump_keys (m : GroupMap) (k : string) (n : float) :
  map fst (bump m k n) = map fst m.
Proof.
  induction m as [|[k' g] m IH]; simpl; [reflexivity|].
  destruct (String.eqb k' k); simpl; congruence.
Qed.

Lemma has_keys (m : GroupMap) (k : string) :
  has m k = existsb (String.eqb k) (map fst m).
Proof.
  induction m as [|[k' g] m IH]; simpl; [reflexivity|].
  now rewrite IH, String.eqb_sym.
Qed.

Lemma discover_from_keys (S : list OpenClawSession.t) (m : GroupMap) :
  map fst (fold_left discoverStep S m)
  = fold_left (fun acc k => if existsb (String.eqb k) acc then acc else acc ++ [k])
              (somes (map secondaryId S)) (map fst m).
Proof.
  revert m; induction S as [|s S IH]; intros m; simpl; [reflexivity|].
  rewrite IH. unfold discoverStep, secondaryId.
  destruct (subagentMatch _) as [k|]; simpl; [|reflexivity].
  rewrite has_keys. destruct (existsb _ _); simpl.
  - now rewrite bump_keys.
  - now rewrite map_app.
Qed.

(** The discovered groups are the distinct identifiers, in first-seen
    order. *)
Lemma discover_keys (S : list OpenClawSession.t) :
  map fst (discover S) = firstSeen (somes (map secondaryId S)).
Proof. apply (discover_from_keys S []). Qed.

Lemma bump_sessions (m : GroupMap) (k : string) (n : float) :
  Forall (fun kg => 1 <= g_sessions (snd kg)) m ->
  Forall (fun kg => 1 <= g_sessions (snd kg)) (bump m k n).
Proof.
  induction 1 as [|[k' g] m Hg Hm IH]; simpl; [constructor|].
  destruct (String.eqb k' k); constructor; simpl in *; auto; lia.
Qed.

Lemma discover_from_sessions (S : list OpenClawSession.t) (m : GroupMap) :
  Forall (fun kg => 1 <= g_sessions (snd kg)) m ->
  Forall (fun kg => 1 <= g_sessions (snd kg)) (fold_left discoverStep S m).
Proof.
  revert m; induction S as [|s S IH]; intros m Hm; simpl; [assumption|].
  apply IH. unfold discoverStep.
  destruct (subagentMatch _) as [k|]; [|assumption].
  destruct (has m k); simpl.
  - now apply bump_sessions.
  - apply Forall_app; split; [assumption|]. repeat constructor.
Qed.

Lemma usageOf_snoc (ss : list OpenClawSession.t) (s : OpenClawSession.t) (g : Group) :
  usageOf ss = Some g ->
  usageOf (ss ++ [s])
  = Some {| g_model := g_model g;
            g_sessions := g_sessions g + 1;
            g_tokens := PrimFloat.add (g_tokens g) (tokenValue s) |}.
Proof.
  destruct ss as [|s0 rest]; [discriminate|]. intros [= <-].
  cbn [List.app usageOf g_model g_sessions g_tokens List.length].
  rewrite fold_left_app, length_app. cbn [fold_left List.length].
  repeat f_equal; lia.
Qed.

Lemma sessionsOf_snoc (id : string) (P : list OpenClawSession.t)
    (s : OpenClawSession.t) :
  sessionsOf id (P ++ [s])
  = sessionsOf id P
    ++ (if match secondaryId s with Some k => String.eqb k id | None => false end
        then [s] else []).
Proof. unfold sessionsOf. now rewrite filter_app. Qed.

Lemma has_In (m : GroupMap) (k : string) (g : Group) : In (k, g) m -> has m k = true.
Proof.
  induction m as [|[k' g'] m IH]; [intros []|]. intros [[= -> ->]|H]; cbn [has].
  - now rewrite String.eqb_refl.
  - rewrite (IH H). apply orb_true_r.
Qed.

Lemma has_false_keys (m : GroupMap) (k : string) :
  has m k = false -> ~ In k (map fst m).
Proof.
  induction m as [|[k' g'] m IH]; [intros _ []|]. cbn [has map fst].
  intros H. apply orb_false_iff in H as [Hk H]. apply String.eqb_neq in Hk.
  intros [E|Hin]; [contradiction|exact (IH H Hin)].
Qed.

Lemma has_bump (m : GroupMap) (k id : string) (n : float) :
  has (bump m k n) id = has m id.
Proof. now rewrite !has_keys, bump_keys. Qed.

(** The entries of a map after an update of the key [k]. *)
Lemma In_bump (m : GroupMap) (k id : string) (n : float) (g' : Group) :
  NoDup (map fst m) ->
  In (id, g') (bump m k n) ->
  (id <> k /\ In (id, g') m)
  \/ (id = k
      /\ exists g, In (k, g) m
                   /\ g' = {| g_model := g_model g;
                              g_sessions := g_sessions g + 1;
                              g_tokens := PrimFloat.add (g_tokens g) n |}).
Proof.
  induction m as [|[k' g] m IH]; [intros _ []|]. cbn [map fst bump].
  intros Hnd. inversion Hnd as [|? ? Hk' Hm]; subst.
  destruct (String.eqb k' k) eqn:E.
  - apply String.eqb_eq in E; subst k'. intros [[= <- <-]|H].
    + right. split; [reflexivity|]. exists g. split; [now left|reflexivity].
    + left. split; [|now right].
      intros ->. apply Hk'. apply in_map_iff. exists (k, g'). now split.
  - apply String.eqb_neq in E. intros [[= <- <-]|H].
    + left. split; [exact E|now left].
    + destruct (IH Hm H) as [[Hne Hin]|[-> [g0 [Hin ->]]]].
      * left. split; [exact Hne|now right].
      * right. split; [reflexivity|]. exists g0. split; [now right|reflexivity].
Qed.

(** What the loop over the sessions maintains, [P] being the sessions read
    so far. *)
Lemma discoverStep_usage (m : GroupMap) (P : list OpenClawSession.t)
    (s : OpenClawSession.t) :
  NoDup (map fst m) ->
  (forall id g, In (id, g) m -> usageOf (sessionsOf id P) = Some g) ->
  (forall id, has m id = false -> sessionsOf id P = []) ->
  NoDup (map fst (discoverStep m s))
  /\ (forall id g, In (id, g) (discoverStep m s) ->
        usageOf (sessionsOf id (P ++ [s])) = Some g)
  /\ (forall id, has (discoverStep m s) id = false -> sessionsOf id (P ++ [s]) = []).
Proof.
  intros Hnd Hin Hout. unfold discoverStep.
  fold (secondaryId s). destruct (secondaryId s) as [k|] eqn:Ek.
  - destruct (has m k) eqn:Hk; cbn [negb].
    + (* a further session of a group *)
      split; [now rewrite bump_keys|]. split.
      * intros id g' H. rewrite sessionsOf_snoc, Ek.
        destruct (In_bump m k id _ g' Hnd H) as [[Hne H']|[-> [g [H' ->]]]].
        -- apply not_eq_sym, String.eqb_neq in Hne. rewrite Hne, app_nil_r.
           apply Hin, H'.
        -- rewrite String.eqb_refl. apply usageOf_snoc, Hin, H'.
      * intros id H. rewrite has_bump in H. rewrite sessionsOf_snoc, Ek.
        destruct (String.eqb k id) eqn:E.
        -- apply String.eqb_eq in E; subst id. congruence.
        -- rewrite app_nil_r. apply Hout, H.
    + (* the first session of a group *)
      split; [|split].
      * rewrite map_app. apply NoDup_app; [exact Hnd|repeat constructor; auto|].
        intros x Hx [<-|[]]. exact (has_false_keys m k Hk Hx).
      * intros id g H. rewrite sessionsOf_snoc, Ek.
        apply in_app_or in H as [H|[[= <- <-]|[]]].
        -- assert (Hne : String.eqb k id = false).
           { apply String.eqb_neq. intros ->.
             rewrite (has_In m id g H) in Hk. discriminate. }
           rewrite Hne, app_nil_r. apply Hin, H.
        -- rewrite String.eqb_refl, (Hout k Hk). reflexivity.
      * intros id H. rewrite has_keys, map_app, existsb_app in H.
        apply orb_false_iff in H as [H1 H2]. rewrite <- has_keys in H1.
        cbn [map fst existsb] in H2. rewrite orb_false_r in H2.
        rewrite sessionsOf_snoc, Ek, String.eqb_sym, H2, app_nil_r.
        apply Hout, H1.
  - split; [exact Hnd|]. split.
    + intros id g H. rewrite sessionsOf_snoc, Ek, app_nil_r. apply Hin, H.
    + intros id H. rewrite sessionsOf_snoc, Ek, app_nil_r. apply Hout, H.
Qed.

Lemma discover_from_usage (S P : list OpenClawSession.t) (m : GroupMap) :
  NoDup (map fst m) ->
  (forall id g, In (id, g) m -> usageOf (sessionsOf id P) = Some g) ->
  (forall id, has m id = false -> sessionsOf id P = []) ->
  forall id g, In (id, g) (fold_left discoverStep S m) ->
               usageOf (sessionsOf id (P ++ S)) = Some g.
Proof.
  revert P m; induction S as [|s S IH]; intros P m Hnd Hin Hout id g H.
  - rewrite app_nil_r. apply Hin, H.
  - cbn [fold_left] in H.
    destruct (discoverStep_usage m P s Hnd Hin Hout) as [Hnd' [Hin' Hout']].
    replace (P ++ s :: S) with ((P ++ [s]) ++ S) by now rewrite <- app_assoc.
    exact (IH (P ++ [s]) _ Hnd' Hin' Hout' id g H).
Qed.

(** Each discovered group holds the usage of the sessions of its
    identifier. *)
Lemma discover_usage (S : list OpenClawSession.t) (id : string) (g : Group) :
  In (id, g) (discover S) -> usageOf (sessionsOf id S) = Some g.
Proof.
  apply (discover_from_usage S [] []).
  - constructor.
  - intros ? ? [].
  - reflexivity.
Qed.

Lemma primaryRecord_derived (S : list OpenClawSession.t) (a : OpenClawAgent.t) :
  derived (primaryRecord S a).
Proof.
  unfold derived, primaryRecord; simpl. split; [|reflexivity].
  destruct (List.length _) as [|n]; simpl; split; intros H;
    try discriminate; try lia; reflexivity.
Qed.

Lemma activeRecords_derived (D : list string) (groups : GroupMap) (i : nat) :
  Forall (fun kg => 1 <= g_sessions (snd kg)) groups ->
  Forall derived (activeRecords D i groups).
Proof.
  intros H; revert i; induction H as [|[k g] groups Hg Hm IH]; intros i; simpl.
  - constructor.
  - constructor; [|apply IH].
    unfold derived, activeRecord; simpl in *. split; [|reflexivity].
    split; intros _; [lia|reflexivity].
Qed.

Lemma idleRecord_derived (d : string) : derived (idleRecord d).
Proof.
  unfold derived, idleRecord; simpl. split.
  - split; intros H; [discriminate|lia].
  - vm_compute. reflexivity.
Qed.

End SecondaryFacts.

Section ReconcilerClaims.
Import Spec Reconciler.

Lemma skipn_length_app {X : Type} (l1 l2 : list X) :
  skipn (List.length l1) (l1 ++ l2) = l2.
Proof. induction l1 as [|x l1 IH]; simpl; auto. Qed.

Lemma reconcile_some (A : list OpenClawAgent.t) (S : list OpenClawSession.t)
    (D : list string) :
  A <> [] ->
  reconcile A S D = Some (map (primaryRecord S) A ++ subagents D S).
Proof. destruct A; [congruence|reflexivity]. Qed.

(** C1, as claimed, fails: the agent list [main] claims the session
    [agent:main:subagent:ab12] under the primary-prefix rule, and the
    secondary pass claims it again; its 10 tokens are in the output twice. *)
Lemma token_conservation_double_count :
  exists out,
    reconcile [OpenClawAgent.mk (Some "main") None None]
              [OpenClawSession.mk (Some "agent:main:subagent:ab12") (Some 10%float) None None]
              []
    = Some out
    /\ totalTokens out = 20%float
    /\ matchedTokens [OpenClawAgent.mk (Some "main") None None]
         [OpenClawSession.mk (Some "agent:main:subagent:ab12") (Some 10%float) None None]
       = 10%float
    /\ ~ conserves [OpenClawAgent.mk (Some "main") None None]
           [OpenClawSession.mk (Some "agent:main:subagent:ab12") (Some 10%float) None None]
           [].
Proof.
  eexists. split; [reflexivity|]. split; [reflexivity|]. split; [reflexivity|].
  intros H. specialize (H _ eq_refl). vm_compute in H. discriminate.
Qed.

(** Token counts are binary64 numbers, and past [MAX_SAFE_INTEGER] their
    sums are rounded: the order of the additions shows.  With 2^53 tokens
    in a session of one agent and one token in each of two sessions of
    another, the records sum to 2^53 + 2, and the matched sessions, added
    one by one, to 2^53. *)
Lemma token_sums_round_past_safe_range :
  let A := [OpenClawAgent.mk (Some "a") None None;
            OpenClawAgent.mk (Some "b") None None] in
  let S := [OpenClawSession.mk (Some "agent:a:1") (Some 9007199254740992%float) None None;
            OpenClawSession.mk (Some "agent:b:1") (Some 1%float) None None;
            OpenClawSession.mk (Some "agent:b:2") (Some 1%float) None None] in
  (forall s, In s S -> claims A s = 1)
  /\ exists out,
       reconcile A S [] = Some out
       /\ totalTokens out = 9007199254740994%float
       /\ matchedTokens A S = 9007199254740992%float.
Proof.
  cbv zeta. split.
  - intros s [<-|[<-|[<-|[]]]]; reflexivity.
  - eexists. split; [reflexivity|]. split; vm_compute; reflexivity.
Qed.

(** C1, amended.  When the agent list is not empty, no session is claimed
    more than once (by two entries of the agent list, or by an entry and the
    secondary pattern), the token count of every matched session is a whole
    number, and the counts of the matched sessions sum to no more than
    [Number.MAX_SAFE_INTEGER], the reconciler returns a list whose token
    counts sum to the token counts of the sessions matched by either rule:
    both sums, each added in its own order in binary64, are the exact
    sum. *)
Theorem reconcile_token_conservation (A : list OpenClawAgent.t)
    (S : list OpenClawSession.t) (D : list string) :
  A <> [] ->
  (forall s, In s S -> claims A s <= 1) ->
  (forall s, In s S -> matchedSession A s = true -> safeCount (tokenValue s)) ->
  (matchedCount A S <= Num.maxSafeInteger)%Z ->
  exists out,
    reconcile A S D = Some out
    /\ totalTokens out = matchedTokens A S
    /\ totalTokens out = Num.ofZ (matchedCount A S).
Proof.
  intros HA Hone Hsafe Hbound. eexists. split; [apply reconcile_some, HA|].
  assert (Ecount : sumZ (map (fun s => (count s * Z.of_nat (claims A s))%Z) S)
                   = matchedCount A S).
  { unfold matchedCount. rewrite sumZ_filter.
    apply sumZ_pointwise. intros s Hs. apply claims_matched, Hone, Hs. }
  destruct (reconcile_tokens_by_claims A S D _ (reconcile_some A S D HA)) as [Ht Et].
  { intros s Hs Hc. apply Hsafe; [exact Hs|]. apply claims_of_matched, Hc. }
  { rewrite Ecount. exact Hbound. }
  rewrite Ecount in Et.
  destruct (sumTokenValues_safe (filter (matchedSession A) S)) as [Hm Em].
  { intros s Hs. apply filter_In in Hs as [Hs Hms]. now apply Hsafe. }
  { exact Hbound. }
  fold (matchedTokens A S) in Hm, Em. fold (matchedCount A S) in Em.
  split.
  - apply safeCount_eq; [exact Ht|exact Hm|]. now rewrite Et, Em.
  - destruct Ht as [Ht _]. rewrite Ht at 1. now rewrite Et.
Qed.

Lemma reconcile_token_conservation_witness :
  exists out,
    reconcile [OpenClawAgent.mk (Some "a1") (Some "Clawd") None]
              [OpenClawSession.mk (Some "agent:a1:s1") (Some 1000%float) None None;
               OpenClawSession.mk (Some "agent:main:subagent:ab12") None (Some 7%float) None;
               OpenClawSession.mk (Some "other") (Some 5%float) None None]
              ["code-reviewer"]
    = Some out
    /\ totalTokens out
       = matchedTokens [OpenClawAgent.mk (Some "a1") (Some "Clawd") None]
           [OpenClawSession.mk (Some "agent:a1:s1") (Some 1000%float) None None;
            OpenClawSession.mk (Some "agent:main:subagent:ab12") None (Some 7%float) None;
            OpenClawSession.mk (Some "other") (Some 5%float) None None]
    /\ totalTokens out = 1007%float.
Proof.
  destruct (reconcile_token_conservation
              [OpenClawAgent.mk (Some "a1") (Some "Clawd") None]
              [OpenClawSession.mk (Some "agent:a1:s1") (Some 1000%float) None None;
               OpenClawSession.mk (Some "agent:main:subagent:ab12") None (Some 7%float) None;
               OpenClawSession.mk (Some "other") (Some 5%float) None None]
              ["code-reviewer"]) as [out [E [H1 H2]]].
  - discriminate.
  - intros s [<-|[<-|[<-|[]]]]; vm_compute; lia.
  - intros s [<-|[<-|[<-|[]]]] Hm; try discriminate Hm;
      (split; [vm_compute; reflexivity|vm_compute; split; discriminate]).
  - vm_compute. discriminate.
  - exists out. split; [exact E|]. split; [exact H1|].
    rewrite H2. vm_compute. reflexivity.
Defined.

Lemma activeRecords_nth (D : list string) (groups : GroupMap) (i k : nat)
    (kg : string * Group) :
  nth_error groups k = Some kg ->
  nth_error (activeRecords D i groups) k
  = Some (activeRecord
            (if (i + k <? List.length D)%nat
             then displayName (nth (i + k) D "")
             else "Sub-agent " +++ ofNat (i + k + 1))
            (snd kg)).
Proof.
  revert i k; induction groups as [|[k' g] groups IH]; intros i k H.
  - destruct k; discriminate.
  - destruct k as [|k]; cbn [nth_error activeRecords] in *.
    + injection H as <-. now rewrite Nat.add_0_r.
    + rewrite (IH (i + 1) k H).
      replace (i + 1 + k) with (i + S k) by lia. reflexivity.
Qed.

Lemma nth_error_default (D : list string) (k : nat) (d : string) :
  nth_error D k = Some d -> nth k D "" = d /\ k < List.length D.
Proof.
  intros H. split; [now apply nth_error_nth|].
  apply nth_error_Some. congruence.
Qed.

(** C5, as claimed, fails for an empty agent list: whatever the known
    identities and the sessions are, there is no output, and so no
    secondary record. *)
Lemma secondary_records_need_agents :
  let S := [OpenClawSession.mk (Some "agent:main:subagent:ab12") (Some 3%float) None None] in
  let D := ["code-reviewer"] in
  List.length (discover S) = 1
  /\ List.length D = 1
  /\ reconcile [] S D = None
  /\ Route.fetchAgentData
       (Route.ExecOk "[]")
       (Route.ExecOk (quoted "{'sessions':[{'key':'agent:main:subagent:ab12','totalTokens':3}]}"))
       (Returned [Route.mkDirent "code-reviewer" true])
     = None.
Proof. cbv zeta. repeat split; vm_compute; reflexivity. Qed.

(** C5, amended.  When the agent list is not empty: with N known identities
    and M discovered groups (the distinct identifiers of the sessions that
    match the secondary pattern, in first-seen order), the secondary records
    (the output past the primary ones) are exactly N for M <= N and exactly
    M for M > N.  A group holds the usage of the sessions of its identifier
    (the model of the first, their number, their tokens).  The record at
    the place of a group is Active and carries the usage of the group (its
    sessions, one at least, its tokens, their cost and its model); it is
    labelled with the identity name at that
    place while there is one, and [Sub-agent k] for the k-th group past the
    last identity.  The record at the place of an identity past the last
    group is Idle, with no usage, and labelled with that identity name. *)
Theorem secondary_record_counts (A : list OpenClawAgent.t)
    (S : list OpenClawSession.t) (D : list string) :
  A <> [] ->
  let groups := discover S in
  let M := List.length groups in
  let N := List.length D in
  exists out,
    reconcile A S D = Some out
    /\ map fst groups = firstSeen (somes (map secondaryId S))
    /\ (forall id g, In (id, g) groups -> usageOf (sessionsOf id S) = Some g)
    /\ let sec := skipn (List.length A) out in
       (M <= N -> List.length sec = N)
       /\ (N < M -> List.length sec = M)
       /\ (forall k g d,
             nth_error groups k = Some g -> nth_error D k = Some d ->
             exists r, nth_error sec k = Some r
                       /\ activeOf (snd g) r /\ labelledBy d r)
       /\ (forall k g,
             nth_error groups k = Some g -> N <= k ->
             exists r, nth_error sec k = Some r
                       /\ activeOf (snd g) r
                       /\ Agent.name r = "Sub-agent " +++ ofNat (k + 1))
       /\ (forall k d,
             M <= k -> nth_error D k = Some d ->
             exists r, nth_error sec k = Some r
                       /\ idleOf r /\ labelledBy d r).
Proof.
  intros HA groups M N. eexists. split; [apply reconcile_some, HA|].
  split; [apply discover_keys|]. split; [apply discover_usage|].
  cbv zeta. rewrite <- (length_map (primaryRecord S) A), skipn_length_app.
  unfold subagents. fold groups. fold M.
  assert (LA : List.length (activeRecords D 0 groups) = M)
    by apply activeRecords_length.
  assert (LI : List.length (idleRecords D M) = N - M)
    by (unfold idleRecords; rewrite length_map, length_skipn; reflexivity).
  assert (Hsessions : Forall (fun kg => 1 <= g_sessions (snd kg)) groups)
    by (apply (discover_from_sessions S []); constructor).
  assert (Hactive : forall k g,
            nth_error groups k = Some g ->
            exists r, nth_error (activeRecords D 0 groups ++ idleRecords D M) k = Some r
                      /\ activeOf (snd g) r
                      /\ Agent.name r
                         = if (k <? N)%nat then displayName (nth k D "")
                           else "Sub-agent " +++ ofNat (k + 1)).
  { intros k g Hg. eexists. split; [|split].
    - rewrite nth_error_app1
        by (rewrite LA; apply nth_error_Some; fold groups; congruence).
      apply (activeRecords_nth D groups 0 k g Hg).
    - unfold activeOf, activeRecord.
      cbn [Agent.state Agent.sessions Agent.tokens Agent.cost Agent.model Agent.tasks].
      repeat split.
      rewrite Forall_forall in Hsessions. apply Hsessions.
      eapply nth_error_In, Hg.
    - reflexivity. }
  repeat split.
  - intros H. rewrite length_app, LA, LI. lia.
  - intros H. rewrite length_app, LA, LI. lia.
  - intros k g d Hg Hd. destruct (Hactive k g Hg) as [r [Hr [Ha Hn]]].
    exists r. split; [exact Hr|]. split; [exact Ha|]. intros _.
    destruct (nth_error_default D k d Hd) as [E Hk].
    apply Nat.ltb_lt in Hk. fold N in Hk. now rewrite Hk, E in Hn.
  - intros k g Hg Hk. destruct (Hactive k g Hg) as [r [Hr [Ha Hn]]].
    exists r. split; [exact Hr|]. split; [exact Ha|].
    apply Nat.ltb_ge in Hk. now rewrite Hk in Hn.
  - intros k d Hk Hd. exists (idleRecord d).
    split; [|split; [repeat split|intros _; reflexivity]].
    rewrite nth_error_app2 by (rewrite LA; exact Hk). rewrite LA.
    unfold idleRecords. rewrite nth_error_map, nth_error_skipn.
    replace (M + (k - M)) with k by lia. now rewrite Hd.
Qed.

(** Two groups for one identity, and one group for two identities. *)
Lemma secondary_record_counts_witness :
  let A := [OpenClawAgent.mk (Some "a1") (Some "Clawd") None] in
  let S := [OpenClawSession.mk (Some "agent:main:subagent:ab12") (Some 3%float) None None;
            OpenClawSession.mk (Some "agent:main:subagent:cd34") (Some 4%float) None None;
            OpenClawSession.mk (Some "agent:main:subagent:ab12:x") (Some 5%float) None None] in
  (exists out,
     reconcile A S ["code-reviewer"] = Some out
     /\ List.length (skipn 1 out) = 2
     /\ (exists r, nth_error (skipn 1 out) 0 = Some r
                   /\ activeOf (mkGroup defaultModel 2 8%float) r
                   /\ Agent.name r = "Code Reviewer")
     /\ exists r, nth_error (skipn 1 out) 1 = Some r
                  /\ activeOf (mkGroup defaultModel 1 4%float) r
                  /\ Agent.name r = "Sub-agent 2")
  /\ (exists out,
        reconcile A (firstn 1 S) ["code-reviewer"; "test-writer"] = Some out
        /\ List.length (skipn 1 out) = 2
        /\ (exists r, nth_error (skipn 1 out) 0 = Some r
                      /\ activeOf (mkGroup defaultModel 1 3%float) r
                      /\ Agent.name r = "Code Reviewer")
        /\ exists r, nth_error (skipn 1 out) 1 = Some r
                     /\ idleOf r /\ Agent.name r = "Test Writer").
Proof.
  intros A S. split.
  - destruct (secondary_record_counts A S ["code-reviewer"])
      as [out [E [_ [_ [_ [Hlen [Hnamed [Hgen _]]]]]]]]; [discriminate|].
    exists out. split; [exact E|]. split; [apply Hlen; vm_compute; lia|]. split.
    + destruct (Hnamed 0 ("ab12", mkGroup defaultModel 2 8%float) "code-reviewer")
        as [r [Hr [Ha Hl]]]; [reflexivity|reflexivity|].
      exists r. split; [exact Hr|]. split; [exact Ha|]. apply Hl. reflexivity.
    + apply (Hgen 1 ("cd34", mkGroup defaultModel 1 4%float)); [reflexivity|].
      vm_compute; lia.
  - destruct (secondary_record_counts A (firstn 1 S) ["code-reviewer"; "test-writer"])
      as [out [E [_ [_ [Hlen [_ [Hnamed [_ Hidle]]]]]]]]; [discriminate|].
    exists out. split; [exact E|]. split; [apply Hlen; vm_compute; lia|]. split.
    + destruct (Hnamed 0 ("ab12", mkGroup defaultModel 1 3%float) "code-reviewer")
        as [r [Hr [Ha Hl]]]; [reflexivity|reflexivity|].
      exists r. split; [exact Hr|]. split; [exact Ha|]. apply Hl. reflexivity.
    + destruct (Hidle 1 "test-writer") as [r [Hr [Ha Hl]]];
        [vm_compute; lia|reflexivity|].
      exists r. split; [exact Hr|]. split; [exact Ha|]. apply Hl. reflexivity.
Defined.

Lemma reconcile_derived (A : list OpenClawAgent.t) (S : list OpenClawSession.t)
    (D : list string) (out : list Agent.t) :
  reconcile A S D = Some out -> Forall derived out.
Proof.
  destruct A as [|a A]; [discriminate|].
  remember (a :: A) as A' eqn:EA.
  rewrite reconcile_some by (rewrite EA; discriminate). intros H; injection H as <-.
  apply Forall_app; split.
  - apply Forall_forall. intros r Hr. apply in_map_iff in Hr as [b [<- _]].
    apply primaryRecord_derived.
  - unfold subagents. apply Forall_app; split.
    + apply activeRecords_derived, (discover_from_sessions S []). constructor.
    + unfold idleRecords. apply Forall_forall. intros r Hr.
      apply in_map_iff in Hr as [d [<- _]]. apply idleRecord_derived.
Qed.

Lemma processAgents_derived (A : list OpenClawAgent.t) (S : list OpenClawSession.t) :
  Forall derived (Generate.processAgents A S).
Proof.
  apply Forall_forall. intros r Hr. apply in_map_iff in Hr as [a [<- _]].
  unfold derived; simpl. split; [|reflexivity].
  destruct (List.length _) as [|n]; simpl; split; intros H;
    try discriminate; try lia; reflexivity.
Qed.

(** C8.  For the agent list [{id:"a1", identityName:"Clawd"}] and the
    session list [{key:"agent:a1:s1", totalTokens:1000}] the record of that
    agent is [{name:"Clawd", state:"Active", sessions:1, tokens:1000,
    cost:0.0263}], in the route (from the typed lists and from the
    command's JSON output, whatever the known identities are) and in the
    generator script; and in every record either of them emits the
    state is Active exactly when the session count is positive and the cost
    is [Number((tokens * 0.0000263).toFixed(4))]. *)
Theorem agent_reconciliation_scenario :
  let clawd := OpenClawAgent.mk (Some "a1") (Some "Clawd") None in
  let s1 := OpenClawSession.mk (Some "agent:a1:s1") (Some 1000%float) None None in
  let record :=
    {| Agent.name := "Clawd";
       Agent.state := Agent.Active;
       Agent.sessions := 1;
       Agent.tokens := 1000%float;
       Agent.cost := 0.0263%float;
       Agent.model := "anthropic/claude-haiku-4-5";
       Agent.tasks := [] |} in
  (forall D, reconcile [clawd] [s1] D = Some (record :: map idleRecord D))
  /\ (forall agentsDir,
        Route.fetchAgentData
          (Route.ExecOk (quoted "{'agents':[{'id':'a1','identityName':'Clawd'}]}"))
          (Route.ExecOk (quoted "{'sessions':[{'key':'agent:a1:s1','totalTokens':1000}]}"))
          agentsDir
        = Some (record :: map idleRecord (Route.getDefinedSubAgentsList agentsDir)))
  /\ Generate.processAgents [clawd] [s1] = [record]
  /\ (forall A S D out, reconcile A S D = Some out -> Forall derived out)
  /\ (forall A S, Forall derived (Generate.processAgents A S)).
Proof.
  cbv zeta.
  assert (Hscenario :
            forall D,
              reconcile [OpenClawAgent.mk (Some "a1") (Some "Clawd") None]
                        [OpenClawSession.mk (Some "agent:a1:s1") (Some 1000%float) None None] D
              = Some (Agent.mk "Clawd" Agent.Active 1 1000%float 0.0263%float
                               "anthropic/claude-haiku-4-5" []
                      :: map idleRecord D)).
  { intros D. rewrite reconcile_some by discriminate.
    unfold subagents, idleRecords. vm_compute discover.
    cbn [activeRecords List.length skipn Datatypes.app map]. f_equal. }
  split; [exact Hscenario|]. split; [|split; [|split]].
  - intros agentsDir. unfold Route.fetchAgentData.
    destruct (Route.runOpenClawJson (Route.ExecOk (quoted _))) as [payload|] eqn:Ea;
      vm_compute in Ea; [injection Ea as <-|discriminate].
    destruct (Route.runOpenClawJson (Route.ExecOk (quoted _))) as [sessions|] eqn:Es;
      vm_compute in Es; [injection Es as <-|discriminate].
    exact (Hscenario _).
  - vm_compute. reflexivity.
  - exact reconcile_derived.
  - exact processAgents_derived.
Qed.

Lemma agent_reconciliation_scenario_witness :
  Forall derived
    [primaryRecord [OpenClawSession.mk (Some "agent:a1:s1") (Some 1000%float) None None]
       (OpenClawAgent.mk (Some "a1") (Some "Clawd") None);
     idleRecord "code-reviewer"].
Proof.
  exact (proj1 (proj2 (proj2 (proj2 agent_reconciliation_scenario)))
           [OpenClawAgent.mk (Some "a1") (Some "Clawd") None]
           [OpenClawSession.mk (Some "agent:a1:s1") (Some 1000%float) None None]
           ["code-reviewer"] _ eq_refl).
Defined.

End ReconcilerClaims.

(** ** The cron record mapping *)

Section CronClaims.
Import Cron.

(** C7, as claimed, fails on a string of white space: it is not empty, and
    [formatTimestamp] yields the sentinel for it, not the string. *)
Lemma formatTimestamp_blank_string :
  isEmpty " " = false
  /\ formatTimestamp (Some (IsStr " ")) = Returned "Unknown"
  /\ formatTimestamp (Some (IsStr " ")) <> Returned " ".
Proof. repeat split. discriminate. Qed.

(** A number past the range of a [Date] is not normalized: the call throws. *)
Lemma formatTimestamp_out_of_range :
  formatTimestamp (Some (IsNum 10000000000000000)) = Raised.
Proof. reflexivity. Qed.

(** C7, amended.  The job [{name:"backup", state:{status:"ok",
    nextRunAtMs:1700000000000}}] maps to [{name:"backup", status:"ok",
    nextRun:"2023-11-14T22:13:20.000Z", lastRun:"Unknown"}], in the route
    (from the typed job and from the command's JSON output) and in the
    generator script.  A timestamp field is the ISO string of an
    epoch-millis number within the range of a [Date], a string that is not
    blank (not empty once trimmed) unchanged, and the sentinel ["Unknown"]
    for a blank string or a missing value. *)
Theorem cron_record_mapping :
  let backup :=
    OpenClawJob.mk None (Some "backup") None
      (Some (JobState.mk None (Some "ok") (Some 1700000000000%Z) None None None None)) in
  let record :=
    {| CronRecord.name := "backup";
       CronRecord.status := "ok";
       CronRecord.nextRun := "2023-11-14T22:13:20.000Z";
       CronRecord.lastRun := "Unknown" |} in
  mapJob backup = Returned record
  /\ mapped [backup]
     = Returned (Some {| Crons.status := "available"; Crons.jobs := [record] |})
  /\ Route.fetchCronStatus
       (Route.ExecOk
          (Spec.quoted
             "{'jobs':[{'name':'backup','state':{'status':'ok','nextRunAtMs':1700000000000}}]}"))
     = Returned (Some {| Crons.status := "available"; Crons.jobs := [record] |})
  /\ Generate.processCrons [backup]
     = Returned {| Crons.status := "available"; Crons.jobs := [record] |}
  /\ (forall n, (Z.abs n <= maxTime)%Z ->
      formatTimestamp (Some (IsNum n)) = Returned (toISOString n))
  /\ (forall s, trim s <> "" -> formatTimestamp (Some (IsStr s)) = Returned s)
  /\ (forall s, trim s = "" -> formatTimestamp (Some (IsStr s)) = Returned "Unknown")
  /\ formatTimestamp None = Returned "Unknown".
Proof.
  cbv zeta. repeat split; try reflexivity.
  - intros n Hn. unfold formatTimestamp.
    apply Z.leb_le in Hn. now rewrite Hn.
  - intros s Hs. unfold formatTimestamp.
    destruct (trim s); [congruence|reflexivity].
  - intros s Hs. unfold formatTimestamp. now rewrite Hs.
Qed.

Lemma cron_record_mapping_witness :
  formatTimestamp (Some (IsNum 1700000000000)) = Returned "2023-11-14T22:13:20.000Z"
  /\ formatTimestamp (Some (IsStr "in 5 minutes")) = Returned "in 5 minutes".
Proof.
  split.
  - apply (proj1 (proj2 (proj2 (proj2 (proj2 cron_record_mapping)))) 1700000000000%Z).
    vm_compute. discriminate.
  - apply (proj1 (proj2 (proj2 (proj2 (proj2 (proj2 cron_record_mapping)))))
             "in 5 minutes").
    vm_compute. discriminate.
Defined.

End CronClaims.

(** ** Trimming *)

Section TrimFacts.

Lemma trimEnd_idem (s : string) : trimEnd (trimEnd s) = trimEnd s.
Proof.
  induction s as [|c s IH]; simpl; [reflexivity|].
  destruct (trimEnd s) as [|c' s'] eqn:E.
  - destruct (isSpace c) eqn:Hc; simpl; [reflexivity|]. now rewrite Hc.
  - change (trimEnd (String c (String c' s')))
      with (match trimEnd (String c' s') with
            | EmptyString => if isSpace c then EmptyString else String c EmptyString
            | r' => String c r'
            end).
    now rewrite IH.
Qed.

Lemma trimEnd_trim (x : string) : trimEnd (trim x) = trim x.
Proof. unfold trim. apply trimEnd_idem. Qed.

Lemma trimEnd_app_nonblank (p u : string) :
  trimEnd u <> "" -> trimEnd (p +++ u) = p +++ trimEnd u.
Proof.
  intros Hu. induction p as [|c p IH]; simpl; [reflexivity|].
  rewrite IH. destruct (p +++ trimEnd u) eqn:E; [|reflexivity].
  destruct p; simpl in E; [contradiction|discriminate].
Qed.

End TrimFacts.

(** ** The report parser *)

Section ParserFacts.
Import Spec Parser.

(** The race label of an entry of the target date: the date alone when the
    race text is blank, else the date, a space and the trimmed text. *)
Lemma raceLabelOf_today (race : string) :
  raceLabelOf todayDate race
  = if isEmpty (trim race) then todayDate else todayDate +++ " " +++ trim race.
Proof.
  unfold raceLabelOf, todayDate. cbn [isEmpty].
  change (trim (("2026-02-10" +++ " ") +++ trim race))
    with (trimEnd ("2026-02-10 " +++ trim race)).
  destruct (trim race) as [|c t] eqn:E; cbn [isEmpty].
  - reflexivity.
  - rewrite trimEnd_app_nonblank.
    + rewrite <- E, trimEnd_trim. reflexivity.
    + rewrite <- E, trimEnd_trim, E. discriminate.
Qed.

Lemma raceLabelOf_inj (x y : string) :
  raceLabelOf todayDate x = raceLabelOf todayDate y -> trim x = trim y.
Proof.
  rewrite !raceLabelOf_today. unfold todayDate.
  destruct (trim x), (trim y); cbn [isEmpty]; simpl; intros H;
    try reflexivity; try discriminate.
  now injection H as -> ->.
Qed.

Lemma seenHas_cons (seen : list string) (k k' : string) :
  seenHas seen k = true -> seenHas (k' :: seen) k = true.
Proof. unfold seenHas; simpl. intros ->. apply orb_true_r. Qed.

Lemma seenHas_head (seen : list string) (k : string) :
  seenHas (k :: seen) k = true.
Proof. unfold seenHas; simpl. now rewrite String.eqb_refl. Qed.

Lemma firstOf_In (h : Horse.t) (l : list Horse.t) : firstOf h l -> In h l.
Proof. intros [l1 [l2 [-> _]]]. apply in_elt. Qed.

Lemma firstOf_app (h : Horse.t) (l l' : list Horse.t) :
  firstOf h l -> firstOf h (l ++ l').
Proof.
  intros [l1 [l2 [-> H]]]. exists l1, (l2 ++ l'). split; [|exact H].
  now rewrite <- app_assoc.
Qed.

Lemma firstOf_last (h : Horse.t) (l : list Horse.t) :
  (forall h', In h' l -> key3 h' <> key3 h) -> firstOf h (l ++ [h]).
Proof. intros H. exists l, []. split; [reflexivity|exact H]. Qed.

Lemma keyed_cons (seen : list string) (k : string) (h : Horse.t) :
  keyed seen h -> keyed (k :: seen) h.
Proof.
  intros [x [H1 [H2 H3]]]. exists x. repeat split; auto using seenHas_cons.
Qed.

Lemma horseOf_keyed (seen : list string) (name race rest : string) :
  seenHas seen (keyOf name race todayDate) = true ->
  keyed seen (horseOf name race rest todayDate).
Proof. intros H. exists race. repeat split. exact H. Qed.

(** A record whose key string is not in [seen] differs in its composite key
    from every record read so far. *)
Lemma fresh_key (seen : list string) (recs : list Horse.t)
    (name race rest : string) :
  (forall h, In h recs -> keyed seen h) ->
  seenHas seen (keyOf name race todayDate) = false ->
  forall h, In h recs -> key3 h <> key3 (horseOf name race rest todayDate).
Proof.
  intros Hk Hfresh h Hh E. destruct (Hk h Hh) as [x [_ [Hr Hs]]].
  unfold key3 in E. injection E as En Er _.
  cbn [Horse.race Horse.name horseOf] in En, Er.
  rewrite Hr in Er. apply raceLabelOf_inj in Er.
  unfold keyOf in Hfresh. rewrite En, Er in Hs. congruence.
Qed.

End ParserFacts.

Section ParserInvariant.
Import Spec Parser.

Lemma NoDup_snoc {X : Type} (l : list X) (x : X) :
  NoDup l -> ~ In x l -> NoDup (l ++ [x]).
Proof.
  intros Hl Hx. apply NoDup_app; [exact Hl|repeat constructor; auto|].
  intros y Hy [<-|[]]. contradiction.
Qed.

Lemma invariant_skip (st : State) (recs : list Horse.t) (d : string) :
  invariant st recs -> invariant (mkState d (horses st) (seen st)) recs.
Proof. intros H; exact H. Qed.

(** One line keeps the invariant, the candidates growing by the record of
    that line. *)
Lemma step_invariant (st : State) (recs : list Horse.t) (rawLine : string)
    (lines : list string) :
  invariant st recs ->
  exists recs',
    recs ++ candidatesFrom (currentDate st) (rawLine :: lines)
    = recs' ++ candidatesFrom (currentDate (step st rawLine)) lines
    /\ invariant (step st rawLine) recs'.
Proof.
  intros Inv. unfold step. cbn [candidatesFrom].
  destruct (dateMatch rawLine) as [d|].
  { exists recs. split; [reflexivity|exact Inv]. }
  destruct (entryMatch (normalize rawLine)) as [[[race0 name] rest]|];
    [|exists recs; split; [reflexivity|exact Inv]].
  destruct (effective (currentDate st) race0) as [entryDate race].
  destruct (String.eqb entryDate todayDate) eqn:Edate; cbn [negb andb];
    [|exists recs; split; [reflexivity|exact Inv]].
  apply String.eqb_eq in Edate; subst entryDate.
  destruct Inv as [Hnd [Hfirst Hkeyed]].
  destruct (seenHas (seen st) (keyOf name race todayDate)) eqn:Eseen.
  - (* a later duplicate: dropped *)
    destruct (isEmpty (trim name)); cbn [negb].
    + exists recs. split; [reflexivity|]. now repeat split.
    + exists (recs ++ [horseOf name race rest todayDate]).
      split; [now rewrite <- app_assoc|]. repeat split; auto.
      * intros h Hh. apply firstOf_app, Hfirst, Hh.
      * intros h Hh. apply in_app_or in Hh as [Hh|[<-|[]]]; auto.
        now apply horseOf_keyed.
  - (* a first occurrence *)
    destruct (isEmpty (trim name)); cbn [negb currentDate horses seen].
    + exists recs. split; [reflexivity|].
      repeat split; cbn [horses seen currentDate]; auto.
      intros h Hh. apply keyed_cons, Hkeyed, Hh.
    + exists (recs ++ [horseOf name race rest todayDate]).
      split; [now rewrite <- app_assoc|].
      assert (Hfresh := fresh_key _ _ name race rest Hkeyed Eseen).
      repeat split; cbn [horses seen currentDate].
      * rewrite map_app. apply NoDup_snoc; [exact Hnd|].
        cbn [map]. intros Hin. apply in_map_iff in Hin as [h [Ek Hh]].
        apply (Hfresh h); [apply firstOf_In, Hfirst, Hh|exact Ek].
      * intros h Hh. apply in_app_or in Hh as [Hh|[<-|[]]].
        -- apply firstOf_app, Hfirst, Hh.
        -- apply firstOf_last, Hfresh.
      * intros h Hh. apply in_app_or in Hh as [Hh|[<-|[]]].
        -- apply keyed_cons, Hkeyed, Hh.
        -- apply horseOf_keyed, seenHas_head.
Qed.

Lemma fold_invariant (lines : list string) (st : State) (recs : list Horse.t) :
  invariant st recs ->
  invariant (fold_left step lines st)
            (recs ++ candidatesFrom (currentDate st) lines).
Proof.
  revert st recs; induction lines as [|rawLine lines IH]; intros st recs Inv.
  - cbn [fold_left candidatesFrom]. now rewrite app_nil_r.
  - destruct (step_invariant st recs rawLine lines Inv) as [recs' [E Inv']].
    cbn [fold_left]. rewrite E. apply IH, Inv'.
Qed.

Lemma collect_invariant (content : string) :
  invariant (fold_left step (splitLines content) (mkState "" [] []))
            (candidates content).
Proof.
  apply (fold_invariant (splitLines content) (mkState "" [] []) []).
  repeat split; cbn; try constructor; intros h [].
Qed.

Lemma insert_perm (a : Horse.t) (l : list Horse.t) :
  Permutation (insert a l) (a :: l).
Proof.
  induction l as [|b l IH]; simpl; [reflexivity|].
  destruct (notAfter a b); [reflexivity|].
  rewrite IH. apply perm_swap.
Qed.

Lemma sort_perm (l : list Horse.t) : Permutation (sort l) l.
Proof.
  induction l as [|a l IH]; simpl; [reflexivity|].
  rewrite insert_perm. now constructor.
Qed.

Lemma NoDup_firstn {X : Type} (n : nat) (l : list X) :
  NoDup l -> NoDup (firstn n l).
Proof.
  intros H. rewrite <- (firstn_skipn n l) in H.
  now apply NoDup_app_remove_r in H.
Qed.

Lemma In_firstn {X : Type} (n : nat) (l : list X) (x : X) :
  In x (firstn n l) -> In x l.
Proof.
  intros H. rewrite <- (firstn_skipn n l). apply in_or_app. now left.
Qed.

Lemma parse_In_collect (content : string) (h : Horse.t) :
  In h (parseB2LHorses content) -> In h (collect content).
Proof.
  intros H. apply In_firstn in H.
  eapply Permutation_in; [apply sort_perm|exact H].
Qed.

(** The collected records are the records of the entries that are the
    first with their key string. *)
Lemma fold_firstByKey (lines : list string) (st : State) :
  horses (fold_left step lines st)
  = horses st
    ++ somes (map recordOf (firstByKey (seen st) (entriesFrom (currentDate st) lines))).
Proof.
  revert st; induction lines as [|rawLine lines IH]; intros st.
  - cbn. now rewrite app_nil_r.
  - cbn [fold_left entriesFrom]. rewrite IH. unfold step.
    destruct (dateMatch rawLine) as [d|]; [reflexivity|].
    destruct (entryMatch (normalize rawLine)) as [[[race0 name] rest]|];
      [|reflexivity].
    destruct (effective (currentDate st) race0) as [entryDate race].
    destruct (String.eqb entryDate todayDate) eqn:Edate; cbn [negb];
      [|reflexivity].
    apply String.eqb_eq in Edate; subst entryDate.
    cbn [firstByKey keyString].
    destruct (seenHas (seen st) (keyOf name race todayDate)); [reflexivity|].
    cbn [map somes recordOf].
    destruct (isEmpty (trim name)); cbn [horses seen currentDate somes];
      [reflexivity|].
    now rewrite <- app_assoc.
Qed.

Lemma collect_firstByKey (content : string) :
  collect content = somes (map recordOf (firstByKey [] (entries content))).
Proof. apply (fold_firstByKey (splitLines content) (mkState "" [] [])). Qed.

Lemma candidatesFrom_entries (cur : string) (lines : list string) :
  candidatesFrom cur lines = somes (map recordOf (entriesFrom cur lines)).
Proof.
  revert cur; induction lines as [|rawLine lines IH]; intros cur; [reflexivity|].
  cbn [candidatesFrom entriesFrom].
  destruct (dateMatch rawLine) as [d|]; [apply IH|].
  destruct (entryMatch (normalize rawLine)) as [[[race0 name] rest]|]; [|apply IH].
  destruct (effective cur race0) as [entryDate race].
  destruct (String.eqb entryDate todayDate) eqn:Edate; cbn [andb]; [|apply IH].
  apply String.eqb_eq in Edate; subst entryDate.
  cbn [map somes recordOf].
  destruct (isEmpty (trim name)); cbn [negb somes]; now rewrite IH.
Qed.

Lemma seenHas_false_cons (seen : list string) (k k' : string) :
  seenHas (k' :: seen) k = false <-> k <> k' /\ seenHas seen k = false.
Proof.
  unfold seenHas; cbn [existsb]. rewrite orb_false_iff, String.eqb_neq. tauto.
Qed.

Lemma firstByKey_first (l : list (string * string * string)) (seen : list string)
    (e : string * string * string) :
  In e (firstByKey seen l) ->
  seenHas seen (keyString e) = false /\ firstKeyed e l.
Proof.
  revert seen; induction l as [|x l IH]; intros seen H; [destruct H|].
  cbn [firstByKey] in H.
  destruct (seenHas seen (keyString x)) eqn:Ex.
  - destruct (IH seen H) as [Hs [l1 [l2 [-> Hl]]]]. split; [exact Hs|].
    exists (x :: l1), l2. split; [reflexivity|].
    intros e' [<-|He'] E; [congruence|exact (Hl e' He' E)].
  - destruct H as [<-|H].
    + split; [exact Ex|]. exists [], l. split; [reflexivity|intros e' []].
    + destruct (IH _ H) as [Hs [l1 [l2 [-> Hl]]]].
      apply seenHas_false_cons in Hs as [Hne Hs]. split; [exact Hs|].
      exists (x :: l1), l2. split; [reflexivity|].
      intros e' [<-|He'] E; [congruence|exact (Hl e' He' E)].
Qed.

Lemma first_firstByKey (l1 l2 : list (string * string * string))
    (seen : list string) (e : string * string * string) :
  seenHas seen (keyString e) = false ->
  (forall e', In e' l1 -> keyString e' <> keyString e) ->
  In e (firstByKey seen (l1 ++ e :: l2)).
Proof.
  revert seen; induction l1 as [|x l1 IH]; intros seen Hs Hl.
  - cbn [List.app firstByKey]. rewrite Hs. now left.
  - cbn [List.app firstByKey]. destruct (seenHas seen (keyString x)).
    + apply IH; [exact Hs|]. intros e' He'. apply Hl. now right.
    + right. apply IH.
      * apply seenHas_false_cons. split; [|exact Hs].
        intros E. apply (Hl x); [now left|now symmetry].
      * intros e' He'. apply Hl. now right.
Qed.

Lemma In_somes_map {X Y : Type} (f : X -> option Y) (l : list X) (y : Y) :
  In y (somes (map f l)) <-> exists x, In x l /\ f x = Some y.
Proof.
  induction l as [|a l IH]; cbn [map somes].
  - split; [intros []|intros [x [[] _]]].
  - destruct (f a) as [b|] eqn:E.
    + cbn [In]. rewrite IH. split.
      * intros [<-|[x [Hx Hy]]].
        -- exists a. split; [now left|exact E].
        -- exists x. split; [now right|exact Hy].
      * intros [x [[<-|Hx] Hy]].
        -- left. congruence.
        -- right. exists x. now split.
    + rewrite IH. split.
      * intros [x [Hx Hy]]. exists x. split; [now right|exact Hy].
      * intros [x [[<-|Hx] Hy]]; [congruence|]. exists x. now split.
Qed.

(** A record is collected exactly when it is the record of an entry that is
    the first with its key string. *)
Lemma collect_first (content : string) (h : Horse.t) :
  In h (collect content)
  <-> exists e, firstKeyed e (entries content) /\ recordOf e = Some h.
Proof.
  rewrite collect_firstByKey, In_somes_map. split.
  - intros [e [He Hh]]. exists e. split; [|exact Hh].
    apply (firstByKey_first _ [] e He).
  - intros [e [[l1 [l2 [E Hl]]] Hh]]. exists e. split; [|exact Hh].
    rewrite E. apply first_firstByKey; [reflexivity|exact Hl].
Qed.

(** A place in the list of the records is a place in the list they are
    made from. *)
Lemma somes_map_split {X Y : Type} (f : X -> option Y) (l : list X)
    (l1 l2 : list Y) (y : Y) :
  somes (map f l) = l1 ++ y :: l2 ->
  exists m1 x m2,
    l = m1 ++ x :: m2 /\ f x = Some y /\ somes (map f m1) = l1.
Proof.
  revert l1; induction l as [|a l IH]; intros l1 H; cbn [map somes] in H.
  - destruct l1; discriminate.
  - destruct (f a) as [b|] eqn:E.
    + destruct l1 as [|b' l1]; cbn [List.app] in H; injection H as Hb H.
      * subst b. exists [], a, l. now repeat split.
      * subst b'. destruct (IH l1 H) as [m1 [x [m2 [-> [Hx Hm]]]]].
        exists (a :: m1), x, m2. repeat split; [exact Hx|].
        cbn [map somes]. now rewrite E, Hm.
    + destruct (IH l1 H) as [m1 [x [m2 [-> [Hx Hm]]]]].
      exists (a :: m1), x, m2. repeat split; [exact Hx|].
      cbn [map somes]. now rewrite E.
Qed.

(** Two texts with a bar, and no bar before it, are equal part by part. *)
Lemma bar_split (a b x y : string) :
  all noBar a = true -> all noBar b = true ->
  a +++ "|" +++ x = b +++ "|" +++ y -> a = b /\ x = y.
Proof.
  revert b; induction a as [|c a IH]; intros [|c' b] Ha Hb E; cbn in *.
  - injection E as E. now split.
  - injection E as Ec _. subst c'. discriminate.
  - injection E as Ec _. subst c. discriminate.
  - injection E as Ec E. subst c'.
    apply andb_true_iff in Ha as [_ Ha]. apply andb_true_iff in Hb as [_ Hb].
    destruct (IH b Ha Hb E) as [-> ->]. now split.
Qed.

Lemma raceLabel_noBar (race : string) :
  all noBar (raceLabelOf todayDate race) = true -> all noBar (trim race) = true.
Proof.
  rewrite raceLabelOf_today. destruct (trim race) as [|c t]; [reflexivity|].
  cbn [isEmpty]. intros H. exact H.
Qed.

(** Without a bar in the names and the race labels, the entries of one key
    string are the ones of one composite key. *)
Lemma keyString_key3 (e e' : string * string * string) (h h' : Horse.t) :
  recordOf e = Some h -> recordOf e' = Some h' ->
  all noBar (Horse.name h) = true -> all noBar (Horse.race h) = true ->
  all noBar (Horse.name h') = true -> all noBar (Horse.race h') = true ->
  keyString e' = keyString e -> key3 h' = key3 h.
Proof.
  destruct e as [[name race] rest], e' as [[name' race'] rest'].
  cbn [recordOf keyString]. unfold keyOf.
  destruct (isEmpty (trim name)); [discriminate|].
  destruct (isEmpty (trim name')); [discriminate|].
  intros [= <-] [= <-]. cbn [horseOf Horse.name Horse.race].
  intros Hn Hr Hn' Hr' E.
  apply raceLabel_noBar in Hr, Hr'.
  apply bar_split in E as [En E]; [|assumption|assumption].
  apply bar_split in E as [Er _]; [|assumption|assumption].
  unfold key3, horseOf. cbn [Horse.name Horse.race Horse.date].
  rewrite !raceLabelOf_today, En, Er. reflexivity.
Qed.

Lemma blank_keyString (e e' : string * string * string) (h : Horse.t) :
  recordOf e = Some h -> recordOf e' = None ->
  all noBar (Horse.name h) = true ->
  keyString e' <> keyString e.
Proof.
  destruct e as [[name race] rest], e' as [[name' race'] rest'].
  cbn [recordOf keyString]. unfold keyOf.
  intros He He' Hn E.
  destruct (trim name) as [|c t] eqn:En; cbn [isEmpty] in He; [discriminate|].
  injection He as <-. cbn [horseOf Horse.name] in Hn. rewrite En in Hn.
  destruct (trim name') as [|c' t']; cbn [isEmpty] in He'; [|discriminate].
  cbn in E. injection E as Ec _. subst c. discriminate.
Qed.

(** Without a bar in the names and the race labels of the candidates, the
    first candidate with a composite key comes from the first entry with
    its key string. *)
Lemma first_candidate_entry (content : string) (h : Horse.t) :
  (forall h', In h' (candidates content) ->
     all noBar (Horse.name h') = true /\ all noBar (Horse.race h') = true) ->
  firstOf h (candidates content) ->
  exists e, firstKeyed e (entries content) /\ recordOf e = Some h.
Proof.
  unfold candidates, entries. rewrite candidatesFrom_entries.
  intros Hbar [l1 [l2 [E Hl]]].
  assert (Hh : In h (somes (map recordOf (entriesFrom "" (splitLines content)))))
    by (rewrite E; apply in_elt).
  destruct (somes_map_split _ _ _ _ _ E) as [m1 [e [m2 [Em [He Hm]]]]].
  exists e. split; [|exact He]. exists m1, m2. split; [exact Em|].
  intros e' He'. destruct (Hbar h Hh) as [Hn Hr].
  destruct (recordOf e') as [h'|] eqn:Ee'.
  - assert (Hh' : In h' l1)
      by (rewrite <- Hm; apply In_somes_map; exists e'; auto).
    intros Ek. apply (Hl h' Hh').
    destruct (Hbar h') as [Hn' Hr']; [rewrite E; apply in_or_app; now left|].
    exact (keyString_key3 e e' h h' He Ee' Hn Hr Hn' Hr' Ek).
  - exact (blank_keyString e e' h He Ee' Hn).
Qed.

End ParserInvariant.

Section ParserClaims.
Import Spec Parser.

(** C9, as claimed, fails on first occurrences: the loop remembers an entry
    by one text, its name, its race text and the date with a bar between
    them, and two entries of different keys can make the same text.  Here
    the second entry is the only one with its composite key, and it is
    dropped as a duplicate of the first. *)
Lemma first_occurrence_dropped :
  let content :=
    "## 2026-02-10" +++ String "010"
    ("- **c** - *a|b*" +++ String "010"
     "- **b|c** - *a*") in
  let first := Horse.mk "a|b" "2026-02-10 c" "n/a" "" (Some "2026-02-10") in
  let second := Horse.mk "a" "2026-02-10 b|c" "n/a" "" (Some "2026-02-10") in
  candidates content = [first; second]
  /\ key3 first <> key3 second
  /\ firstOf second (candidates content)
  /\ map keyString (entries content) = ["a|b|c|2026-02-10"; "a|b|c|2026-02-10"]
  /\ collect content = [first]
  /\ parseB2LHorses content = [first]
  /\ ~ In second (parseB2LHorses content).
Proof.
  cbv zeta. repeat split; try (vm_compute; reflexivity).
  - vm_compute. discriminate.
  - eexists [_], []. split; [vm_compute; reflexivity|].
    intros h' [<-|[]]. vm_compute. discriminate.
  - vm_compute. intros [H|[]]. discriminate H.
Qed.

(** C9, amended.  No two records of the parser's output share the composite
    key (name, race, date).  The list collected by the loop already has no
    two records with one key, and each record in it is the first, in line
    order, of the candidate records with its key; the sort only reorders
    the collected records and the truncation keeps the first two of them,
    so the output is duplicate-free too.  Which occurrence wins is settled
    on the key string of the entries: a record is collected exactly when it
    is the record of a named entry that is the first entry, blank names
    included, with its key string, and the collected records are in the
    order of these entries.  When no candidate has a bar in its name or in
    its race, the first candidate with each composite key is collected. *)
Theorem parser_dedup_invariant (content : string) :
  NoDup (map key3 (parseB2LHorses content))
  /\ NoDup (map key3 (collect content))
  /\ (forall h, In h (collect content) -> firstOf h (candidates content))
  /\ Permutation (sort (collect content)) (collect content)
  /\ (forall h, In h (parseB2LHorses content) -> In h (collect content))
  /\ candidates content = somes (map recordOf (entries content))
  /\ collect content = somes (map recordOf (firstByKey [] (entries content)))
  /\ (forall h,
        In h (collect content)
        <-> exists e, firstKeyed e (entries content) /\ recordOf e = Some h)
  /\ ((forall h, In h (candidates content) ->
         all noBar (Horse.name h) = true /\ all noBar (Horse.race h) = true) ->
      forall h, firstOf h (candidates content) -> In h (collect content)).
Proof.
  destruct (collect_invariant content) as [Hnd [Hfirst _]].
  fold (collect content) in Hnd, Hfirst.
  repeat match goal with |- _ /\ _ => split end.
  - unfold parseB2LHorses. rewrite <- firstn_map. apply NoDup_firstn.
    eapply Permutation_NoDup; [|exact Hnd].
    apply Permutation_map, Permutation_sym, sort_perm.
  - exact Hnd.
  - exact Hfirst.
  - apply sort_perm.
  - apply parse_In_collect.
  - apply candidatesFrom_entries.
  - apply collect_firstByKey.
  - apply collect_first.
  - intros Hbar h Hh. apply collect_first.
    apply first_candidate_entry; assumption.
Qed.

Lemma parser_dedup_invariant_witness :
  let content :=
    "## 2026-02-10" +++ String "010"
    ("- **14:30 Ascot** - *Red Rum* - priced at 3.5" +++ String "010"
    ("- **14:30 Ascot** - * Red Rum * again" +++ String "010"
     "- **16:45 York** - *Desert Orchid*: priced n/a")) in
  let redRum := Horse.mk "Red Rum" "2026-02-10 14:30 Ascot" "3.5"
                         "priced at 3.5" (Some "2026-02-10") in
  let desertOrchid := Horse.mk "Desert Orchid" "2026-02-10 16:45 York" "n/a"
                               "priced n/a" (Some "2026-02-10") in
  parseB2LHorses content = [desertOrchid; redRum]
  /\ firstOf redRum (candidates content)
  /\ In desertOrchid (collect content).
Proof.
  cbv zeta. split; [vm_compute; reflexivity|]. split.
  - apply (proj1 (proj2 (proj2 (parser_dedup_invariant _)))).
    vm_compute. auto.
  - apply (proj2 (proj2 (proj2 (proj2 (proj2 (proj2 (proj2 (proj2
             (parser_dedup_invariant _))))))))).
    + intros h H. vm_compute in H.
      destruct H as [<-|[<-|[<-|[]]]]; split; reflexivity.
    + eexists [_; _], []. split; [vm_compute; reflexivity|].
      intros h' [<-|[<-|[]]]; vm_compute; discriminate.
Defined.

(** C10, as claimed, fails for an entry whose race text is blank: the label
    is trimmed after the date is put in front, so the record's race is the
    date alone, with no space after it. *)
Lemma race_label_without_space :
  let content :=
    "## 2026-02-10" +++ String "010" "- ** ** - *Horse* priced 3.5" in
  parseB2LHorses content
  = [Horse.mk "Horse" "2026-02-10" "3.5" "priced 3.5" (Some "2026-02-10")]
  /\ exists h,
       In h (parseB2LHorses content)
       /\ Horse.date h = Some "2026-02-10"
       /\ startsWith (Horse.race h) ("2026-02-10" +++ " ") = false.
Proof.
  cbv zeta. split; [vm_compute; reflexivity|].
  eexists. split; [vm_compute; left; reflexivity|]. split; reflexivity.
Qed.

(** C10, amended.  Every record the parser returns has the target date as
    its date, and a race field that begins with the target date: the date
    alone when the entry's race text is blank, and else the date, a space
    and the trimmed race text. *)
Theorem race_label_starts_with_date (content : string) (h : Horse.t) :
  In h (parseB2LHorses content) ->
  Horse.date h = Some todayDate
  /\ startsWith (Horse.race h) todayDate = true
  /\ exists race,
       (trim race = "" /\ Horse.race h = todayDate)
       \/ (trim race <> ""
           /\ Horse.race h = todayDate +++ " " +++ trim race
           /\ startsWith (Horse.race h) (todayDate +++ " ") = true).
Proof.
  intros Hin. apply parse_In_collect in Hin.
  destruct (collect_invariant content) as [_ [Hfirst Hkeyed]].
  apply Hfirst, firstOf_In, Hkeyed in Hin. destruct Hin as [x [Hd [Hr _]]].
  rewrite raceLabelOf_today in Hr. split; [exact Hd|].
  destruct (trim x) as [|c t] eqn:E; cbn [isEmpty] in Hr.
  - split; [rewrite Hr; reflexivity|].
    exists x. left. now rewrite E.
  - split; [rewrite Hr; reflexivity|].
    exists x. right. rewrite E. repeat split; [discriminate|exact Hr|].
    rewrite Hr. reflexivity.
Qed.

Lemma race_label_starts_with_date_witness :
  startsWith
    (Horse.race (Horse.mk "Red Rum" "2026-02-10 14:30 Ascot" "3.5"
                          "priced at 3.5" (Some "2026-02-10")))
    todayDate = true.
Proof.
  refine (proj1 (proj2 (race_label_starts_with_date
    ("## 2026-02-10" +++ String "010" "- **14:30 Ascot** - *Red Rum* - priced at 3.5")
    _ _))).
  vm_compute. left. reflexivity.
Defined.

End ParserClaims.

(** ** The snapshot assembler and the handler *)

Section AssemblerClaims.
Import Spec Route.

(** C2, as claimed, fails for the trading section: the report reader's
    result for a report with no entry of the day is not [null] and holds no
    horse, and it replaces the baseline's trading section all the same. *)
Lemma merge_empty_trading_replaces :
  exists t,
    fetchB2LData (FileContent "") = Some t
    /\ Trading.qualifiedHorses t = []
    /\ nullOrEmptyTrading (Some t)
    /\ DashboardData.trading (merge sampleBaseline None None None (Some t)) = t
    /\ merge sampleBaseline None None None (Some t) <> sampleBaseline.
Proof.
  eexists. split; [reflexivity|]. split; [reflexivity|].
  split; [right; eexists; split; reflexivity|].
  split; [reflexivity|]. discriminate.
Qed.

(** C2, amended.  The agents, projects and crons sections of the snapshot
    are the adapter's result when it is not [null] and not empty, and the
    baseline's otherwise; the trading section is the adapter's result
    whenever it is not [null], with or without horses, and the baseline's
    otherwise; the other sections are the baseline's.  When the first three
    results are [null] or empty and the trading result is [null], the
    snapshot is the baseline. *)
Theorem merge_policy (baseline : DashboardData.t)
    (agents : option (list Agent.t)) (projects : option Projects.t)
    (crons : option Crons.t) (trading : option Trading.t) :
  let snapshot := merge baseline agents projects crons trading in
  DashboardData.agents snapshot
  = match agents with
    | Some (a :: l) => a :: l
    | _ => DashboardData.agents baseline
    end
  /\ DashboardData.projects snapshot
     = match projects with
       | Some p => match Projects.active p with
                   | _ :: _ => p
                   | [] => DashboardData.projects baseline
                   end
       | None => DashboardData.projects baseline
       end
  /\ DashboardData.crons snapshot
     = match crons with
       | Some c => match Crons.jobs c with
                   | _ :: _ => c
                   | [] => DashboardData.crons baseline
                   end
       | None => DashboardData.crons baseline
       end
  /\ DashboardData.trading snapshot
     = match trading with
       | Some t => t
       | None => DashboardData.trading baseline
       end
  /\ DashboardData.calendar snapshot = DashboardData.calendar baseline
  /\ DashboardData.content snapshot = DashboardData.content baseline
  /\ DashboardData.fileActivity snapshot = DashboardData.fileActivity baseline
  /\ (nullOrEmptyAgents agents -> nullOrEmptyProjects projects ->
      nullOrEmptyCrons crons -> trading = None -> snapshot = baseline).
Proof.
  cbv zeta. unfold merge.
  destruct baseline as [ba bp bt bc bcal bcon bf].
  destruct agents as [[|a l]|], projects as [[ps [|pa pl] pr pg]|],
    crons as [[cs [|cj cl]]|], trading as [t|];
    cbn; repeat split; try reflexivity;
    intros Ha Hp Hc Ht;
    try discriminate Ht;
    try (destruct Ha as [Ha|Ha]; discriminate Ha);
    try (destruct Hp as [Hp|[p [Hp Hp']]]; [discriminate Hp|];
         injection Hp as <-; discriminate Hp');
    try (destruct Hc as [Hc|[c [Hc Hc']]]; [discriminate Hc|];
         injection Hc as <-; discriminate Hc').
Qed.

Lemma merge_policy_witness :
  merge sampleBaseline (Some []) (Some unavailable) None None = sampleBaseline.
Proof.
  apply (proj2 (proj2 (proj2 (proj2 (proj2 (proj2 (proj2
           (merge_policy sampleBaseline (Some []) (Some unavailable) None None)))))))).
  - right. reflexivity.
  - right. exists unavailable. split; reflexivity.
  - left. reflexivity.
  - reflexivity.
Defined.

(** C6.  The response of the handler has status 200 in every execution:
    with the assembled snapshot as its body when the assembly returns one,
    and with the unmodified placeholder when the assembly throws. *)
Theorem get_status_200 (placeholderData : DashboardData.t) (w : World) :
  status (GET placeholderData w) = 200
  /\ (forall data, buildLiveData placeholderData w = Returned data ->
      body (GET placeholderData w) = data)
  /\ (buildLiveData placeholderData w = Raised ->
      body (GET placeholderData w) = placeholderData).
Proof.
  unfold GET. destruct (buildLiveData placeholderData w) as [data|];
    repeat split; cbn; intros; try reflexivity; try discriminate; congruence.
Qed.

(** An execution in which the assembly throws: a cron job whose next run is
    past the range of a [Date].  The response is the placeholder, with
    status 200. *)
Lemma get_status_200_witness :
  let w := {| agentsCli := ExecFailed;
              sessionsCli := ExecFailed;
              cronCli :=
                ExecOk (quoted "{ 'jobs' : [ { 'state' : { 'nextRunAtMs' : 1e16 } } ] }");
              agentsDir := Raised;
              githubToken := None;
              github := FetchRejected;
              now := "2026-02-10T00:00:00.000Z";
              reportFile := FileMissing |} in
  buildLiveData sampleBaseline w = Raised
  /\ body (GET sampleBaseline w) = sampleBaseline
  /\ status (GET sampleBaseline w) = 200.
Proof.
  intros w. destruct (get_status_200 sampleBaseline w) as [H200 [_ Hraised]].
  assert (E : buildLiveData sampleBaseline w = Raised) by (vm_compute; reflexivity).
  split; [exact E|]. split; [exact (Hraised E)|exact H200].
Defined.

End AssemblerClaims.

(** ** The adapters' failures *)

Section AdapterClaims.
Import Spec Route.

(** C4, as claimed, fails for the issue-tracker adapter: without a token it
    returns a record, not [null]; and a failed sessions call does not fail
    the agents adapter. *)
Lemma github_failure_not_null :
  fetchGitHubProjects None FetchRejected "2026-02-10T00:00:00.000Z"
  = Some unavailable
  /\ fetchGitHubProjects None FetchRejected "2026-02-10T00:00:00.000Z" <> None
  /\ fetchAgentData (ExecOk (quoted "[{'id':'a1'}]")) ExecFailed Raised <> None.
Proof. repeat split; discriminate. Qed.

(** What the agents adapter returns when the sessions call fails: the
    reconciliation of the agents with no session. *)
Lemma fetchAgentData_without_sessions (agentsCli : Exec)
    (agentsDir : outcome (list Dirent)) :
  fetchAgentData agentsCli ExecFailed agentsDir
  = match runOpenClawJson agentsCli with
    | Some payload =>
        Reconciler.reconcile (extractAgents payload) []
                             (getDefinedSubAgentsList agentsDir)
    | None => None
    end.
Proof. reflexivity. Qed.

(** C4, amended.  No adapter raises on a failure of its source.  When the
    call fails (transport error, timeout, exit code) or its output holds no
    JSON that parses, the agents adapter and the cron adapter return
    [null]; when the report file is missing or unreadable, the report
    reader returns [null]; when the token is missing, the request fails,
    the response is not ok or its body is not JSON, the issue-tracker
    adapter returns the record [{status:"unavailable", active:[], ...}],
    which the assembler treats as it treats [null]. *)
Theorem adapter_failure_contract :
  (forall sessionsCli agentsDir,
     fetchAgentData ExecFailed sessionsCli agentsDir = None)
  /\ (forall stdout sessionsCli agentsDir,
        runOpenClawJson (ExecOk stdout) = None ->
        fetchAgentData (ExecOk stdout) sessionsCli agentsDir = None)
  /\ fetchCronStatus ExecFailed = Returned None
  /\ (forall stdout,
        runOpenClawJson (ExecOk stdout) = None ->
        fetchCronStatus (ExecOk stdout) = Returned None)
  /\ fetchB2LData FileMissing = None
  /\ fetchB2LData FileUnreadable = None
  /\ (forall token response now,
        truthy token = false ->
        fetchGitHubProjects token response now = Some unavailable)
  /\ (forall token now,
        fetchGitHubProjects token FetchRejected now = Some unavailable)
  /\ (forall token body now,
        fetchGitHubProjects token (FetchResponse false body) now = Some unavailable)
  /\ (forall token now,
        fetchGitHubProjects token (FetchResponse true None) now = Some unavailable)
  /\ (forall baseline agents crons trading,
        merge baseline agents (Some unavailable) crons trading
        = merge baseline agents None crons trading).
Proof.
  repeat split.
  - intros stdout sessionsCli agentsDir H. unfold fetchAgentData. now rewrite H.
  - intros stdout H. unfold fetchCronStatus. now rewrite H.
  - intros token response now H. unfold fetchGitHubProjects. now rewrite H.
  - intros token now. unfold fetchGitHubProjects. now destruct (truthy token).
  - intros token body now. unfold fetchGitHubProjects. now destruct (truthy token).
  - intros token now. unfold fetchGitHubProjects. now destruct (truthy token).
Qed.

Lemma adapter_failure_contract_witness :
  fetchCronStatus (ExecOk "openclaw: gateway is not running") = Returned None
  /\ fetchAgentData (ExecOk "{ not json") ExecFailed Raised = None
  /\ fetchGitHubProjects (Some "") FetchRejected "2026-02-10T00:00:00.000Z"
     = Some unavailable.
Proof.
  destruct adapter_failure_contract as [_ [Hagents [_ [Hcron [_ [_ [Htoken _]]]]]]].
  split; [|split].
  - apply Hcron. vm_compute. reflexivity.
  - apply Hagents. vm_compute. reflexivity.
  - apply Htoken. reflexivity.
Defined.

End AdapterClaims.

(** ** [JSON.parse]: the fuel is enough *)

Section JsonFacts.
Import Json.

Lemma skipWs_length (s : string) : String.length (skipWs s) <= String.length s.
Proof.
  induction s as [|c s IH]; simpl; [lia|].
  destruct (isWs c); simpl; lia.
Qed.

Lemma expect_length (x : ascii) (s r : string) :
  expect x s = Some r -> String.length s = S (String.length r).
Proof.
  destruct s as [|c s]; simpl; [discriminate|].
  destruct (Ascii.eqb c x); [|discriminate]. now intros [= ->].
Qed.

Lemma span_length (f : ascii -> bool) (s a b : string) :
  span f s = (a, b) -> String.length a + String.length b = String.length s.
Proof.
  revert a b; induction s as [|c s IH]; simpl; intros a b.
  - intros [= <- <-]. reflexivity.
  - destruct (f c).
    + destruct (span f s) as [a' b'] eqn:E. intros [= <- <-].
      simpl. now rewrite (IH a' b' eq_refl).
    + intros [= <- <-]. reflexivity.
Qed.

Lemma stripPrefix_length (p s rest : string) :
  stripPrefix p s = Some rest ->
  String.length s = String.length p + String.length rest.
Proof.
  revert s; induction p as [|a p IH]; intros s; simpl.
  - now intros [= ->].
  - destruct s as [|b s]; [discriminate|].
    destruct (Ascii.eqb a b); [|discriminate].
    intros H. simpl. now rewrite (IH s H).
Qed.

(** A string literal ends before the end of the text it starts in. *)
Lemma stringPieces_length (n : nat) :
  forall s ps rest,
    String.length s <= n ->
    stringPieces s = Some (ps, rest) -> String.length rest < String.length s.
Proof.
  induction n as [|n IH]; intros s ps rest Hn H.
  - destruct s; [discriminate|simpl in Hn; lia].
  - destruct s as [|c r]; [discriminate|]. simpl in Hn.
    cbn [stringPieces] in H.
    destruct (Ascii.eqb c "034"); [injection H as _ <-; simpl; lia|].
    destruct (Ascii.eqb c "\").
    + destruct r as [|e r1]; [discriminate|]. simpl in Hn.
      assert (Hsimple : forall x,
                match stringPieces r1 with
                | Some (ps0, rest0) => Some (Raw x :: ps0, rest0)
                | None => None
                end = Some (ps, rest) ->
                String.length rest < String.length (String c (String e r1))).
      { intros x Hx. destruct (stringPieces r1) as [[ps0 rest0]|] eqn:E; [|discriminate].
        injection Hx as _ <-. apply IH in E; simpl; lia. }
      repeat match type of H with
             | (if ?b then _ else _) = _ => destruct b; [now apply (Hsimple _ H)|]
             end.
      destruct (Ascii.eqb e "u"); [|discriminate].
      destruct r1 as [|h1 [|h2 [|h3 [|h4 r2]]]]; try discriminate.
      destruct (hex4 h1 h2 h3 h4); [|discriminate].
      destruct (stringPieces r2) as [[ps0 rest0]|] eqn:E; [|discriminate].
      injection H as _ <-. simpl in Hn. apply IH in E; simpl; lia.
    + destruct (N_of_ascii c <? 32)%N; [discriminate|].
      destruct (stringPieces r) as [[ps0 rest0]|] eqn:E; [|discriminate].
      injection H as _ <-. apply IH in E; simpl; lia.
Qed.

Lemma parseString_length (s t rest : string) :
  parseString s = Some (t, rest) -> String.length rest < String.length s.
Proof.
  unfold parseString.
  destruct (stringPieces s) as [[ps r]|] eqn:E; [|discriminate].
  intros [= _ <-]. now apply (stringPieces_length (String.length s)) in E.
Qed.

(** A number takes at least one character. *)
Lemma parseNumber_length (s : string) (v : json) (rest : string) :
  parseNumber s = Some (v, rest) -> String.length rest < String.length s.
Proof.
  unfold parseNumber. intros H.
  destruct (match expect "-" s with Some r => (true, r) | None => (false, s) end)
    as [negative s0] eqn:Esign.
  assert (Hs0 : String.length s0 <= String.length s).
  { destruct (expect "-" s) eqn:E; injection Esign as _ <-; [|lia].
    apply expect_length in E. lia. }
  destruct (span isDigit s0) as [int s1] eqn:Eint. apply span_length in Eint.
  destruct (isEmpty int) eqn:Eempty; [discriminate|].
  assert (Hint : 0 < String.length int) by (destruct int; [discriminate|simpl; lia]).
  cbn [orb] in H.
  destruct (startsWith int "0" && (1 <? String.length int)%nat); [discriminate|].
  assert (Hfrac : forall frac s2,
            match expect "." s1 with
            | Some r => let (frac, s2) := span isDigit r in
                        if isEmpty frac then None else Some (frac, s2)
            | None => Some (EmptyString, s1)
            end = Some (frac, s2) -> String.length s2 <= String.length s1).
  { intros frac s2 Hf. destruct (expect "." s1) as [r|] eqn:E.
    - apply expect_length in E. destruct (span isDigit r) as [a b] eqn:Es.
      apply span_length in Es. destruct (isEmpty a); [discriminate|].
      injection Hf as _ <-. lia.
    - injection Hf as _ <-. lia. }
  destruct (match expect "." s1 with Some r => _ | None => _ end)
    as [[frac s2]|] eqn:Efrac; [|discriminate].
  assert (Hs2 := Hfrac _ _ eq_refl). clear Hfrac Efrac.
  destruct (match expect "e" s2 with Some r => Some r | None => expect "E" s2 end)
    as [r|] eqn:Eexp.
  - assert (Hr : String.length r < String.length s2).
    { destruct (expect "e" s2) eqn:E; [injection Eexp as ->|];
        [apply expect_length in E|apply expect_length in Eexp]; lia. }
    destruct (match expect "-" r with Some r' => _ | None => _ end)
      as [minus r1] eqn:Er1.
    assert (Hr1 : String.length r1 <= String.length r).
    { destruct (expect "-" r) eqn:E1; [injection Er1 as _ <-; apply expect_length in E1; lia|].
      destruct (expect "+" r) eqn:E2; injection Er1 as _ <-;
        [apply expect_length in E2|]; lia. }
    destruct (span isDigit r1) as [ds s3] eqn:Eds. apply span_length in Eds.
    destruct (isEmpty ds); [discriminate|]. injection H as _ <-. lia.
  - injection H as _ <-. lia.
Qed.

Lemma parseScalar_length (s : string) (v : json) (rest : string) :
  parseScalar s = Some (v, rest) -> String.length rest < String.length s.
Proof.
  unfold parseScalar. intros H.
  destruct (expect "034" s) as [r|] eqn:E0.
  { apply expect_length in E0.
    destruct (parseString r) as [[t r']|] eqn:E; [|discriminate].
    injection H as _ <-. apply parseString_length in E. lia. }
  destruct (stripPrefix "true" s) eqn:E1;
    [injection H as _ <-; apply stripPrefix_length in E1; simpl in E1; lia|].
  destruct (stripPrefix "false" s) eqn:E2;
    [injection H as _ <-; apply stripPrefix_length in E2; simpl in E2; lia|].
  destruct (stripPrefix "null" s) eqn:E3;
    [injection H as _ <-; apply stripPrefix_length in E3; simpl in E3; lia|].
  now apply parseNumber_length in H.
Qed.

(** Every parser consumes: what follows the value is shorter than the
    text. *)
Lemma parse_consumes (fuel : nat) :
  (forall s v rest, parseValue fuel s = Some (v, rest) ->
                    String.length rest < String.length s)
  /\ (forall s vs rest, parseElements fuel s = Some (vs, rest) ->
                        String.length rest < String.length s)
  /\ (forall s ms rest, parseMembers fuel s = Some (ms, rest) ->
                        String.length rest < String.length s).
Proof.
  induction fuel as [|fuel [IHv [IHe IHm]]]; [repeat split; discriminate|].
  repeat split; intros s x rest H; cbn [parseValue parseElements parseMembers] in H.
  - assert (Hw := skipWs_length s).
    destruct (expect "{" (skipWs s)) as [r|] eqn:E1.
    { apply expect_length in E1. assert (Hr := skipWs_length r).
      destruct (expect "}" (skipWs r)) as [r'|] eqn:E2.
      - apply expect_length in E2. injection H as _ <-. lia.
      - destruct (parseMembers fuel r) as [[ms r']|] eqn:E3; [|discriminate].
        injection H as _ <-. apply IHm in E3. lia. }
    destruct (expect "[" (skipWs s)) as [r|] eqn:E2.
    { apply expect_length in E2. assert (Hr := skipWs_length r).
      destruct (expect "]" (skipWs r)) as [r'|] eqn:E3.
      - apply expect_length in E3. injection H as _ <-. lia.
      - destruct (parseElements fuel r) as [[vs r']|] eqn:E4; [|discriminate].
        injection H as _ <-. apply IHe in E4. lia. }
    apply parseScalar_length in H. lia.
  - destruct (parseValue fuel s) as [[v r]|] eqn:E1; [|discriminate].
    apply IHv in E1. assert (Hr := skipWs_length r).
    destruct (expect "," (skipWs r)) as [r'|] eqn:E2.
    + apply expect_length in E2.
      destruct (parseElements fuel r') as [[vs r'']|] eqn:E3; [|discriminate].
      injection H as _ <-. apply IHe in E3. lia.
    + destruct (expect "]" (skipWs r)) as [r'|] eqn:E3; [|discriminate].
      apply expect_length in E3. injection H as _ <-. lia.
  - assert (Hw := skipWs_length s).
    destruct (expect "034" (skipWs s)) as [r|] eqn:E1; [|discriminate].
    apply expect_length in E1.
    destruct (parseString r) as [[k r1]|] eqn:E2; [|discriminate].
    apply parseString_length in E2. assert (Hr1 := skipWs_length r1).
    destruct (expect ":" (skipWs r1)) as [r2|] eqn:E3; [|discriminate].
    apply expect_length in E3.
    destruct (parseValue fuel r2) as [[v r3]|] eqn:E4; [|discriminate].
    apply IHv in E4. assert (Hr3 := skipWs_length r3).
    destruct (expect "," (skipWs r3)) as [r4|] eqn:E5.
    + apply expect_length in E5.
      destruct (parseMembers fuel r4) as [[ms r5]|] eqn:E6; [|discriminate].
      injection H as _ <-. apply IHm in E6. lia.
    + destruct (expect "}" (skipWs r3)) as [r4|] eqn:E6; [|discriminate].
      apply expect_length in E6. injection H as _ <-. lia.
Qed.

(** A parse found with some fuel is found with the fuel of [fuelFor]. *)
Lemma parse_fuel (fuel : nat) :
  (forall s r g, parseValue fuel s = Some r ->
                 2 * String.length s + 1 <= g -> parseValue g s = Some r)
  /\ (forall s r g, parseElements fuel s = Some r ->
                    2 * String.length s + 2 <= g -> parseElements g s = Some r)
  /\ (forall s r g, parseMembers fuel s = Some r ->
                    2 * String.length s + 2 <= g -> parseMembers g s = Some r).
Proof.
  induction fuel as [|fuel [IHv [IHe IHm]]]; [repeat split; discriminate|].
  destruct (parse_consumes fuel) as [Cv [Ce Cm]].
  repeat split; intros s x g H Hg; (destruct g as [|g]; [lia|]);
    cbn [parseValue parseElements parseMembers] in H |- *.
  - assert (Hw := skipWs_length s).
    destruct (expect "{" (skipWs s)) as [r|] eqn:E1.
    { apply expect_length in E1.
      destruct (expect "}" (skipWs r)) as [r'|]; [exact H|].
      destruct (parseMembers fuel r) as [[ms r']|] eqn:E3; [|discriminate].
      rewrite (IHm _ _ g E3) by lia. exact H. }
    destruct (expect "[" (skipWs s)) as [r|] eqn:E2; [|exact H].
    apply expect_length in E2.
    destruct (expect "]" (skipWs r)) as [r'|]; [exact H|].
    destruct (parseElements fuel r) as [[vs r']|] eqn:E4; [|discriminate].
    rewrite (IHe _ _ g E4) by lia. exact H.
  - destruct (parseValue fuel s) as [[v r]|] eqn:E1; [|discriminate].
    rewrite (IHv _ _ g E1) by lia. apply Cv in E1.
    assert (Hr := skipWs_length r).
    destruct (expect "," (skipWs r)) as [r'|] eqn:E2; [|exact H].
    apply expect_length in E2.
    destruct (parseElements fuel r') as [[vs r'']|] eqn:E3; [|discriminate].
    rewrite (IHe _ _ g E3) by lia. exact H.
  - assert (Hw := skipWs_length s).
    destruct (expect "034" (skipWs s)) as [r|] eqn:E1; [|discriminate].
    apply expect_length in E1.
    destruct (parseString r) as [[k r1]|] eqn:E2; [|discriminate].
    apply parseString_length in E2. assert (Hr1 := skipWs_length r1).
    destruct (expect ":" (skipWs r1)) as [r2|] eqn:E3; [|discriminate].
    apply expect_length in E3.
    destruct (parseValue fuel r2) as [[v r3]|] eqn:E4; [|discriminate].
    rewrite (IHv _ _ g E4) by lia. apply Cv in E4.
    assert (Hr3 := skipWs_length r3).
    destruct (expect "," (skipWs r3)) as [r4|] eqn:E5; [|exact H].
    apply expect_length in E5.
    destruct (parseMembers fuel r4) as [[ms r5]|] eqn:E6; [|discriminate].
    rewrite (IHm _ _ g E6) by lia. exact H.
Qed.

(** [parse] misses no value for want of fuel: a text that parses with some
    fuel, up to white space at its end, parses; so [None] is a syntax
    error. *)
Lemma parse_fuel_enough (text : string) (fuel : nat) (v : json) (rest : string) :
  parseValue fuel text = Some (v, rest) ->
  isEmpty (skipWs rest) = true ->
  parse text = Some v.
Proof.
  intros H Hrest. unfold parse, fuelFor.
  rewrite (proj1 (parse_fuel fuel) _ _ (2 * String.length text + 2) H) by lia.
  now rewrite Hrest.
Qed.

End JsonFacts.

(** ** The JSON extraction *)

Section ExtractionFacts.
Import Spec Route.

Lemma append_assoc (a b c : string) : (a +++ b) +++ c = a +++ b +++ c.
Proof. induction a as [|x a IH]; simpl; [reflexivity|now rewrite IH]. Qed.

Lemma append_empty (a : string) : a +++ "" = a.
Proof. induction a as [|x a IH]; simpl; [reflexivity|now rewrite IH]. Qed.

Lemma all_app (f : ascii -> bool) (a b : string) :
  all f (a +++ b) = all f a && all f b.
Proof.
  induction a as [|x a IH]; simpl; [reflexivity|].
  rewrite IH. apply andb_assoc.
Qed.

Lemma trimEnd_head (c : ascii) (r : string) :
  isSpace c = false -> exists r', trimEnd (String c r) = String c r'.
Proof.
  intros Hc. simpl. destruct (trimEnd r); rewrite ?Hc; eexists; reflexivity.
Qed.

Lemma trimStart_blank (s : string) : all isSpace s = true -> trimStart s = "".
Proof.
  induction s as [|c s IH]; simpl; [reflexivity|].
  destruct (isSpace c); simpl; [exact IH|discriminate].
Qed.

Lemma trimStart_text (s : string) :
  all isSpace s = false ->
  exists c r, trimStart s = String c r /\ isSpace c = false.
Proof.
  induction s as [|c s IH]; simpl; [discriminate|].
  destruct (isSpace c) eqn:Hc; simpl; [exact IH|].
  intros _. now exists c, s.
Qed.

(** A string trims to nothing exactly when it is all white space. *)
Lemma isEmpty_trim (s : string) : isEmpty (trim s) = all isSpace s.
Proof.
  unfold trim. destruct (all isSpace s) eqn:E.
  - now rewrite trimStart_blank.
  - destruct (trimStart_text s E) as [c [r [-> Hc]]].
    destruct (trimEnd_head c r Hc) as [r' ->]. reflexivity.
Qed.

Lemma trimStart_app (noise : string) (c : ascii) (r : string) :
  isSpace c = false ->
  trimStart (noise +++ String c r) = trimStart noise +++ String c r.
Proof.
  intros Hc. induction noise as [|x noise IH]; simpl.
  - now rewrite Hc.
  - destruct (isSpace x); [exact IH|reflexivity].
Qed.

Lemma trimStart_all (f : ascii -> bool) (s : string) :
  all f s = true -> all f (trimStart s) = true.
Proof.
  induction s as [|c s IH]; simpl; [reflexivity|].
  intros H. apply andb_true_iff in H as [Hc Hs].
  destruct (isSpace c); [apply IH, Hs|]. simpl. now rewrite Hc, Hs.
Qed.

Lemma search_app (n : string) (c : ascii) (r : string) :
  all (fun x => negb (isOpening x)) n = true ->
  isOpening c = true ->
  search isOpening (n +++ String c r) = Some (String.length n).
Proof.
  intros Hn Hc. induction n as [|x n IH]; simpl.
  - now rewrite Hc.
  - simpl in Hn. apply andb_true_iff in Hn as [Hx Hn].
    apply negb_true_iff in Hx. now rewrite Hx, IH.
Qed.

Lemma slice_app (n s : string) : slice (String.length n) (n +++ s) = s.
Proof. induction n as [|x n IH]; simpl; [now destruct s|exact IH]. Qed.

Lemma isOpening_not_space (c : ascii) : isOpening c = true -> isSpace c = false.
Proof.
  unfold isOpening. intros H. apply orb_true_iff in H as [H|H];
    apply Ascii.eqb_eq in H; subst c; reflexivity.
Qed.

(** The route's adapter skips noise before the first bracket or brace and
    parses all that follows it. *)
Lemma runOpenClawJson_leading_noise (noise : string) (c : ascii) (r : string) :
  all (fun x => negb (isOpening x)) noise = true ->
  isOpening c = true ->
  runOpenClawJson (ExecOk (noise +++ String c r)) = Json.parse (trimEnd (String c r)).
Proof.
  intros Hn Hc. assert (Hs := isOpening_not_space c Hc).
  unfold runOpenClawJson, trim. rewrite trimStart_app by exact Hs.
  destruct (trimEnd_head c r Hs) as [r' E].
  rewrite trimEnd_app_nonblank by (rewrite E; discriminate).
  rewrite E, search_app by auto using trimStart_all.
  now rewrite slice_app.
Qed.

Lemma opensJson_text (line : string) :
  opensJson line = true -> all isSpace line = false.
Proof.
  unfold opensJson. rewrite <- isEmpty_trim.
  destruct (trim line); [discriminate|reflexivity].
Qed.

Lemma scan_skips (pre rest : list string) :
  (forall l, In l pre -> opensJson l = false) ->
  Generate.scan (pre ++ rest) "" false 0 = Generate.scan rest "" false 0.
Proof.
  induction pre as [|l pre IH]; intros H; [reflexivity|].
  cbn [Datatypes.app Generate.scan negb andb].
  fold (opensJson l). rewrite (H l) by (now left).
  apply IH. intros l' Hl'. apply H. now right.
Qed.

(** Once inside the JSON text, the loop gathers the lines up to the one at
    whose end the depth is zero. *)
Lemma scan_gathers (body post : list string) (jsonStr : string) (depth : Z) :
  closesAtEnd body depth = true ->
  all isSpace (jsonStr +++ hd "" body) = false ->
  Generate.scan (body ++ post) jsonStr true depth = jsonStr +++ textOfLines body.
Proof.
  revert jsonStr depth; induction body as [|line body IH]; intros jsonStr depth Hc Ht;
    [discriminate|].
  cbn [Datatypes.app Generate.scan negb andb hd] in *.
  assert (Htext : (0 <? String.length (trim (jsonStr +++ line +++ String "010" "")))%nat
                  = true).
  { apply Nat.ltb_lt.
    assert (E : all isSpace (jsonStr +++ line +++ String "010" "") = false)
      by (rewrite <- append_assoc, all_app, Ht; reflexivity).
    rewrite <- isEmpty_trim in E.
    destruct (trim (jsonStr +++ line +++ String "010" "")); [discriminate|simpl; lia]. }
  rewrite Htext, andb_true_r.
  cbn [closesAtEnd] in Hc. destruct body as [|line' body].
  - rewrite Hc. cbn [textOfLines]. now rewrite append_empty.
  - apply andb_true_iff in Hc as [Hd Hc]. apply negb_true_iff in Hd. rewrite Hd.
    rewrite (IH (jsonStr +++ line +++ String "010" "") _ Hc).
    + cbn [textOfLines]. now rewrite !append_assoc.
    + cbn [hd]. rewrite all_app, <- append_assoc, all_app, Ht. reflexivity.
Qed.

Lemma scan_opens (first : string) (lines : list string) :
  opensJson first = true ->
  Generate.scan (first :: lines) "" false 0 = Generate.scan (first :: lines) "" true 0.
Proof.
  intros H. cbn [Generate.scan negb andb]. fold (opensJson first). now rewrite H.
Qed.

(** The script's [runCommand] parses the lines from the first one that
    opens the JSON text to the one that closes it, whatever comes before
    and after. *)
Lemma runCommand_lines (output : string) (pre body post : list string) :
  split "010" (trim output) = pre ++ body ++ post ->
  (forall l, In l pre -> opensJson l = false) ->
  opensJson (hd "" body) = true ->
  closesAtEnd body 0 = true ->
  Generate.runCommand (ExecOk output) = Json.parse (textOfLines body).
Proof.
  intros Hsplit Hpre Hopen Hclose. unfold Generate.runCommand.
  rewrite Hsplit, scan_skips by exact Hpre.
  destruct body as [|first body]; [discriminate|]. cbn [hd] in Hopen.
  cbn [Datatypes.app]. rewrite scan_opens by exact Hopen.
  change (first :: body ++ post) with ((first :: body) ++ post).
  rewrite scan_gathers; [|exact Hclose|cbn; now apply opensJson_text].
  cbn [String.append].
  assert (E : isEmpty (trim (textOfLines (first :: body))) = false).
  { rewrite isEmpty_trim. cbn [textOfLines].
    now rewrite all_app, (opensJson_text first Hopen). }
  now rewrite E.
Qed.

Lemma scan_nothing (lines : list string) :
  (forall l, In l lines -> opensJson l = false) ->
  Generate.scan lines "" false 0 = "".
Proof.
  intros H. rewrite <- (app_nil_r lines), scan_skips by exact H. reflexivity.
Qed.

End ExtractionFacts.

Section ExtractionClaims.
Import Spec Route.

(** C3, as claimed, fails.  The route's adapter tracks no depth: it parses
    all that follows the first brace, so a noise line after the value makes
    the result [null], where the balanced text parses.  The script's
    [runCommand] looks for a line that starts with a bracket or brace, not
    for the first one in the output. *)
Lemma extraction_not_by_depth :
  let noisy := "{}" +++ String "010" "done" in
  let inline := "log {" +++ String "010" "}" in
  runOpenClawJson (ExecOk noisy) = None
  /\ claimedExtraction noisy = Some (JObject [])
  /\ runOpenClawJson (ExecOk "{}") = Some (JObject [])
  /\ Generate.runCommand (ExecOk inline) = None
  /\ claimedExtraction inline = Some (JObject []).
Proof. cbv zeta. repeat split; vm_compute; reflexivity. Qed.

(** C3, amended.  The route's adapter returns [null] when the call fails
    and when the trimmed output holds no bracket or brace; else it parses
    the output from the first bracket or brace to its end, so the text
    before it does not affect the result, and the result is [null] when
    that text does not parse (as when noise follows the value).  The
    script's [runCommand] returns [null] when the command fails and when no
    line, trimmed, starts with a bracket or brace; else it parses the lines
    from the first such line to the first line at whose end the depth is
    back to zero, so the lines before and after them do not affect the
    result. *)
Theorem json_extraction_policy :
  runOpenClawJson ExecFailed = None
  /\ (forall stdout,
        search isOpening (trim stdout) = None ->
        runOpenClawJson (ExecOk stdout) = None)
  /\ (forall stdout start,
        search isOpening (trim stdout) = Some start ->
        runOpenClawJson (ExecOk stdout) = Json.parse (slice start (trim stdout)))
  /\ (forall noise c r,
        all (fun x => negb (isOpening x)) noise = true ->
        isOpening c = true ->
        runOpenClawJson (ExecOk (noise +++ String c r))
        = Json.parse (trimEnd (String c r)))
  /\ Generate.runCommand ExecFailed = None
  /\ (forall output,
        (forall l, In l (split "010" (trim output)) -> opensJson l = false) ->
        Generate.runCommand (ExecOk output) = None)
  /\ (forall output pre body post,
        split "010" (trim output) = pre ++ body ++ post ->
        (forall l, In l pre -> opensJson l = false) ->
        opensJson (hd "" body) = true ->
        closesAtEnd body 0 = true ->
        Generate.runCommand (ExecOk output) = Json.parse (textOfLines body)).
Proof.
  repeat split.
  - intros stdout H. unfold runOpenClawJson. now rewrite H.
  - intros stdout start H. unfold runOpenClawJson. now rewrite H.
  - exact runOpenClawJson_leading_noise.
  - intros output H. unfold Generate.runCommand. now rewrite scan_nothing.
  - exact runCommand_lines.
Qed.

Lemma json_extraction_policy_witness :
  let nl := String "010" "" in
  runOpenClawJson (ExecOk ("warning: slow" +++ nl +++ quoted "{'jobs':[]}" +++ nl))
  = Some (JObject [("jobs", JArray [])])
  /\ Generate.runCommand
       (ExecOk ("warning: slow" +++ nl +++ "{" +++ nl +++ quoted "'jobs':[]" +++ nl
                +++ "}" +++ nl +++ "done in 3s" +++ nl))
     = Some (JObject [("jobs", JArray [])]).
Proof.
  intros nl.
  destruct json_extraction_policy as [_ [_ [_ [Hroute [_ [_ Hscript]]]]]].
  split.
  - refine (eq_trans
              (Hroute ("warning: slow" +++ nl) "{"%char (quoted "'jobs':[]}" +++ nl) _ _)
              _); vm_compute; reflexivity.
  - refine (eq_trans
              (Hscript _ ["warning: slow"] ["{"; quoted "'jobs':[]"; "}"] ["done in 3s"]
                       _ _ _ _)
              _); try (vm_compute; reflexivity).
    intros l [<-|[]]. vm_compute. reflexivity.
Defined.

End ExtractionClaims.

(** * Further properties *)

(** ** The report parser: order, bounds and what it drops *)

Section ParserExtras.
Import Spec Extra Parser.

Lemma insert_sorted (a : Horse.t) (l : list Horse.t) :
  Sorted timeDescending l -> Sorted timeDescending (insert a l).
Proof.
  induction 1 as [|b l Hl IH Hb]; simpl.
  - repeat constructor.
  - destruct (notAfter a b) eqn:E.
    + constructor; [now constructor|]. constructor. exact E.
    + constructor; [exact IH|].
      assert (Hba : timeDescending b a).
      { unfold timeDescending, notAfter, String.leb in *.
        rewrite String.compare_antisym.
        destruct (String.compare (timeOf b) (timeOf a)); try discriminate. reflexivity. }
      destruct l as [|c l]; simpl.
      * constructor. exact Hba.
      * destruct (notAfter a c); constructor; [exact Hba|].
        now inversion Hb.
Qed.

Lemma sort_sorted (l : list Horse.t) : Sorted timeDescending (sort l).
Proof.
  induction l as [|a l IH]; simpl; [constructor|]. now apply insert_sorted.
Qed.

Lemma Sorted_firstn {X : Type} (R : X -> X -> Prop) (n : nat) (l : list X) :
  Sorted R l -> Sorted R (firstn n l).
Proof.
  intros H; revert n; induction H as [|a l Hl IH Ha]; intros n.
  - rewrite firstn_nil. constructor.
  - destruct n as [|n]; simpl; [constructor|].
    constructor; [apply IH|].
    destruct Ha as [|b l' Hab]; destruct n; simpl; constructor. exact Hab.
Qed.

(** X1.  The parser returns at most two records, ordered by their time
    token (HH:MM, [00:00] when the race has none), the later first. *)
Theorem parser_output_ordered (content : string) :
  List.length (parseB2LHorses content) <= 2
  /\ Sorted timeDescending (parseB2LHorses content)
  /\ Sorted timeDescending (sort (collect content)).
Proof.
  unfold parseB2LHorses. split; [apply firstn_le_length|].
  split; [apply Sorted_firstn|]; apply sort_sorted.
Qed.

End ParserExtras.

Section ParserLines.
Import Spec Extra Parser.

Lemma step_unmatched (st : State) (line : string) :
  unmatched line -> step st line = st.
Proof. intros [Hd He]. unfold step. now rewrite Hd, He. Qed.

(** A line without a line terminator is one line of the text it stands
    in. *)
Lemma splitLines_line (line rest : string) :
  all inLine line = true ->
  splitLines (line +++ String "010" rest) = line :: splitLines rest.
Proof.
  induction line as [|c line IH]; intros H; [reflexivity|].
  simpl in H. apply andb_true_iff in H as [Hc Hl].
  unfold inLine in Hc. apply andb_true_iff in Hc as [Hn Hr].
  apply negb_true_iff in Hn, Hr.
  change ((String c line) +++ String "010" rest)
    with (String c (line +++ String "010" rest)).
  cbn [splitLines]. rewrite Hn, Hr. cbn [andb].
  rewrite (IH Hl).
  destruct (line +++ String "010" rest) eqn:E; [|reflexivity].
  destruct line; discriminate.
Qed.

(** The lines of a text up to a line feed do not depend on what follows
    it. *)
Lemma splitLines_before (n : nat) :
  forall before,
    String.length before <= n ->
    exists w ws, forall rest,
      splitLines (before +++ String "010" rest) = (w :: ws) ++ splitLines rest.
Proof.
  induction n as [|n IH]; intros before Hn.
  - destruct before; [|simpl in Hn; lia]. exists "", []. reflexivity.
  - destruct before as [|c before]; [exists "", []; reflexivity|].
    simpl in Hn.
    destruct (Ascii.eqb c "010") eqn:Ec.
    + destruct (IH before ltac:(lia)) as [w [ws H]].
      exists "", (w :: ws). intros rest. cbn [String.append splitLines].
      rewrite Ec, H. reflexivity.
    + destruct before as [|c' before'].
      * destruct (Ascii.eqb c "013") eqn:Er.
        -- exists "", []. intros rest. cbn [String.append splitLines].
           rewrite Ec, Er. reflexivity.
        -- exists (String c ""), []. intros rest. cbn [String.append splitLines].
           rewrite Ec, Er. reflexivity.
      * destruct (Ascii.eqb c "013" && Ascii.eqb c' "010") eqn:Ecr.
        -- simpl in Hn. destruct (IH before' ltac:(lia)) as [w [ws H]].
           exists "", (w :: ws). intros rest. cbn [String.append splitLines].
           rewrite Ec, Ecr, H. reflexivity.
        -- destruct (IH (String c' before') ltac:(lia)) as [w [ws H]].
           exists (String c w), ws. intros rest.
           change (String c (String c' before') +++ String "010" rest)
             with (String c (String c' before' +++ String "010" rest)).
           cbn [splitLines]. rewrite Ec.
           change (String c' before' +++ String "010" rest)
             with (String c' (before' +++ String "010" rest)) at 1.
           cbv iota. rewrite Ecr.
           change (String c' (before' +++ String "010" rest))
             with (String c' before' +++ String "010" rest).
           rewrite H. reflexivity.
Qed.

(** X2.  A line that is neither a date heading nor an entry is dropped
    without a trace: the report parses as it does without that line. *)
Theorem unmatched_line_ignored (before line after : string) :
  all inLine line = true ->
  unmatched line ->
  parseB2LHorses (before +++ String "010" (line +++ String "010" after))
  = parseB2LHorses (before +++ String "010" after).
Proof.
  intros Hline Hun. unfold parseB2LHorses, collect.
  destruct (splitLines_before _ before (le_n _)) as [w [ws H]].
  rewrite !H, splitLines_line by exact Hline.
  rewrite !fold_left_app. cbn [fold_left].
  now rewrite step_unmatched.
Qed.

Lemma unmatched_line_ignored_witness :
  parseB2LHorses
    ("## 2026-02-10" +++ String "010"
       ("Notes: going is soft" +++ String "010"
          "- **14:30 Ascot** - *Red Rum* - priced at 3.5"))
  = parseB2LHorses
      ("## 2026-02-10" +++ String "010"
         "- **14:30 Ascot** - *Red Rum* - priced at 3.5").
Proof.
  apply (unmatched_line_ignored "## 2026-02-10" "Notes: going is soft").
  - reflexivity.
  - split; reflexivity.
Defined.

(** What the loop keeps when no line carries the target date: no horse,
    and a current date that is not the target. *)
Lemma fold_without_today (lines : list string) (st : State) :
  (forall l, In l lines -> mentionsToday l = false) ->
  horses st = [] ->
  String.eqb (currentDate st) todayDate = false ->
  horses (fold_left step lines st) = [].
Proof.
  revert st; induction lines as [|line lines IH]; intros st H Hh Hc; [exact Hh|].
  cbn [fold_left]. assert (Hl := H line (or_introl eq_refl)).
  apply IH; [intros l Hin; apply H; now right| |];
    unfold step; unfold mentionsToday in Hl;
    destruct (dateMatch line) as [d|]; try assumption;
    destruct (entryMatch (normalize line)) as [[[race0 name] rest]|]; try assumption;
    unfold effective;
    destruct (raceDateMatch race0) as [[d r]|];
    try (rewrite Hl; cbn [negb]; assumption);
    rewrite Hc; cbn [negb]; assumption.
Qed.

(** X3.  A report in which no line carries the target date, as a heading or
    inline in an entry, yields no record. *)
Theorem no_target_date_no_record (content : string) :
  (forall l, In l (splitLines content) -> mentionsToday l = false) ->
  parseB2LHorses content = [].
Proof.
  intros H. unfold parseB2LHorses, collect.
  now rewrite fold_without_today.
Qed.

Lemma no_target_date_no_record_witness :
  parseB2LHorses
    ("## 2026-02-09" +++ String "010"
       ("- **14:30 Ascot** - *Red Rum* - priced at 3.5" +++ String "010"
          "- **2026-02-11 15:00 York** - *Arkle* - priced at 2.0"))
  = [].
Proof.
  apply no_target_date_no_record.
  intros l H. vm_compute in H.
  destruct H as [<-|[<-|[<-|[]]]]; reflexivity.
Defined.

End ParserLines.

Section ParserFields.
Import Spec Extra Parser.

Lemma stripPrefixCI_length (p s m rest : string) :
  stripPrefixCI p s = Some (m, rest) -> String.length m = String.length p.
Proof.
  revert s m rest; induction p as [|a p IH]; intros s m rest; simpl.
  - now intros [= <- _].
  - destruct s as [|b s]; [discriminate|].
    destruct (Ascii.eqb (lowerChar a) (lowerChar b)); [|discriminate].
    destruct (stripPrefixCI p s) as [[m' r']|] eqn:E; [|discriminate].
    intros [= <- _]. simpl. now rewrite (IH _ _ _ E).
Qed.

Lemma valueAt_text (s v : string) : valueAt s = Some v -> v <> "".
Proof.
  unfold valueAt. destruct (span isDigit s) as [ds s1].
  destruct ds as [|d ds]; cbn [isEmpty negb].
  - destruct (stripPrefixCI "n/a" s) as [[m r]|] eqn:E; [|discriminate].
    intros [= <-]. apply stripPrefixCI_length in E. now destruct m.
  - destruct s1 as [|c s2]; [now intros [= <-]|].
    destruct (Ascii.eqb c ".") eqn:Ec;
      [apply Ascii.eqb_eq in Ec; subst c|].
    + destruct (isEmpty (fst (span isDigit s2))); now intros [= <-].
    + assert (H : forall X (a b : X),
                match c with
                | "."%char => a
                | _ => b
                end = b).
      { intros X a b.
        destruct c as [[] [] [] [] [] [] [] []]; try reflexivity; discriminate. }
      rewrite H. now intros [= <-].
Qed.

Lemma valueMatch_text (rest v : string) : valueMatch rest = Some v -> v <> "".
Proof.
  induction rest as [|c rest IH]; cbn [valueMatch].
  - destruct (valueHere "") eqn:E; [|discriminate]. intros [= <-].
    vm_compute in E. discriminate.
  - destruct (valueHere (String c rest)) as [v'|] eqn:E; [|exact IH].
    intros [= <-]. unfold valueHere in E.
    destruct (stripPrefixCI "priced" (String c rest)) as [[m s1]|]; [|discriminate].
    unfold spacedValue in E.
    destruct (span isSpace s1) as [ws s2].
    destruct (isEmpty ws); [discriminate|].
    destruct (stripPrefixCI "at" s2) as [[m' s3]|].
    + destruct (span isSpace s3) as [ws' s4].
      destruct (isEmpty ws').
      * now apply valueAt_text in E.
      * destruct (valueAt s4) eqn:E4.
        -- injection E as <-. now apply valueAt_text in E4.
        -- now apply valueAt_text in E.
    + now apply valueAt_text in E.
Qed.

Lemma candidates_shape (lines : list string) (cur : string) (h : Horse.t) :
  In h (candidatesFrom cur lines) ->
  exists name race rest,
    h = horseOf name race rest todayDate /\ isEmpty (trim name) = false.
Proof.
  revert cur; induction lines as [|line lines IH]; intros cur; [intros []|].
  cbn [candidatesFrom].
  destruct (dateMatch line); [apply IH|].
  destruct (entryMatch (normalize line)) as [[[race0 name] rest]|]; [|apply IH].
  destruct (effective cur race0) as [entryDate race].
  destruct (String.eqb entryDate todayDate) eqn:Ed; [|apply IH].
  destruct (isEmpty (trim name)) eqn:En; [apply IH|].
  cbn [andb negb]. intros [<-|H]; [|now apply (IH cur)].
  apply String.eqb_eq in Ed. subst entryDate. now exists name, race, rest.
Qed.

(** X4.  No record of the parser has an empty field: the name is trimmed
    and not empty, the race holds the date, the value is a matched price or
    the sentinel [n/a], and the date is set. *)
Theorem parser_fields_filled (content : string) (h : Horse.t) :
  In h (parseB2LHorses content) ->
  Horse.name h <> ""
  /\ trimEnd (Horse.name h) = Horse.name h
  /\ Horse.race h <> ""
  /\ Horse.value h <> ""
  /\ Horse.date h <> None.
Proof.
  intros Hin. apply parse_In_collect in Hin.
  destruct (collect_invariant content) as [_ [Hfirst _]].
  apply Hfirst, firstOf_In in Hin.
  apply candidates_shape in Hin as [name [race [rest [-> Hname]]]].
  cbn [horseOf Horse.name Horse.race Horse.value Horse.date].
  split; [now destruct (trim name)|]. split; [apply trimEnd_trim|].
  split; [rewrite raceLabelOf_today; now destruct (isEmpty (trim race))|].
  split; [|discriminate].
  destruct (valueMatch rest) eqn:E; [now apply valueMatch_text in E|discriminate].
Qed.

Lemma parser_fields_filled_witness :
  Horse.value (Horse.mk "Red Rum" "2026-02-10 14:30 Ascot" "n/a" "no price yet"
                        (Some "2026-02-10")) <> "".
Proof.
  refine (proj1 (proj2 (proj2 (proj2 (parser_fields_filled
    ("## 2026-02-10" +++ String "010" "- **14:30 Ascot** - *Red Rum* - no price yet")
    _ _))))).
  vm_compute. left. reflexivity.
Defined.

End ParserFields.

(** ** The report reader *)

Section TradingExtras.
Import Spec Extra Route.

(** X5.  Whatever the report holds, the trading section built from it has
    at most two qualified horses, all the parser's records in order; so its
    daily status is Amber (one or two horses) or Red (none), never Green,
    matched and unmatched races add up to ten, and it is available exactly
    when it has a horse. *)
Theorem trading_section_bounds (content : string) :
  exists t,
    fetchB2LData (FileContent content) = Some t
    /\ Trading.qualifiedHorses t
       = map (fun h => Trading.Qualified.mk (Horse.name h) (Horse.race h)
                                            (Horse.value h) (Horse.note h))
             (Parser.parseB2LHorses content)
    /\ List.length (Trading.qualifiedHorses t) <= 2
    /\ (Trading.Status.dailyStatus (Trading.status t) = "Amber"
        /\ Trading.qualifiedHorses t <> []
        /\ Trading.availability t = "available"
        \/ Trading.Status.dailyStatus (Trading.status t) = "Red"
           /\ Trading.qualifiedHorses t = []
           /\ Trading.availability t = "unavailable")
    /\ Trading.Stats.matchedRaces (Trading.tradingStats t)
       + Trading.Stats.unmatched (Trading.tradingStats t) = 10
    /\ Trading.Stats.matchedRaces (Trading.tradingStats t)
       = List.length (Trading.qualifiedHorses t).
Proof.
  eexists. split; [reflexivity|].
  cbn [Trading.qualifiedHorses Trading.status Trading.Status.dailyStatus
       Trading.availability Trading.tradingStats Trading.Stats.matchedRaces
       Trading.Stats.unmatched].
  assert (Hlen : List.length (Parser.parseB2LHorses content) <= 2)
    by apply firstn_le_length.
  assert (Hsix : firstn 6 (Parser.parseB2LHorses content)
                 = Parser.parseB2LHorses content) by (apply firstn_all2; lia).
  rewrite Hsix, length_map.
  destruct (Parser.parseB2LHorses content) as [|a [|b [|c l]]];
    cbn in Hlen |- *; try lia; repeat split; try lia;
    try (left; repeat split; discriminate);
    right; repeat split.
Qed.

End TradingExtras.

(** ** The agent reconciler: sessions, groups and names *)

Section ReconcilerExtras.
Import Spec Extra Reconciler.

Lemma list_sum_pointwise {X : Type} (f g : X -> nat) (l : list X) :
  (forall x, In x l -> f x = g x) -> list_sum (map f l) = list_sum (map g l).
Proof.
  induction l as [|x l IH]; simpl; intros H; [reflexivity|].
  rewrite (H x), IH by auto. reflexivity.
Qed.

Lemma list_sum_plus {X : Type} (f g : X -> nat) (l : list X) :
  list_sum (map (fun x => f x + g x) l) = list_sum (map f l) + list_sum (map g l).
Proof. induction l as [|x l IH]; simpl; lia. Qed.

Lemma length_filter_sum {X : Type} (p : X -> bool) (l : list X) :
  List.length (filter p l) = list_sum (map (fun x => if p x then 1 else 0) l).
Proof. induction l as [|x l IH]; simpl; [reflexivity|]. destruct (p x); simpl; lia. Qed.

Lemma primary_sessions (S : list OpenClawSession.t) (A : list OpenClawAgent.t) :
  list_sum (map Agent.sessions (map (primaryRecord S) A))
  = list_sum (map (fun s => List.length (filter (fun a => primaryRule a s) A)) S).
Proof.
  induction A as [|a A IH]; simpl.
  - induction S as [|s S IHS]; simpl; auto.
  - rewrite IH, length_filter_sum, <- list_sum_plus.
    apply list_sum_pointwise; intros s _.
    unfold primaryRule. destruct (ownedBy (prefixOf a) s); reflexivity.
Qed.

Lemma bump_group_sessions (m : GroupMap) (k : string) (n : float) :
  has m k = true -> groupSessions (bump m k n) = groupSessions m + 1.
Proof.
  unfold groupSessions.
  induction m as [|[k' g] m IH]; simpl; intros H; [discriminate|].
  destruct (String.eqb k' k); simpl in *; [lia|].
  rewrite IH by assumption. lia.
Qed.

Lemma discover_group_sessions (S : list OpenClawSession.t) (m : GroupMap) :
  groupSessions (fold_left discoverStep S m)
  = groupSessions m + list_sum (map (fun s => if secondaryRule s then 1 else 0) S).
Proof.
  revert m; induction S as [|s S IH]; intros m; simpl; [lia|].
  rewrite IH. unfold discoverStep, secondaryRule.
  destruct (subagentMatch _) as [k|]; [|lia].
  destruct (has m k) eqn:Hk; simpl.
  - rewrite bump_group_sessions by exact Hk. lia.
  - unfold groupSessions. rewrite map_app, list_sum_app. simpl. lia.
Qed.

Lemma activeRecords_sessions (D : list string) (groups : GroupMap) (i : nat) :
  list_sum (map Agent.sessions (activeRecords D i groups)) = groupSessions groups.
Proof.
  unfold groupSessions.
  revert i; induction groups as [|[k g] groups IH]; intros i; simpl; auto.
Qed.

(** X6.  The session counts of the reconciled records add up to the number
    of times the rules claim a session: once for each agent whose prefix
    the session's key has, and once more if the key matches the secondary
    pattern.  The idle records add nothing. *)
Theorem reconcile_session_counts (A : list OpenClawAgent.t)
    (S : list OpenClawSession.t) (D : list string) (out : list Agent.t) :
  reconcile A S D = Some out ->
  list_sum (map Agent.sessions out) = list_sum (map (claims A) S).
Proof.
  destruct A as [|a A]; [discriminate|].
  remember (a :: A) as A' eqn:EA.
  rewrite reconcile_some by (rewrite EA; discriminate). intros H; injection H as <-.
  rewrite map_app, list_sum_app, primary_sessions.
  unfold subagents, idleRecords. rewrite map_app, list_sum_app, activeRecords_sessions.
  unfold discover. rewrite discover_group_sessions.
  assert (Hidle : forall l, list_sum (map Agent.sessions (map idleRecord l)) = 0)
    by (induction l; simpl; auto).
  rewrite Hidle. unfold groupSessions. simpl.
  rewrite Nat.add_0_r, <- list_sum_plus. reflexivity.
Qed.

Lemma reconcile_session_counts_witness :
  list_sum
    (map Agent.sessions
       [primaryRecord
          [OpenClawSession.mk (Some "agent:main:s1") (Some 5%float) None None;
           OpenClawSession.mk (Some "agent:main:subagent:ab12") (Some 7%float) None None]
          (OpenClawAgent.mk (Some "main") None None);
        activeRecord "Sub-agent 1" (mkGroup defaultModel 1 7%float)])
  = 3.
Proof.
  exact (reconcile_session_counts
           [OpenClawAgent.mk (Some "main") None None]
           [OpenClawSession.mk (Some "agent:main:s1") (Some 5%float) None None;
            OpenClawSession.mk (Some "agent:main:subagent:ab12") (Some 7%float) None None]
           [] _ eq_refl).
Defined.

Lemma firstSeen_from (ids acc : list string) :
  NoDup acc ->
  let out := fold_left (fun acc k => if existsb (String.eqb k) acc then acc else acc ++ [k])
                       ids acc in
  NoDup out /\ (forall k, In k out <-> In k acc \/ In k ids).
Proof.
  revert acc; induction ids as [|id ids IH]; intros acc Hacc; cbn [fold_left].
  - split; [exact Hacc|]. intros k. simpl. tauto.
  - destruct (existsb (String.eqb id) acc) eqn:E.
    + destruct (IH acc Hacc) as [Hn Hin]. split; [exact Hn|].
      intros k. rewrite Hin. simpl.
      apply existsb_exists in E as [x [Hx Ex]]. apply String.eqb_eq in Ex. subst x.
      split; [tauto|]. intros [H|[<-|H]]; auto.
    + assert (Hnot : ~ In id acc).
      { intros Hin. assert (existsb (String.eqb id) acc = true)
          by (apply existsb_exists; exists id; split; [exact Hin|apply String.eqb_refl]).
        congruence. }
      destruct (IH (acc ++ [id])) as [Hn Hin].
      { apply NoDup_app; [exact Hacc|repeat constructor; auto|].
        intros y Hy [<-|[]]. contradiction. }
      split; [exact Hn|]. intros k. rewrite Hin, in_app_iff. simpl. tauto.
Qed.

Lemma In_somes {X : Type} (l : list (option X)) (x : X) :
  In x (somes l) <-> In (Some x) l.
Proof.
  induction l as [|[y|] l IH]; simpl; [tauto| |].
  - rewrite IH. split; intros [H|H]; auto; [left; congruence|left; congruence].
  - rewrite IH. split; [auto|]. intros [H|H]; [discriminate|exact H].
Qed.

(** X7.  The secondary pass keeps one group for each distinct identifier:
    no identifier has two groups, and an identifier has a group exactly
    when the key of some session matches the pattern with it. *)
Theorem discover_one_group_per_id (S : list OpenClawSession.t) :
  NoDup (map fst (discover S))
  /\ (forall k, In k (map fst (discover S))
                <-> exists s, In s S /\ secondaryId s = Some k).
Proof.
  rewrite discover_keys. unfold firstSeen.
  destruct (firstSeen_from (somes (map secondaryId S)) [] (NoDup_nil _)) as [Hn Hin].
  split; [exact Hn|]. intros k. rewrite Hin, In_somes, in_map_iff. simpl.
  split.
  - intros [[]|[s [E Hs]]]. now exists s.
  - intros [s [Hs E]]. right. now exists s.
Qed.

End ReconcilerExtras.

Section NameExtras.
Import Spec Extra Reconciler.

Lemma length_append (a b : string) :
  String.length (a +++ b) = String.length a + String.length b.
Proof. induction a as [|c a IH]; simpl; auto. Qed.

Lemma split_cons (sep : ascii) (s : string) : exists w ws, split sep s = w :: ws.
Proof.
  induction s as [|c s [w [ws IH]]]; simpl; [now exists "", []|].
  destruct (Ascii.eqb c sep); [now exists "", (split sep s)|].
  rewrite IH. now exists (String c w), ws.
Qed.

Lemma join_cons_char (c : ascii) (w : string) (ws : list string) :
  join " " (String c w :: ws) = String c (join " " (w :: ws)).
Proof. destruct ws; reflexivity. Qed.

Lemma join_split_length (s : string) :
  String.length (join " " (split "-" s)) = String.length s.
Proof.
  induction s as [|c s IH]; [reflexivity|]. cbn [split].
  destruct (split_cons "-" s) as [w [ws E]]. rewrite E in *.
  destruct (Ascii.eqb c "-").
  - change (join " " ("" :: w :: ws)) with (String " " (join " " (w :: ws))).
    cbn [String.length]. now rewrite IH.
  - rewrite join_cons_char. cbn [String.length]. now rewrite IH.
Qed.

Lemma capitalize_length (w : string) : String.length (capitalize w) = String.length w.
Proof. now destruct w. Qed.

Lemma join_capitalize_length (l : list string) :
  String.length (join " " (map capitalize l)) = String.length (join " " l).
Proof.
  induction l as [|w l IH]; [reflexivity|].
  destruct l as [|w' l]; [apply capitalize_length|].
  change (String.length (capitalize w +++ " " +++ join " " (map capitalize (w' :: l)))
          = String.length (w +++ " " +++ join " " (w' :: l))).
  rewrite !length_append, capitalize_length, IH. reflexivity.
Qed.

Lemma upperChar_noHyphen (c : ascii) : noHyphen c = true -> noHyphen (upperChar c) = true.
Proof.
  destruct c as [[] [] [] [] [] [] [] []]; intros H; try discriminate H;
    vm_compute; reflexivity.
Qed.

Lemma split_noHyphen (s : string) :
  Forall (fun w => all noHyphen w = true) (split "-" s).
Proof.
  induction s as [|c s IH]; cbn [split]; [repeat constructor|].
  destruct (Ascii.eqb c "-") eqn:E; [now constructor|].
  destruct (split "-" s) as [|w ws]; [repeat constructor; simpl; unfold noHyphen; now rewrite E|].
  inversion IH as [|? ? Hw Hws]; subst. constructor; [|exact Hws].
  simpl. unfold noHyphen at 1. now rewrite E, Hw.
Qed.

Lemma join_noHyphen (l : list string) :
  Forall (fun w => all noHyphen w = true) l -> all noHyphen (join " " l) = true.
Proof.
  induction 1 as [|w l Hw Hl IH]; [reflexivity|].
  destruct l as [|w' l]; [exact Hw|].
  change (all noHyphen (w +++ " " +++ join " " (w' :: l)) = true).
  rewrite !all_app, Hw, IH. reflexivity.
Qed.

Lemma upperChar_ascii (c : ascii) : isAscii c = true -> isAscii (upperChar c) = true.
Proof.
  destruct c as [[] [] [] [] [] [] [] []]; intros H; try discriminate H;
    vm_compute; reflexivity.
Qed.

Lemma split_ascii (s : string) :
  all isAscii s = true -> Forall (fun w => all isAscii w = true) (split "-" s).
Proof.
  induction s as [|c s IH]; cbn [split all]; [repeat constructor|].
  intros H. apply andb_true_iff in H as [Hc Hs]. specialize (IH Hs).
  destruct (Ascii.eqb c "-"); [now constructor|].
  destruct (split "-" s) as [|w ws]; [repeat constructor; simpl; now rewrite Hc|].
  inversion IH as [|? ? Hw Hws]; subst. constructor; [|exact Hws].
  simpl. now rewrite Hc, Hw.
Qed.

Lemma join_ascii (l : list string) :
  Forall (fun w => all isAscii w = true) l -> all isAscii (join " " l) = true.
Proof.
  induction 1 as [|w l Hw Hl IH]; [reflexivity|].
  destruct l as [|w' l]; [exact Hw|].
  change (all isAscii (w +++ " " +++ join " " (w' :: l)) = true).
  rewrite !all_app, Hw, IH. reflexivity.
Qed.

(** X8.  The display name of a folder whose name is of ASCII characters has
    the length of the folder name, no hyphen in it (each hyphen has become
    one space) and ASCII characters only. *)
Theorem displayName_shape (folderName : string) :
  all isAscii folderName = true ->
  String.length (displayName folderName) = String.length folderName
  /\ all noHyphen (displayName folderName) = true
  /\ all isAscii (displayName folderName) = true.
Proof.
  intros Hascii. unfold displayName. repeat split.
  - now rewrite join_capitalize_length, join_split_length.
  - apply join_noHyphen. apply Forall_forall. intros w Hw.
    apply in_map_iff in Hw as [v [<- Hv]].
    assert (H := split_noHyphen folderName). rewrite Forall_forall in H.
    specialize (H v Hv). destruct v as [|c v]; [reflexivity|].
    simpl in H |- *. apply andb_true_iff in H as [Hc Hv'].
    now rewrite upperChar_noHyphen, Hv'.
  - apply join_ascii. apply Forall_forall. intros w Hw.
    apply in_map_iff in Hw as [v [<- Hv]].
    assert (H := split_ascii folderName Hascii). rewrite Forall_forall in H.
    specialize (H v Hv). destruct v as [|c v]; [reflexivity|].
    simpl in H |- *. apply andb_true_iff in H as [Hc Hv'].
    now rewrite upperChar_ascii, Hv'.
Qed.

Lemma displayName_shape_witness :
  displayName "code-reviewer" = "Code Reviewer"
  /\ String.length (displayName "code-reviewer") = 13
  /\ all noHyphen (displayName "code-reviewer") = true
  /\ all isAscii (displayName "code-reviewer") = true.
Proof.
  split; [reflexivity|]. apply (displayName_shape "code-reviewer"). reflexivity.
Defined.

Lemma insertName_perm (a : string) (l : list string) :
  Permutation (Route.insertName a l) (a :: l).
Proof.
  induction l as [|b l IH]; simpl; [reflexivity|].
  destruct (String.leb a b); [reflexivity|]. rewrite IH. apply perm_swap.
Qed.

Lemma insertName_sorted (a : string) (l : list string) :
  Sorted (fun x y => String.leb x y = true) l ->
  Sorted (fun x y => String.leb x y = true) (Route.insertName a l).
Proof.
  induction 1 as [|b l Hl IH Hb]; simpl; [repeat constructor|].
  destruct (String.leb a b) eqn:E.
  - constructor; [now constructor|]. now constructor.
  - assert (Hba : String.leb b a = true)
      by (destruct (String.leb_total a b); congruence).
    constructor; [exact IH|].
    destruct l as [|c l]; simpl; [now constructor|].
    destruct (String.leb a c); constructor; [exact Hba|]. now inversion Hb.
Qed.

(** X9.  The list of known identities is the names of the directories of
    the agents folder, each as often as it is listed, in ascending order of
    their characters; entries that are not directories are left out, and a
    folder that cannot be read gives the empty list. *)
Theorem known_identities_sorted (entries : list Route.Dirent) :
  Sorted (fun x y => String.leb x y = true)
         (Route.getDefinedSubAgentsList (Returned entries))
  /\ Permutation (Route.getDefinedSubAgentsList (Returned entries))
                 (map Route.entryName (filter Route.isDirectory entries))
  /\ Route.getDefinedSubAgentsList Raised = [].
Proof.
  unfold Route.getDefinedSubAgentsList, Route.sortNames.
  induction (map Route.entryName (filter Route.isDirectory entries)) as [|a l [IHs [IHp _]]];
    simpl; [repeat split; constructor|].
  repeat split.
  - now apply insertName_sorted.
  - rewrite insertName_perm. now constructor.
Qed.

Lemma stripPrefix_app (p s r : string) : stripPrefix p s = Some r -> s = p +++ r.
Proof.
  revert s; induction p as [|a p IH]; intros s; simpl; [now intros [= ->]|].
  destruct s as [|b s]; [discriminate|].
  destruct (Ascii.eqb a b) eqn:E; [|discriminate].
  apply Ascii.eqb_eq in E. subst b. intros H. now rewrite (IH s H).
Qed.

Lemma span_app (f : ascii -> bool) (s a b : string) :
  span f s = (a, b) ->
  s = a +++ b /\ all f a = true
  /\ match b with String c _ => f c = false | EmptyString => True end.
Proof.
  revert a b; induction s as [|c s IH]; simpl; intros a b.
  - intros [= <- <-]. now repeat split.
  - destruct (f c) eqn:E.
    + destruct (span f s) as [a' b'] eqn:Es. intros [= <- <-].
      destruct (IH a' b' eq_refl) as [-> [Ha Hb]]. simpl. now rewrite E, Ha.
    + intros [= <- <-]. now repeat split.
Qed.

Lemma startsWith_app (p r : string) : startsWith (p +++ r) p = true.
Proof.
  unfold startsWith. induction p as [|c p IH]; simpl; [now destruct r|].
  destruct (ascii_dec c c); [exact IH|contradiction].
Qed.

(** X10.  The identifier the secondary pattern extracts from a key is not
    empty, is made of the characters a-f, 0-9 and the hyphen, stands in the
    key right after [agent:main:subagent:], and is the longest such run:
    what follows it in the key starts with another character. *)
Theorem subagentMatch_shape (key id : string) :
  subagentMatch key = Some id ->
  id <> ""
  /\ all isUuidChar id = true
  /\ exists rest,
       key = "agent:main:subagent:" +++ id +++ rest
       /\ startsWith key ("agent:main:subagent:" +++ id) = true
       /\ match rest with
          | String c _ => isUuidChar c = false
          | EmptyString => True
          end.
Proof.
  unfold subagentMatch.
  destruct (stripPrefix "agent:main:subagent:" key) as [r|] eqn:E; [|discriminate].
  apply stripPrefix_app in E.
  destruct (span isUuidChar r) as [a b] eqn:Es. cbn [fst].
  destruct (span_app _ _ _ _ Es) as [-> [Ha Hb]].
  destruct (isEmpty a) eqn:Ea; [discriminate|]. intros [= <-].
  split; [now destruct a|]. split; [exact Ha|]. exists b.
  split; [exact E|]. split; [|exact Hb].
  rewrite E, <- append_assoc. apply startsWith_app.
Qed.

Lemma subagentMatch_shape_witness :
  all isUuidChar "3f2a-77" = true.
Proof.
  exact (proj1 (proj2 (subagentMatch_shape "agent:main:subagent:3f2a-77:run" "3f2a-77"
                                            eq_refl))).
Defined.

End NameExtras.

(** ** The cron adapter: what it fills, keeps and throws on *)

Section CronExtras.
Import Spec Extra Cron.

Lemma orDefault_filled (a : option string) (d : string) :
  d <> "" -> orDefault a d <> "".
Proof. intros Hd. unfold orDefault. destruct a as [[|c s]|]; auto; discriminate. Qed.

Lemma append_filled (a b : string) : b <> "" -> a +++ b <> "".
Proof. intros Hb. destruct a; [exact Hb|discriminate]. Qed.

Lemma trim_blank_empty : trim "" = "".
Proof. reflexivity. Qed.

Lemma formatTimestamp_filled (v : option StrOrNum) (s : string) :
  formatTimestamp v = Returned s -> isEmpty (trim s) = false.
Proof.
  unfold formatTimestamp. destruct v as [[t|n]|].
  - destruct (isEmpty (trim t)) eqn:E; cbn [negb]; intros [= <-]; [reflexivity|exact E].
  - destruct (Z.abs n <=? maxTime)%Z; [|discriminate]. intros [= <-].
    rewrite isEmpty_trim. unfold toISOString.
    destruct (civil (n / 86400000)) as [[y m] d].
    set (year := if ((0 <=? y) && (y <=? 9999))%Z then _ else _).
    set (tail := pad 2 m +++ _).
    rewrite all_app. cbn [String.append all]. rewrite andb_false_r. reflexivity.
  - intros [= <-]. reflexivity.
Qed.

Lemma formatTimestamp_raises (v : option StrOrNum) :
  formatTimestamp v = Raised <-> outOfRange v = true.
Proof.
  unfold formatTimestamp, outOfRange. destruct v as [[t|n]|].
  - destruct (negb (isEmpty (trim t))); split; discriminate.
  - destruct (Z.abs n <=? maxTime)%Z; simpl; split; intros; congruence.
  - split; discriminate.
Qed.

(** X11.  A mapped cron record has no empty field: a missing name or status
    is replaced by its default, and each run time is an ISO string, the
    given text (not blank) or the sentinel. *)
Theorem cron_record_filled (job : OpenClawJob.t) (r : CronRecord.t) :
  mapJob job = Returned r ->
  CronRecord.name r <> ""
  /\ CronRecord.status r <> ""
  /\ isEmpty (trim (CronRecord.nextRun r)) = false
  /\ isEmpty (trim (CronRecord.lastRun r)) = false.
Proof.
  unfold mapJob.
  destruct (formatTimestamp (nullish (option_map IsNum _) _)) as [next|] eqn:En;
    [|discriminate].
  destruct (formatTimestamp (nullish (nullish _ _) _)) as [last|] eqn:El;
    [|discriminate].
  intros [= <-]. cbn [CronRecord.name CronRecord.status CronRecord.nextRun CronRecord.lastRun].
  repeat split; try (apply orDefault_filled; discriminate);
    eapply formatTimestamp_filled; eassumption.
Qed.

Lemma cron_record_filled_witness :
  CronRecord.name
    {| CronRecord.name := "Unnamed cron"; CronRecord.status := "unknown";
       CronRecord.nextRun := "Unknown"; CronRecord.lastRun := "Unknown" |} <> "".
Proof.
  exact (proj1 (cron_record_filled (OpenClawJob.mk None (Some "") None None) _ eq_refl)).
Defined.

Lemma mapJob_raises (job : OpenClawJob.t) :
  mapJob job = Raised
  <-> outOfRange (nextRunValue job) = true \/ outOfRange (lastRunValue job) = true.
Proof.
  rewrite <- !formatTimestamp_raises.
  unfold mapJob, nextRunValue, lastRunValue, stateOf.
  destruct (formatTimestamp (nullish (option_map IsNum _) _)) as [next|];
    destruct (formatTimestamp (nullish (nullish _ _) _)) as [last|];
    split; intros H; try discriminate; try reflexivity; auto;
    destruct H; discriminate.
Qed.

Lemma mapOutcome_returned {X Y : Type} (f : X -> outcome Y) (l : list X) (ys : list Y) :
  mapOutcome f l = Returned ys -> Forall2 (fun x y => f x = Returned y) l ys.
Proof.
  revert ys; induction l as [|x l IH]; intros ys; simpl.
  - intros [= <-]. constructor.
  - destruct (f x) as [y|] eqn:E; [|discriminate].
    destruct (mapOutcome f l) as [ys'|]; [|discriminate].
    intros [= <-]. constructor; [exact E|now apply IH].
Qed.

Lemma mapOutcome_raised {X Y : Type} (f : X -> outcome Y) (l : list X) :
  mapOutcome f l = Raised <-> exists x, In x l /\ f x = Raised.
Proof.
  induction l as [|x l IH]; simpl.
  - split; [discriminate|]. intros [x [[] _]].
  - destruct (f x) as [y|] eqn:E.
    + destruct (mapOutcome f l) as [ys|].
      * split; [discriminate|]. intros [x' [[<-|Hin] Hx]]; [congruence|].
        assert (@Returned (list Y) ys = Raised) by (apply IH; now exists x').
        discriminate.
      * split; [|reflexivity]. intros _.
        destruct (proj1 IH eq_refl) as [x' [Hin Hx]]. exists x'. auto.
    + split; [|reflexivity]. intros _. exists x. auto.
Qed.

(** X12.  The cron adapter returns [null] for no job; it throws exactly
    when a run time of some job is a number past the range of a [Date];
    otherwise it returns the section [available] with one record for each
    job, in the order of the jobs. *)
Theorem cron_mapping_total_or_throws (jobs : list OpenClawJob.t) :
  (mapped jobs = Returned None <-> jobs = [])
  /\ (mapped jobs = Raised
      <-> exists job, In job jobs
                      /\ (outOfRange (nextRunValue job) = true
                          \/ outOfRange (lastRunValue job) = true))
  /\ (forall c, mapped jobs = Returned (Some c) ->
                Crons.status c = "available"
                /\ Forall2 (fun job r => mapJob job = Returned r) jobs (Crons.jobs c)).
Proof.
  unfold mapped. destruct jobs as [|job jobs].
  - repeat split; try discriminate.
    intros [job [[] _]].
  - remember (job :: jobs) as l eqn:El.
    assert (Hr := mapOutcome_raised mapJob l).
    destruct (mapOutcome mapJob l) as [rs|] eqn:E; repeat split;
      try discriminate; try (intros ->; discriminate).
    + intros [j [Hin Hj]]. apply mapJob_raises in Hj.
      assert (@Returned (list CronRecord.t) rs = Raised) by (apply Hr; now exists j).
      discriminate.
    + now injection H as <-.
    + injection H as <-. now apply mapOutcome_returned.
    + intros _. destruct (proj1 Hr eq_refl) as [j [Hin Hj]].
      exists j. split; [exact Hin|]. now apply mapJob_raises.
Qed.

End CronExtras.

(** ** The response as a whole *)

Section ResponseExtras.
Import Spec Extra Route.

Lemma fetchCronStatus_raises (cronCli : Exec) (payload : json) (job : OpenClawJob.t) :
  runOpenClawJson cronCli = Some payload ->
  In job (extractJobs payload) ->
  outOfRange (nextRunValue job) = true \/ outOfRange (lastRunValue job) = true ->
  fetchCronStatus cronCli = Raised.
Proof.
  intros Hp Hin Hbad. unfold fetchCronStatus, Cron.mapped. rewrite Hp.
  destruct (extractJobs payload) as [|j l] eqn:E; [contradiction|].
  assert (Hr : Cron.mapOutcome Cron.mapJob (j :: l) = Raised).
  { apply mapOutcome_raised. exists job. split; [exact Hin|].
    now apply mapJob_raises. }
  now rewrite Hr.
Qed.

(** X13.  One cron job with a run time past the range of a [Date] costs the
    response every live section: the assembly throws, and the handler
    answers with the placeholder, whatever the other sources returned. *)
Theorem bad_cron_time_discards_live_data (placeholderData : DashboardData.t)
    (w : World) (payload : json) (job : OpenClawJob.t) :
  runOpenClawJson (cronCli w) = Some payload ->
  In job (extractJobs payload) ->
  outOfRange (nextRunValue job) = true \/ outOfRange (lastRunValue job) = true ->
  buildLiveData placeholderData w = Raised
  /\ GET placeholderData w = mkResponse placeholderData 200.
Proof.
  intros Hp Hin Hbad.
  assert (E : buildLiveData placeholderData w = Raised).
  { unfold buildLiveData.
    now rewrite (fetchCronStatus_raises _ _ _ Hp Hin Hbad). }
  split; [exact E|]. unfold GET. now rewrite E.
Qed.

(** Live agents, a readable report and two cron jobs, the second with a
    last run past the range: the response is the placeholder. *)
Lemma bad_cron_time_discards_live_data_witness :
  let w := {| agentsCli := ExecOk (quoted "[ { 'id' : 'main' } ]");
              sessionsCli :=
                ExecOk (quoted "{ 'sessions' : [ { 'key' : 'agent:main:1', 'totalTokens' : 7 } ] }");
              cronCli :=
                ExecOk (quoted "{ 'jobs' : [ { 'name' : 'a' }, { 'state' : { 'lastRunAtMs' : -1e16 } } ] }");
              agentsDir := Returned [];
              githubToken := None;
              github := FetchRejected;
              now := "2026-02-10T00:00:00.000Z";
              reportFile := FileContent "2026-02-10 - Horse A - 14:30 Ascot: 2.5" |} in
  fetchAgentData (agentsCli w) (sessionsCli w) (agentsDir w) <> None
  /\ fetchB2LData (reportFile w) <> None
  /\ GET sampleBaseline w = mkResponse sampleBaseline 200.
Proof.
  intros w. split; [vm_compute; discriminate|]. split; [vm_compute; discriminate|].
  refine (proj2 (bad_cron_time_discards_live_data sampleBaseline w
                   (JObject [("jobs", JArray [JObject [("name", JString "a")];
                                              JObject [("state", JObject [("lastRunAtMs", JNumber (-1) 16)])]])])
                   (asJob (JObject [("state", JObject [("lastRunAtMs", JNumber (-1) 16)])]))
                   _ _ _)).
  - vm_compute. reflexivity.
  - right. left. reflexivity.
  - right. vm_compute. reflexivity.
Defined.

Lemma merge_stages (placeholderData : DashboardData.t)
    (agents : option (list Agent.t)) (projects : option Projects.t)
    (crons : option Crons.t) (trading : option Trading.t) :
  merge placeholderData agents projects crons trading
  = withTrading trading
      (withCrons crons (withProjects projects (withAgents agents placeholderData))).
Proof. reflexivity. Qed.

Lemma withAgents_fields (agents : option (list Agent.t)) (s : DashboardData.t) :
  DashboardData.calendar (withAgents agents s) = DashboardData.calendar s
  /\ DashboardData.content (withAgents agents s) = DashboardData.content s
  /\ DashboardData.fileActivity (withAgents agents s) = DashboardData.fileActivity s
  /\ DashboardData.agents (withAgents agents s)
     = match agents with
       | Some (a :: l) => a :: l
       | _ => DashboardData.agents s
       end
  /\ DashboardData.projects (withAgents agents s) = DashboardData.projects s
  /\ DashboardData.crons (withAgents agents s) = DashboardData.crons s
  /\ DashboardData.trading (withAgents agents s) = DashboardData.trading s.
Proof. destruct agents as [[|a l]|], s; cbn; repeat split. Qed.

Lemma withProjects_fields (projects : option Projects.t) (s : DashboardData.t) :
  DashboardData.calendar (withProjects projects s) = DashboardData.calendar s
  /\ DashboardData.content (withProjects projects s) = DashboardData.content s
  /\ DashboardData.fileActivity (withProjects projects s) = DashboardData.fileActivity s
  /\ DashboardData.agents (withProjects projects s) = DashboardData.agents s
  /\ DashboardData.projects (withProjects projects s)
     = match projects with
       | Some p => match Projects.active p with
                   | _ :: _ => p
                   | [] => DashboardData.projects s
                   end
       | None => DashboardData.projects s
       end
  /\ DashboardData.crons (withProjects projects s) = DashboardData.crons s
  /\ DashboardData.trading (withProjects projects s) = DashboardData.trading s.
Proof. destruct projects as [[ps [|a l] pr pg]|], s; cbn; repeat split. Qed.

Lemma withCrons_fields (crons : option Crons.t) (s : DashboardData.t) :
  DashboardData.calendar (withCrons crons s) = DashboardData.calendar s
  /\ DashboardData.content (withCrons crons s) = DashboardData.content s
  /\ DashboardData.fileActivity (withCrons crons s) = DashboardData.fileActivity s
  /\ DashboardData.agents (withCrons crons s) = DashboardData.agents s
  /\ DashboardData.projects (withCrons crons s) = DashboardData.projects s
  /\ DashboardData.crons (withCrons crons s)
     = match crons with
       | Some c => match Crons.jobs c with
                   | _ :: _ => c
                   | [] => DashboardData.crons s
                   end
       | None => DashboardData.crons s
       end
  /\ DashboardData.trading (withCrons crons s) = DashboardData.trading s.
Proof. destruct crons as [[cs [|a l]]|], s; cbn; repeat split. Qed.

Lemma withTrading_fields (trading : option Trading.t) (s : DashboardData.t) :
  DashboardData.calendar (withTrading trading s) = DashboardData.calendar s
  /\ DashboardData.content (withTrading trading s) = DashboardData.content s
  /\ DashboardData.fileActivity (withTrading trading s) = DashboardData.fileActivity s
  /\ DashboardData.agents (withTrading trading s) = DashboardData.agents s
  /\ DashboardData.projects (withTrading trading s) = DashboardData.projects s
  /\ DashboardData.crons (withTrading trading s) = DashboardData.crons s
  /\ DashboardData.trading (withTrading trading s)
     = match trading with
       | Some t => t
       | None => DashboardData.trading s
       end.
Proof. destruct trading, s; cbn; repeat split. Qed.

(** X14.  What a response may hold.  The three sections the route does not
    read are the placeholder's.  Each of the others is the placeholder's
    or a live one, and a live list of agents, of projects or of cron jobs is
    never empty: a placeholder with records is never answered with an
    empty section. *)
Theorem response_sections (placeholderData : DashboardData.t) (w : World) :
  let data := body (GET placeholderData w) in
  DashboardData.calendar data = DashboardData.calendar placeholderData
  /\ DashboardData.content data = DashboardData.content placeholderData
  /\ DashboardData.fileActivity data = DashboardData.fileActivity placeholderData
  /\ (DashboardData.agents data = DashboardData.agents placeholderData
      \/ DashboardData.agents data <> []
         /\ fetchAgentData (agentsCli w) (sessionsCli w) (agentsDir w)
            = Some (DashboardData.agents data))
  /\ (DashboardData.projects data = DashboardData.projects placeholderData
      \/ Projects.status (DashboardData.projects data) = "available"
         /\ Projects.active (DashboardData.projects data) <> [])
  /\ (DashboardData.crons data = DashboardData.crons placeholderData
      \/ Crons.status (DashboardData.crons data) = "available"
         /\ Crons.jobs (DashboardData.crons data) <> [])
  /\ (DashboardData.trading data = DashboardData.trading placeholderData
      \/ exists content, reportFile w = FileContent content
                         /\ fetchB2LData (reportFile w)
                            = Some (DashboardData.trading data)).
Proof.
  cbv zeta. unfold GET, buildLiveData.
  destruct (fetchCronStatus (cronCli w)) as [crons|] eqn:Ec;
    [|cbn; repeat split; auto].
  cbn [body]. rewrite merge_stages.
  set (agents := fetchAgentData _ _ _).
  set (projects := fetchGitHubProjects _ _ _).
  destruct (withTrading_fields (fetchB2LData (reportFile w))
              (withCrons crons (withProjects projects (withAgents agents placeholderData))))
    as (T1 & T2 & T3 & T4 & T5 & T6 & T7).
  destruct (withCrons_fields crons (withProjects projects (withAgents agents placeholderData)))
    as (C1 & C2 & C3 & C4 & C5 & C6 & C7).
  destruct (withProjects_fields projects (withAgents agents placeholderData))
    as (P1 & P2 & P3 & P4 & P5 & P6 & P7).
  destruct (withAgents_fields agents placeholderData)
    as (A1 & A2 & A3 & A4 & A5 & A6 & A7).
  rewrite T1, T2, T3, T4, T5, T6, T7. clear T1 T2 T3 T4 T5 T6 T7.
  rewrite C1, C2, C3, C4, C5, C6, C7. clear C1 C2 C3 C4 C5 C6 C7.
  rewrite P1, P2, P3, P4, P5, P6, P7. clear P1 P2 P3 P4 P5 P6 P7.
  rewrite A1, A2, A3, A4, A5, A6, A7. clear A1 A2 A3 A4 A5 A6 A7.
  repeat split.
  - destruct agents as [[|a l]|]; auto. right. split; [discriminate|reflexivity].
  - destruct projects as [p|] eqn:Ep; auto.
    destruct (Projects.active p) as [|x l] eqn:Ea; auto. right.
    split; [|congruence]. subst projects. revert Ep Ea.
    unfold fetchGitHubProjects.
    destruct (negb (truthy (githubToken w))); [intros [= <-]; discriminate|].
    destruct (github w) as [|[] [g|]]; try (intros [= <-]; discriminate).
    destruct (errors g); [intros [= <-]; discriminate|].
    destruct (projectV2 g) as [[nodes|]|]; try (intros [= <-]; discriminate).
    destruct (filter isInProgress nodes); intros [= <-]; reflexivity.
  - destruct crons as [c|]; auto.
    destruct (Crons.jobs c) as [|x l] eqn:Ej; auto. right.
    split; [|congruence]. unfold fetchCronStatus in Ec.
    destruct (runOpenClawJson (cronCli w)) as [j|]; [|discriminate].
    unfold Cron.mapped in Ec. destruct (extractJobs j); [discriminate|].
    destruct (Cron.mapOutcome _ _); [|discriminate]. now injection Ec as <-.
  - destruct (reportFile w) as [| |content] eqn:Ef; cbn [fetchB2LData]; auto.
    right. exists content. split; reflexivity.
Qed.

End ResponseExtras.

(** ** The issue-tracker adapter *)

Section GithubExtras.
Import Spec Extra Route.

(** X15.  The issue-tracker adapter always returns a record.  It is the
    unavailable record, or it is marked available and its three lists
    describe the same items in the same order: the items of the board whose
    status is In Progress, in any letter case. *)
Theorem github_projects_shape (token : option string) (response : Fetch)
    (now : string) :
  exists p,
    fetchGitHubProjects token response now = Some p
    /\ (p = unavailable
        \/ Projects.status p = "available"
           /\ exists nodes,
                response
                = FetchResponse true
                    (Some {| errors := false; projectV2 := Some (Some nodes) |})
                /\ Projects.activityLog p = map itemText (filter isInProgress nodes))
    /\ map Projects.Active.name (Projects.active p) = Projects.activityLog p
    /\ map Projects.Activity.label (Projects.recentActivity p) = Projects.activityLog p
    /\ Forall (fun a => Projects.Active.status a = "In Progress"
                        /\ Projects.Active.owner a = "GitHub")
              (Projects.active p)
    /\ Forall (fun r => Projects.Activity.type r = "github"
                        /\ Projects.Activity.detail r = "In Progress"
                        /\ Projects.Activity.source r = "Clawd Tasks Board")
              (Projects.recentActivity p).
Proof.
  unfold fetchGitHubProjects.
  destruct (negb (truthy token));
    [exists unavailable; cbn; repeat split; auto|].
  destruct response as [|[] [[[] [[nodes|]|]]|]];
    try solve [exists unavailable; cbn; repeat split; auto].
  cbn [errors projectV2].
  destruct (filter isInProgress nodes) as [|i l] eqn:E.
  - eexists. split; [reflexivity|]. cbn. repeat split; auto.
    right. split; [reflexivity|]. exists nodes. now rewrite E.
  - eexists. split; [reflexivity|].
    cbn [Projects.status Projects.active Projects.recentActivity Projects.activityLog].
    rewrite !map_map. cbn [Projects.Active.name Projects.Activity.label].
    repeat split.
    + right. split; [reflexivity|]. exists nodes. now rewrite E.
    + apply Forall_map, Forall_forall. intros x _. split; reflexivity.
    + apply Forall_map, Forall_forall. intros x _. repeat split; reflexivity.
Qed.

End GithubExtras.

(** ** What the extraction returns *)

Section ContainerExtras.
Import Spec Extra Route.

Lemma search_slice (f : ascii -> bool) (s : string) (i : nat) :
  search f s = Some i -> exists c r, slice i s = String c r /\ f c = true.
Proof.
  revert i; induction s as [|x s IH]; intros i; simpl; [discriminate|].
  destruct (f x) eqn:Ex.
  - intros [= <-]. now exists x, s.
  - destruct (search f s) as [j|]; [|discriminate]. intros [= <-]. simpl.
    now apply IH.
Qed.

Lemma isOpening_cases (c : ascii) : isOpening c = true -> c = "["%char \/ c = "{"%char.
Proof.
  unfold isOpening. intros H. apply orb_true_iff in H as [H|H];
    apply Ascii.eqb_eq in H; auto.
Qed.

Lemma parseValue_opening (fuel : nat) (c : ascii) (r : string) (v : json) (rest : string) :
  isOpening c = true ->
  Json.parseValue fuel (String c r) = Some (v, rest) -> isContainer v = true.
Proof.
  intros Hc. destruct fuel as [|fuel]; [discriminate|].
  apply isOpening_cases in Hc as [-> | ->]; cbn [Json.parseValue Json.skipWs Json.isWs];
    cbn.
  - destruct (Json.expect "]" (Json.skipWs r)); [now intros [= <- _]|].
    destruct (Json.parseElements fuel r) as [[vs rest']|]; [|discriminate].
    now intros [= <- _].
  - destruct (Json.expect "}" (Json.skipWs r)); [now intros [= <- _]|].
    destruct (Json.parseMembers fuel r) as [[ms rest']|]; [|discriminate].
    now intros [= <- _].
Qed.

Lemma parse_opening (c : ascii) (r : string) (v : json) :
  isOpening c = true -> Json.parse (String c r) = Some v -> isContainer v = true.
Proof.
  intros Hc. unfold Json.parse.
  destruct (Json.parseValue _ _) as [[v' rest]|] eqn:E; [|discriminate].
  destruct (isEmpty _); [|discriminate]. intros [= <-].
  eapply parseValue_opening; eassumption.
Qed.

(** X16.  The route's extraction never returns a scalar: a payload is an
    array or an object, since the text parsed starts at a bracket or a
    brace. *)
Theorem payload_is_container (cli : Exec) (v : json) :
  runOpenClawJson cli = Some v -> isContainer v = true.
Proof.
  unfold runOpenClawJson. destruct cli as [|stdout]; [discriminate|].
  destruct (search isOpening (trim stdout)) as [start|] eqn:E; [|discriminate].
  destruct (search_slice _ _ _ E) as [c [r [-> Hc]]].
  now apply parse_opening.
Qed.

Lemma payload_is_container_witness :
  isContainer (JObject [("jobs", JArray [])]) = true.
Proof.
  exact (payload_is_container
           (ExecOk ("note: 3 jobs" +++ quoted "{'jobs':[]}")) _ eq_refl).
Defined.

End ContainerExtras.

(** ** The generator script *)

Section ScriptExtras.
Import Spec Extra Route.

Lemma processAgents_filled (A : list OpenClawAgent.t) (S : list OpenClawSession.t) :
  A <> [] -> Generate.processAgents A S <> [].
Proof. destruct A; [congruence|discriminate]. Qed.

Lemma processCrons_available (jobs : list OpenClawJob.t) (c : Crons.t) :
  Generate.processCrons jobs = Returned c -> Crons.status c = "available".
Proof.
  unfold Generate.processCrons.
  destruct (Cron.mapOutcome Cron.mapJob jobs); [|discriminate]. now intros [= <-].
Qed.

(** What a returned snapshot looks like, whatever the mode. *)
Lemma generateData_returned (binaryExists requireLiveData : bool)
    (agentsCli sessionsCli cronCli : Exec) (dashboardTemplate : list (string * json))
    (now : string) (snapshot : Snapshot.t) :
  Script.generateData binaryExists requireLiveData agentsCli sessionsCli cronCli
    dashboardTemplate now = Returned snapshot ->
  let data := Snapshot.data snapshot in
  let metadata := Snapshot.metadata snapshot in
  Snapshot.__meta snapshot = metadata
  /\ Snapshot.generatedAt metadata = now
  /\ (Snapshot.isFallback metadata = false <-> Snapshot.source metadata = "openclaw-cli")
  /\ (Snapshot.isFallback metadata = false
      <-> Snapshot.agents data <> [] /\ Crons.status (Snapshot.crons data) = "available")
  /\ (requireLiveData = true -> Snapshot.isFallback metadata = false)
  /\ (binaryExists = false -> Snapshot.source metadata = "empty-fallback")
  /\ Snapshot.projects data = unavailable
  /\ Trading.availability (Snapshot.trading data) = "unavailable"
  /\ Snapshot.status (Snapshot.content data) = "unavailable"
  /\ Snapshot.status (Snapshot.calendar data) = "unavailable"
  /\ Snapshot.status (Snapshot.fileActivity data) = "unavailable".
Proof.
  unfold Script.generateData.
  destruct binaryExists; cbn [negb].
  - destruct (Script.readyAgents (Generate.runCommand agentsCli)) as [l|] eqn:Ea;
      destruct (Script.readyJobs (Generate.runCommand cronCli)) as [jobs|] eqn:Ej;
      cbn [Script.isSome andb negb].
    + destruct (Generate.processCrons _) as [c|] eqn:Ec; [|discriminate].
      intros [= <-]. cbn. apply processCrons_available in Ec.
      assert (Hl : Generate.processAgents (map asAgent l)
                     (Script.sessionsData (Generate.runCommand sessionsCli)) <> []).
      { apply processAgents_filled.
        destruct (Generate.runCommand agentsCli) as [[| | | |[|a l']|]|];
          try discriminate. injection Ea as <-. discriminate. }
      repeat split; auto; discriminate.
    + destruct requireLiveData; [discriminate|]. intros [= <-]. cbn.
      repeat split; auto; try discriminate. now intros [_ H].
    + destruct (Generate.processCrons _) as [c|] eqn:Ec; [|discriminate].
      destruct requireLiveData; [discriminate|]. intros [= <-]. cbn.
      repeat split; auto; try discriminate. now intros [H _].
    + destruct requireLiveData; [discriminate|]. intros [= <-]. cbn.
      repeat split; auto; try discriminate. now intros [H _].
  - destruct requireLiveData; [discriminate|]. intros [= <-]. cbn.
    repeat split; auto; try discriminate. now intros [H _].
Qed.

(** X17.  With [REQUIRE_LIVE_DATA=true] the script never writes a fallback:
    a snapshot it returns is marked as captured from the command line
    tool, holds at least one agent and has its cron section available. *)
Theorem strict_mode_never_writes_fallback (binaryExists : bool)
    (agentsCli sessionsCli cronCli : Exec) (dashboardTemplate : list (string * json))
    (now : string) (snapshot : Snapshot.t) :
  Script.generateData binaryExists true agentsCli sessionsCli cronCli
    dashboardTemplate now = Returned snapshot ->
  binaryExists = true
  /\ Snapshot.isFallback (Snapshot.metadata snapshot) = false
  /\ Snapshot.isFallback (Snapshot.__meta snapshot) = false
  /\ Snapshot.source (Snapshot.metadata snapshot) = "openclaw-cli"
  /\ Snapshot.agents (Snapshot.data snapshot) <> []
  /\ Crons.status (Snapshot.crons (Snapshot.data snapshot)) = "available".
Proof.
  intros H.
  destruct (generateData_returned _ _ _ _ _ _ _ _ H)
    as [Hm [_ [Hsrc [Hdata [Hstrict _]]]]].
  assert (Hf := Hstrict eq_refl).
  split; [destruct binaryExists; [reflexivity|discriminate]|].
  split; [exact Hf|]. split; [now rewrite Hm|].
  split; [now apply Hsrc|]. now apply Hdata.
Qed.

Lemma strict_mode_never_writes_fallback_witness :
  match
    Script.generateData true true
      (ExecOk (quoted "[ { 'id' : 'main' } ]"))
      (ExecOk (quoted "{ 'sessions' : [ { 'key' : 'agent:main:1', 'totalTokens' : 7 } ] }"))
      (ExecOk (quoted "{ 'jobs' : [] }"))
      [] "2026-02-10T00:00:00.000Z"
  with
  | Returned snapshot =>
      Snapshot.isFallback (Snapshot.metadata snapshot) = false
      /\ Snapshot.source (Snapshot.metadata snapshot) = "openclaw-cli"
      /\ Snapshot.agents (Snapshot.data snapshot) <> []
  | Raised => False
  end.
Proof.
  destruct (Script.generateData _ _ _ _ _ _ _) as [snapshot|] eqn:E.
  - destruct (strict_mode_never_writes_fallback _ _ _ _ _ _ _ E)
      as [_ [H1 [_ [H2 [H3 _]]]]].
    split; [exact H1|]. split; [exact H2|exact H3].
  - vm_compute in E. discriminate E.
Defined.

(** X18.  A snapshot the script returns says what it is.  Its two metadata
    blocks are one value, stamped with the clock.  It is marked as a
    fallback exactly when the agent list is empty or the cron section is
    unavailable, and exactly then its source is not the command line tool.
    The sections the script has no source for are always unavailable. *)
Theorem snapshot_metadata_coherent (binaryExists requireLiveData : bool)
    (agentsCli sessionsCli cronCli : Exec) (dashboardTemplate : list (string * json))
    (now : string) (snapshot : Snapshot.t) :
  Script.generateData binaryExists requireLiveData agentsCli sessionsCli cronCli
    dashboardTemplate now = Returned snapshot ->
  let data := Snapshot.data snapshot in
  let metadata := Snapshot.metadata snapshot in
  Snapshot.__meta snapshot = metadata
  /\ Snapshot.generatedAt metadata = now
  /\ (Snapshot.isFallback metadata = false <-> Snapshot.source metadata = "openclaw-cli")
  /\ (Snapshot.isFallback metadata = false
      <-> Snapshot.agents data <> [] /\ Crons.status (Snapshot.crons data) = "available")
  /\ (binaryExists = false -> Snapshot.source metadata = "empty-fallback")
  /\ Snapshot.projects data = unavailable
  /\ Trading.availability (Snapshot.trading data) = "unavailable"
  /\ Snapshot.status (Snapshot.content data) = "unavailable"
  /\ Snapshot.status (Snapshot.calendar data) = "unavailable"
  /\ Snapshot.status (Snapshot.fileActivity data) = "unavailable".
Proof.
  intros H. destruct (generateData_returned _ _ _ _ _ _ _ _ H)
    as [H1 [H2 [H3 [H4 [_ H5]]]]].
  cbv zeta. repeat split; try apply H3; try apply H4; try apply H5; auto.
Qed.

(** Agents, and a cron payload that is a bare array: a snapshot of mixed
    source. *)
Lemma snapshot_metadata_coherent_witness :
  match
    Script.generateData true false
      (ExecOk (quoted "[ { 'id' : 'main' } ]")) ExecFailed
      (ExecOk (quoted "[ { 'name' : 'nightly' } ]"))
      [] "2026-02-10T00:00:00.000Z"
  with
  | Returned snapshot =>
      Snapshot.__meta snapshot = Snapshot.metadata snapshot
      /\ Snapshot.generatedAt (Snapshot.metadata snapshot) = "2026-02-10T00:00:00.000Z"
      /\ Snapshot.projects (Snapshot.data snapshot) = unavailable
  | Raised => False
  end.
Proof.
  destruct (Script.generateData _ _ _ _ _ _ _) as [snapshot|] eqn:E.
  - destruct (snapshot_metadata_coherent _ _ _ _ _ _ _ _ E)
      as [H1 [H2 [_ [_ [_ [H3 _]]]]]].
    split; [exact H1|]. split; [exact H2|exact H3].
  - vm_compute in E. discriminate E.
Defined.

Lemma processAgents_primary (A : list OpenClawAgent.t) (S : list OpenClawSession.t) :
  (forall a, In a A -> OpenClawAgent.id a <> None) ->
  Generate.processAgents A S = map (Reconciler.primaryRecord S) A.
Proof.
  intros H. unfold Generate.processAgents. apply map_ext_in. intros a Ha.
  unfold Reconciler.primaryRecord, Generate.prefixOf, Reconciler.prefixOf.
  specialize (H a Ha). destruct (OpenClawAgent.id a) as [[|c i]|]; [| |congruence];
    reflexivity.
Qed.

(** X19.  The script and the route agree on the agents of the list.  Where
    every agent has an id, the records the script computes are the records
    the route's reconciler starts with; the route then adds the sub-agents
    it discovers, the script none. *)
Theorem script_agents_are_route_primaries (A : list OpenClawAgent.t)
    (S : list OpenClawSession.t) (D : list string) :
  A <> [] ->
  (forall a, In a A -> OpenClawAgent.id a <> None) ->
  Reconciler.reconcile A S D
  = Some (Generate.processAgents A S ++ Reconciler.subagents D S)
  /\ List.length (Generate.processAgents A S) = List.length A.
Proof.
  intros HA Hid. rewrite reconcile_some by exact HA.
  rewrite processAgents_primary by exact Hid.
  split; [reflexivity|apply length_map].
Qed.

Lemma script_agents_are_route_primaries_witness :
  let A := [OpenClawAgent.mk (Some "main") None None] in
  let S := [OpenClawSession.mk (Some "agent:main:subagent:ab12") (Some 10%float) None None] in
  List.length (Generate.processAgents A S) = 1
  /\ exists record,
       Reconciler.reconcile A S [] = Some (Generate.processAgents A S ++ [record]).
Proof.
  intros A S.
  destruct (script_agents_are_route_primaries A S []) as [H1 H2].
  - discriminate.
  - intros a [<-|[]]. discriminate.
  - split; [exact H2|]. eexists. rewrite H1. reflexivity.
Defined.

End ScriptExtras.

(** ** The status of a snapshot file *)

Section DebugExtras.
Import Spec Extra Debug.

Lemma push_empty (r : list string) (c : bool) (m : string) :
  (List.length (push r c m) =? 0)%nat = (List.length r =? 0)%nat && negb c.
Proof.
  unfold push. destruct c; [|now rewrite andb_true_r].
  rewrite length_app, andb_false_r. simpl. apply Nat.eqb_neq. lia.
Qed.

(** The flag [valid] of an inspected value is the conjunction of the
    criteria. *)
Lemma inspect_valid (dateParse : string -> option Z) (messageOf : Thrown -> string)
    (filePath : string) (mtime size : Z) (parsed : option json) (now : Z) :
  valid (inspect dateParse messageOf filePath mtime size parsed now)
  = freshSnapshot dateParse mtime parsed now.
Proof.
  unfold inspect, freshSnapshot. cbv zeta.
  destruct (Z.abs mtime <=? maxTime)%Z; [|reflexivity].
  cbn [valid andb].
  set (meta := orNullish (prop "__meta" parsed) (prop "metadata" parsed)).
  generalize (if isTruthy (prop "__meta" parsed) then "__meta"
              else if isTruthy (prop "metadata" parsed) then "metadata" else "none").
  intros metaSource. rewrite !push_empty.
  assert (Hc : negb (negb (isTruthy (prop "crons" parsed))
                     || negb (isObjectType (prop "crons" parsed))
                     || negb (isArray (prop "jobs" (prop "crons" parsed))))
               = isArray (prop "jobs" (prop "crons" parsed))).
  { destruct (prop "crons" parsed) as [[| | | | |members]|];
      cbn [isTruthy isObjectType prop isArray negb orb];
      rewrite ?orb_true_r; try reflexivity.
    now destruct (Json.lookup "jobs" members) as [[]|]. }
  assert (Hp : negb match prop "status" (prop "projects" parsed) with
                    | None => false
                    | Some (JString s) => (String.length (trim s) =? 0)%nat
                    | Some _ => true
                    end
               = match prop "status" (prop "projects" parsed) with
                 | None => true
                 | Some (JString s) => negb (isEmpty (trim s))
                 | Some _ => false
                 end).
  { destruct (prop "status" (prop "projects" parsed)) as [[| | |s| |]|]; try reflexivity.
    now destruct (trim s). }
  rewrite Hc, Hp, negb_involutive. clear Hc Hp.
  do 3 f_equal. clearbody meta.
  destruct meta as [[| | | | |members]|]; cbn [prop isTruthy isObjectType];
    try (cbn [snd truthy]; rewrite !push_empty; cbn; rewrite ?andb_false_r;
         reflexivity).
  destruct (Json.lookup "isFallback" members) as [[|[]| | | |]|];
    destruct (Json.lookup "generatedAt" members) as [[| | |[|c text]| |]|];
    cbn [isEmpty snd truthy]; try destruct (dateParse _);
    cbn [snd]; rewrite !push_empty; cbn; rewrite ?andb_false_r; try reflexivity.
Qed.

Lemma getFileStatus_valid (dateParse : string -> option Z)
    (messageOf : Thrown -> string) (filePath : string) (file : File) (now : Z) :
  valid (getFileStatus dateParse messageOf filePath file now)
  = match file with
    | Rejected _ => false
    | Read mtime size raw =>
        match Json.parse raw with
        | Some parsed => freshSnapshot dateParse mtime (Some parsed) now
        | None => false
        end
    end.
Proof.
  unfold getFileStatus. destruct file as [message|mtime size raw]; [reflexivity|].
  destruct (Json.parse raw) as [[]|]; try apply inspect_valid; try reflexivity.
  unfold freshSnapshot. cbn. now rewrite andb_false_r.
Qed.

Lemma freshSnapshot_criteria (dateParse : string -> option Z) (mtime : Z)
    (parsed : option json) (now : Z) :
  freshSnapshot dateParse mtime parsed now = true
  <-> (Z.abs mtime <= maxTime)%Z
      /\ exists meta text time,
           orNullish (prop "__meta" parsed) (prop "metadata" parsed) = Some (JObject meta)
           /\ Json.lookup "isFallback" meta = Some (JBool false)
           /\ Json.lookup "generatedAt" meta = Some (JString text)
           /\ text <> ""
           /\ dateParse text = Some time
           /\ PrimFloat.ltb PRE_GENERATED_MAX_AGE_HOURS (ageOf now time) = false
           /\ isArray (prop "agents" parsed) = true
           /\ isArray (prop "jobs" (prop "crons" parsed)) = true
           /\ (prop "status" (prop "projects" parsed) = None
               \/ exists s, prop "status" (prop "projects" parsed) = Some (JString s)
                            /\ trim s <> "").
Proof.
  unfold freshSnapshot. cbv zeta.
  set (meta := orNullish _ _). clearbody meta.
  rewrite !andb_true_iff, Z.leb_le. split.
  - intros [[[[[[Hm Hobj] Hfb] Hg] Ha] Hc] Hp]. split; [exact Hm|].
    destruct meta as [[| | | | |members]|]; try discriminate. cbn [prop] in *.
    destruct (Json.lookup "isFallback" members) as [[|[]| | | |]|] eqn:Ef;
      try discriminate.
    destruct (Json.lookup "generatedAt" members) as [[| | |text| |]|] eqn:Eg;
      try discriminate.
    apply andb_true_iff in Hg as [Ht Hd].
    destruct (dateParse text) as [time|] eqn:Ed; [|discriminate].
    exists members, text, time. repeat split; auto.
    + intros ->. discriminate.
    + now apply negb_true_iff.
    + destruct (prop "status" (prop "projects" parsed)) as [[| | |s| |]|];
        try discriminate; auto.
      right. exists s. split; [reflexivity|]. intros E. now rewrite E in Hp.
  - intros [Hm (members & text & time & -> & Hfb & Hg & Ht & Hd & Hage & Ha & Hc & Hp)].
    cbn [prop]. rewrite Hfb, Hg, Hd, Hage, Ha, Hc.
    repeat split; auto.
    + destruct text; [contradiction|reflexivity].
    + destruct Hp as [->|[s [-> Hs]]]; [reflexivity|].
      destruct (trim s); [contradiction|reflexivity].
Qed.

(** X20.  What the debug route asks of a snapshot file.  A file is valid
    exactly when it is read and is JSON, its modification time is in
    range, its metadata block ([__meta], or [metadata] when that is absent
    or null) is an object that says [isFallback: false] and carries a
    [generatedAt] the engine reads as a time no more than 24 hours before
    now, [agents] and [crons.jobs] are arrays, and [projects.status] is
    absent or a string with text. *)
Theorem valid_snapshot_criteria (dateParse : string -> option Z)
    (messageOf : Thrown -> string) (filePath : string) (file : File) (now : Z) :
  valid (getFileStatus dateParse messageOf filePath file now) = true
  <-> exists mtime size raw parsed meta text time,
        file = Read mtime size raw
        /\ Json.parse raw = Some parsed
        /\ (Z.abs mtime <= maxTime)%Z
        /\ orNullish (prop "__meta" (Some parsed)) (prop "metadata" (Some parsed))
           = Some (JObject meta)
        /\ Json.lookup "isFallback" meta = Some (JBool false)
        /\ Json.lookup "generatedAt" meta = Some (JString text)
        /\ text <> ""
        /\ dateParse text = Some time
        /\ PrimFloat.ltb PRE_GENERATED_MAX_AGE_HOURS (ageOf now time) = false
        /\ isArray (prop "agents" (Some parsed)) = true
        /\ isArray (prop "jobs" (prop "crons" (Some parsed))) = true
        /\ (prop "status" (prop "projects" (Some parsed)) = None
            \/ exists s, prop "status" (prop "projects" (Some parsed)) = Some (JString s)
                         /\ trim s <> "").
Proof.
  rewrite getFileStatus_valid. split.
  - destruct file as [message|mtime size raw]; [discriminate|].
    destruct (Json.parse raw) as [parsed|] eqn:Ep; [|discriminate].
    intros H. apply freshSnapshot_criteria in H as [Hm (meta & text & time & H)].
    exists mtime, size, raw, parsed, meta, text, time. auto.
  - intros (mtime & size & raw & parsed & meta & text & time & -> & -> & Hm & H).
    apply freshSnapshot_criteria. split; [exact Hm|]. now exists meta, text, time.
Qed.

(** A snapshot six hours old that the route accepts. *)
Lemma valid_snapshot_criteria_witness :
  valid (getFileStatus sampleDateParse sampleMessageOf "data/generated-data.json"
           (Read 1770681600000 160
              (quoted "{'__meta':{'isFallback':false,'generatedAt':'2026-02-10T00:00:00.000Z'},'agents':[],'crons':{'jobs':[]},'projects':{'status':'unavailable'}}"))
           1770703200000)
  = true.
Proof.
  apply valid_snapshot_criteria.
  eexists 1770681600000%Z, 160%Z, _,
    (JObject
       [("__meta",
         JObject [("isFallback", JBool false);
                  ("generatedAt", JString "2026-02-10T00:00:00.000Z")]);
        ("agents", JArray []);
        ("crons", JObject [("jobs", JArray [])]);
        ("projects", JObject [("status", JString "unavailable")])]),
    [("isFallback", JBool false);
     ("generatedAt", JString "2026-02-10T00:00:00.000Z")],
    "2026-02-10T00:00:00.000Z", 1770681600000%Z.
  split; [reflexivity|]. split; [vm_compute; reflexivity|].
  split; [vm_compute; discriminate|].
  repeat split; try discriminate; try (vm_compute; reflexivity).
  right. exists "unavailable". split; [reflexivity|discriminate].
Defined.


(** X21.  The block [__meta] hides the block [metadata].  Where [__meta] is
    present and not null, the validity of a file does not depend on its
    [metadata]; where it is truthy, nothing of the status does. *)
Theorem meta_block_precedence (dateParse : string -> option Z)
    (messageOf : Thrown -> string) (filePath : string) (mtime size : Z)
    (raw raw' : string) (members members' : list (string * json)) (block : json)
    (now : Z) :
  Json.parse raw = Some (JObject members) ->
  Json.parse raw' = Some (JObject members') ->
  (forall name, name <> "metadata" ->
                Json.lookup name members' = Json.lookup name members) ->
  Json.lookup "__meta" members = Some block ->
  block <> JNull ->
  valid (getFileStatus dateParse messageOf filePath (Read mtime size raw') now)
  = valid (getFileStatus dateParse messageOf filePath (Read mtime size raw) now)
  /\ (isTruthy (Some block) = true ->
      getFileStatus dateParse messageOf filePath (Read mtime size raw') now
      = getFileStatus dateParse messageOf filePath (Read mtime size raw) now).
Proof.
  intros Hp Hp' Hsame Hmeta Hnull.
  assert (Hm : Json.lookup "__meta" members' = Some block)
    by (rewrite Hsame; [exact Hmeta|discriminate]).
  assert (Ho : forall other, orNullish (Some block) other = Some block)
    by (intros other; destruct block; try reflexivity; contradiction).
  split.
  - rewrite !getFileStatus_valid, Hp, Hp'. unfold freshSnapshot. cbn [prop].
    rewrite Hm, Hmeta, !Ho.
    rewrite !(Hsame "agents"), !(Hsame "crons"), !(Hsame "projects") by discriminate.
    reflexivity.
  - intros Ht. unfold getFileStatus. rewrite Hp, Hp'. unfold inspect. cbn [prop].
    rewrite Hm, Hmeta, !Ho, Ht.
    rewrite !(Hsame "agents"), !(Hsame "crons"), !(Hsame "projects") by discriminate.
    reflexivity.
Qed.

(** A fallback marked in [__meta] is not undone by a [metadata] block that
    denies it. *)
Lemma meta_block_precedence_witness :
  let raw :=
    quoted "{'__meta':{'isFallback':true},'agents':[],'crons':{'jobs':[]}}" in
  let raw' :=
    quoted "{'__meta':{'isFallback':true},'metadata':{'isFallback':false,'generatedAt':'2026-02-10T00:00:00.000Z'},'agents':[],'crons':{'jobs':[]}}" in
  valid (getFileStatus sampleDateParse sampleMessageOf "data/generated-data.json"
           (Read 1770681600000 120 raw') 1770703200000)
  = valid (getFileStatus sampleDateParse sampleMessageOf "data/generated-data.json"
             (Read 1770681600000 120 raw) 1770703200000).
Proof.
  intros raw raw'.
  refine (proj1 (meta_block_precedence sampleDateParse sampleMessageOf
                   "data/generated-data.json" 1770681600000 120 raw raw'
                   [("__meta", JObject [("isFallback", JBool true)]);
                    ("agents", JArray []);
                    ("crons", JObject [("jobs", JArray [])])]
                   [("__meta", JObject [("isFallback", JBool true)]);
                    ("metadata",
                     JObject [("isFallback", JBool false);
                              ("generatedAt", JString "2026-02-10T00:00:00.000Z")]);
                    ("agents", JArray []);
                    ("crons", JObject [("jobs", JArray [])])]
                   (JObject [("isFallback", JBool true)])
                   1770703200000 _ _ _ _ _)).
  - vm_compute. reflexivity.
  - vm_compute. reflexivity.
  - intros name Hname. cbn [Json.lookup].
    destruct (String.eqb "metadata" name) eqn:E;
      [apply String.eqb_eq in E; congruence|].
    destruct (String.eqb "crons" name), (String.eqb "agents" name); reflexivity.
  - reflexivity.
  - discriminate.
Defined.

(** *** The newest file *)

Lemma valid_exists (dateParse : string -> option Z) (messageOf : Thrown -> string)
    (filePath : string) (file : File) (now : Z) :
  valid (getFileStatus dateParse messageOf filePath file now) = true ->
  exists_ (getFileStatus dateParse messageOf filePath file now) = true.
Proof.
  unfold getFileStatus. destruct file as [message|mtime size raw]; [discriminate|].
  destruct (Json.parse raw) as [[]|]; try discriminate;
    unfold inspect; cbv zeta; destruct (Z.abs mtime <=? maxTime)%Z;
    try discriminate; reflexivity.
Qed.

Lemma assign_In (key : string) (value : FileStatus) (o : list (string * FileStatus))
    (e : string * FileStatus) :
  In e (assign key value o) -> e = (key, value) \/ In e o.
Proof.
  induction o as [|[k v] o IH]; simpl.
  - intros [<-|[]]. now left.
  - destruct (String.eqb k key) eqn:E.
    + apply String.eqb_eq in E. subst k. intros [<-|H]; auto.
    + intros [<-|H]; auto. destruct (IH H); auto.
Qed.

Lemma fromEntries_In (entries : list (string * FileStatus)) (e : string * FileStatus) :
  In e (fromEntries entries) -> In e entries.
Proof.
  unfold fromEntries.
  assert (G : forall o, In e (fold_left (fun o entry => assign (fst entry) (snd entry) o)
                                        entries o) ->
                        In e o \/ In e entries).
  { induction entries as [|[k v] entries IH]; intros o; simpl; [auto|].
    intros H. destruct (IH _ H) as [H'|H']; [|auto].
    apply assign_In in H' as [->|H']; auto. }
  intros H. destruct (G [] H) as [[]|H']. exact H'.
Qed.

Lemma sort_head (dateParse : string -> option Z) (l : list (string * FileStatus)) :
  (forall e, In e l -> exists t, timeOf dateParse (snd e) = Some t) ->
  match sort dateParse l with
  | [] => l = []
  | h :: _ =>
      In h l
      /\ exists th, timeOf dateParse (snd h) = Some th
                    /\ forall e t, In e l -> timeOf dateParse (snd e) = Some t ->
                                    (t <= th)%Z
  end.
Proof.
  induction l as [|a l IH]; intros Hall; [reflexivity|].
  cbn [sort fold_right]. fold (sort dateParse l).
  destruct (Hall a (or_introl eq_refl)) as [ta Ha].
  specialize (IH (fun e He => Hall e (or_intror He))).
  destruct (sort dateParse l) as [|h r].
  - subst l. cbn [insert]. split; [now left|]. exists ta. split; [exact Ha|].
    intros e t [<-|[]] He. rewrite Ha in He. injection He as <-. lia.
  - destruct IH as [Hh [th [Hth Hmax]]]. cbn [insert].
    unfold compareFn. rewrite Ha, Hth.
    destruct (th - ta <=? 0)%Z eqn:E.
    + apply Z.leb_le in E. split; [now left|]. exists ta. split; [exact Ha|].
      intros e t [<-|He] Ht.
      * rewrite Ha in Ht. injection Ht as <-. lia.
      * specialize (Hmax e t He Ht). lia.
    + apply Z.leb_gt in E. split; [now right|]. exists th. split; [exact Hth|].
      intros e t [<-|He] Ht.
      * rewrite Ha in Ht. injection Ht as <-. lia.
      * exact (Hmax e t He Ht).
Qed.

(** X22.  The newest file of the report.  Every status reported is the
    status of a candidate.  Where the engine reads the time stamps of the
    valid ones back, the newest file is [null] exactly when no candidate
    is valid; otherwise it is a valid candidate, and no valid candidate
    was modified later. *)
Theorem newest_file_is_latest_valid (dateParse : string -> option Z)
    (messageOf : Thrown -> string) (candidates : list (string * File * Z)) :
  let report := GET dateParse messageOf candidates in
  (forall p s, In (p, s) (fileStatus report) -> valid s = true ->
               exists t, timeOf dateParse s = Some t) ->
  (forall p s, In (p, s) (fileStatus report) ->
               exists file now,
                 In (p, file, now) candidates
                 /\ s = getFileStatus dateParse messageOf p file now)
  /\ (newestFile report = None
      <-> forall p s, In (p, s) (fileStatus report) -> valid s = false)
  /\ (forall p, newestFile report = Some p ->
        exists s t,
          In (p, s) (fileStatus report)
          /\ valid s = true
          /\ timeOf dateParse s = Some t
          /\ forall q s' t', In (q, s') (fileStatus report) -> valid s' = true ->
                             timeOf dateParse s' = Some t' -> (t' <= t)%Z).
Proof.
  intros report Hread.
  assert (Hfrom : forall p s, In (p, s) (fileStatus report) ->
                    exists file now,
                      In (p, file, now) candidates
                      /\ s = getFileStatus dateParse messageOf p file now).
  { intros p s Hin. apply fromEntries_In, in_map_iff in Hin as [[[q file] now] [E Hc]].
    injection E as <- <-. now exists file, now. }
  assert (Husable : forall e, In e (fileStatus report) ->
                      (exists_ (snd e) && valid (snd e)) = valid (snd e)).
  { intros [p s] Hin. destruct (Hfrom p s Hin) as (file & now & _ & ->). cbn [snd].
    destruct (valid _) eqn:Ev; [|apply andb_false_r].
    now rewrite (valid_exists _ _ _ _ _ Ev). }
  split; [exact Hfrom|].
  set (l := filter (fun entry => exists_ (snd entry) && valid (snd entry))
                   (fileStatus report)).
  assert (Hl : forall e, In e l <-> In e (fileStatus report) /\ valid (snd e) = true).
  { intros e. unfold l. rewrite filter_In. split; intros [Hin Hv]; split; auto.
    - now rewrite <- Husable.
    - now rewrite Husable. }
  assert (Hhead := sort_head dateParse l).
  assert (Hnew : newestFile report
                 = match sort dateParse l with
                   | entry :: _ => Some (fst entry)
                   | [] => None
                   end) by reflexivity.
  rewrite Hnew. clear Hnew.
  destruct (sort dateParse l) as [|h r].
  - assert (El : l = []).
    { apply Hhead. intros [p s] He. apply Hl in He as [Hin Hv]. eauto. }
    split; [|discriminate]. split; [|reflexivity]. intros _ p s Hin.
    destruct (valid s) eqn:Ev; [|reflexivity].
    assert (In (p, s) l) by (apply Hl; auto). rewrite El in H. contradiction.
  - destruct Hhead as [Hh [th [Hth Hmax]]].
    { intros [p s] He. apply Hl in He as [Hin Hv]. eauto. }
    apply Hl in Hh as [Hin Hv]. destruct h as [p s]. cbn [fst snd] in *.
    split.
    + split; [discriminate|]. intros Hnone. now rewrite (Hnone p s Hin) in Hv.
    + intros p' [= <-]. exists s, th. repeat split; auto.
      intros q s' t' Hin' Hv' Ht'. apply (Hmax (q, s')); [|exact Ht'].
      apply Hl. auto.
Qed.

(** Three candidates: the first is missing, the other two are valid, and
    the third was modified last. *)
Lemma newest_file_is_latest_valid_witness :
  let snapshot :=
    quoted "{'__meta':{'isFallback':false,'generatedAt':'2026-02-10T00:00:00.000Z'},'agents':[],'crons':{'jobs':[]}}" in
  let candidates :=
    [(".next/server/generated-data.json",
      Rejected "ENOENT: no such file or directory", 1770703200000%Z);
     ("data/generated-data.json", Read 1770508800000 104 snapshot, 1770703200000%Z);
     ("home/clawd/openclaw-dashboard/data/generated-data.json",
      Read 1770681600000 104 snapshot, 1770703200000%Z)] in
  let report := GET sampleDateParse sampleMessageOf candidates in
  newestFile report = Some "home/clawd/openclaw-dashboard/data/generated-data.json"
  /\ exists s t,
       In ("home/clawd/openclaw-dashboard/data/generated-data.json", s)
          (fileStatus report)
       /\ valid s = true
       /\ timeOf sampleDateParse s = Some t
       /\ forall q s' t', In (q, s') (fileStatus report) -> valid s' = true ->
                          timeOf sampleDateParse s' = Some t' -> (t' <= t)%Z.
Proof.
  intros snapshot candidates report.
  assert (Hnew : newestFile report
                 = Some "home/clawd/openclaw-dashboard/data/generated-data.json")
    by (vm_compute; reflexivity).
  split; [exact Hnew|].
  refine (proj2 (proj2 (newest_file_is_latest_valid sampleDateParse sampleMessageOf
                          candidates _)) _ Hnew).
  assert (B : forallb (fun e => match timeOf sampleDateParse (snd e) with
                                | Some _ => true
                                | None => false
                                end)
                      (fileStatus report) = true) by (vm_compute; reflexivity).
  intros p s Hin _. rewrite forallb_forall in B. specialize (B _ Hin).
  cbn [snd] in B. destruct (timeOf sampleDateParse s) as [t|]; [|discriminate].
  now exists t.
Defined.

End DebugExtras.
